(** * Verification of [data_conversion/conversion.py]

    The script merges, for one stock, three daily price tables (unadjusted,
    backward-adjusted "hfq", forward-adjusted "qfq") into one table in the
    Qlib layout, writes it as [<exchange><code>.csv], and finally lists the
    produced files in [instruments.txt].

    The embedding follows the script statement by statement.  The pandas
    calls it makes are given a small executable semantics:
    - a [DataFrame] is a [RangeIndex] length and a list of named columns;
      [read_csv] and [merge] always produce such an index, so aligning a
      series on the index of a frame is truncation or padding with NaN;
    - a column is an [int64] array, a [float64] array or an [object] array
      of Python scalars; an [int64] column that receives a missing value
      becomes [float64];
    - [float64] is IEEE-754 binary64 ([spec_float] with [prec = 53],
      [emax = 1024]); [int64] arithmetic wraps around; division of numeric
      arrays never raises, division of [object] arrays does;
    - a left merge keeps the order of the left rows and gives one row per
      matching right row, missing keys matching each other;
    - a row-wise [apply] on a frame without rows gives the empty series;
    - the file system is a finite store of parsed tables and text files,
      with case-sensitive names, listed in the order of the store; a file
      name has no path separator;
    - a write is refused before anything is stored, or stores the whole
      file: a write that fails half way (a full disk), leaving an empty or
      truncated file, is outside the model;
    - [pd.to_datetime(..).dt.strftime('%Y-%m-%d')] is a parameter of the
      development. *)

From Stdlib Require Import String Ascii ZArith List Bool Arith Lia.
From Stdlib Require Import DecimalString.
From Stdlib Require Import SpecFloat.
Import ListNotations.
Local Open Scope string_scope.
Local Open Scope list_scope.

Set Implicit Arguments.

(** ** Strings *)

Module Str.

(** [s.startswith(p)] *)
Fixpoint startswith (p s : string) : bool :=
  match p, s with
  | EmptyString, _ => true
  | String a p', String b s' => Ascii.eqb a b && startswith p' s'
  | String _ _, EmptyString => false
  end.

(** [s.endswith(p)] *)
Fixpoint endswith (p s : string) : bool :=
  String.eqb p s ||
  match s with
  | EmptyString => false
  | String _ s' => endswith p s'
  end.

(** [s.split(c)[0]]: the text before the first occurrence of [c], the whole
    of [s] when [c] does not occur. *)
Fixpoint split_head (c : ascii) (s : string) : string :=
  match s with
  | EmptyString => EmptyString
  | String a s' => if Ascii.eqb a c then EmptyString else String a (split_head c s')
  end.

(** [c in s] *)
Fixpoint contains (c : ascii) (s : string) : bool :=
  match s with
  | EmptyString => false
  | String a s' => Ascii.eqb a c || contains c s'
  end.

(** [s * n] *)
Fixpoint repeat (s : string) (n : nat) : string :=
  match n with
  | O => EmptyString
  | S n' => s ++ repeat s n'
  end.

(** [str(n)] for a natural number *)
Definition of_nat (n : nat) : string := NilEmpty.string_of_uint (Nat.to_uint n).

End Str.

(** ** Numbers *)

Module F64.

Definition prec : Z := 53.
Definition emax : Z := 1024.

Definition t := spec_float.

Definition nan : t := S754_nan.
Definition zero : t := S754_zero false.

Definition mul : t -> t -> t := SFmul prec emax.
Definition div : t -> t -> t := SFdiv prec emax.

(** conversion of an integer, rounded to nearest even *)
Definition of_Z (z : Z) : t := binary_normalize prec emax z 0 false.

(** [x > y] *)
Definition gtb (x y : t) : bool := SFltb y x.
(** [x < y] *)
Definition ltb (x y : t) : bool := SFltb x y.
(** [x == y] *)
Definition eqb (x y : t) : bool := SFeqb x y.

Definition is_nan (x : t) : bool :=
  match x with S754_nan => true | _ => false end.

Definition is_zero (x : t) : bool :=
  match x with S754_zero _ => true | _ => false end.

Definition is_inf (x : t) : bool :=
  match x with S754_infinity _ => true | _ => false end.

End F64.

Module I64.

Definition min_int : Z := (- 2 ^ 63)%Z.
Definition max_int : Z := (2 ^ 63 - 1)%Z.

(** reduction of an integer into the signed 64-bit range *)
Definition wrap (z : Z) : Z := ((z + 2 ^ 63) mod 2 ^ 64 - 2 ^ 63)%Z.

Definition in_range (z : Z) : Prop := (min_int <= z <= max_int)%Z.

Definition mul (a b : Z) : Z := wrap (a * b).

End I64.

(** ** Exceptions *)

(** The Python exception classes the script can meet.  All but
    [KeyboardInterrupt] derive from [Exception]. *)
Inductive exn : Type :=
| FileNotFoundError (msg : string)
| PermissionError (msg : string)
| ParserError (msg : string)
| KeyError (msg : string)
| ValueError (msg : string)
| TypeError (msg : string)
| ZeroDivisionError (msg : string)
| KeyboardInterrupt.

(** [isinstance(e, Exception)] *)
Definition is_Exception (e : exn) : bool :=
  match e with
  | KeyboardInterrupt => false
  | _ => true
  end.

(** [str(e)] *)
Definition str_exn (e : exn) : string :=
  match e with
  | FileNotFoundError m | PermissionError m | ParserError m | KeyError m
  | ValueError m | TypeError m | ZeroDivisionError m => m
  | KeyboardInterrupt => EmptyString
  end.

(** Pure computations that may raise. *)
Definition result (A : Type) : Type := exn + A.

Definition rbind {A B} (m : result A) (f : A -> result B) : result B :=
  match m with
  | inl e => inl e
  | inr a => f a
  end.

Declare Scope result_scope.
Delimit Scope result_scope with result.
Notation "'let?' x ':=' m 'in' k" := (rbind m (fun x => k))
  (at level 10, x name, m at level 100, k at level 200) : result_scope.

Fixpoint rmap {A B} (f : A -> result B) (l : list A) : result (list B) :=
  match l with
  | [] => inr []
  | a :: l' =>
      match f a with
      | inl e => inl e
      | inr b =>
          match rmap f l' with
          | inl e => inl e
          | inr bs => inr (b :: bs)
          end
      end
  end.

(** ** Scalars and columns *)

(** A Python scalar as found in a cell: [int], [float] or [str].  A missing
    value is the float NaN. *)
Inductive scalar : Type :=
| SInt (z : Z)
| SFloat (f : F64.t)
| SStr (s : string).

Definition NaN : scalar := SFloat F64.nan.

(** [pd.notna(x)] *)
Definition notna (x : scalar) : bool :=
  match x with
  | SFloat f => negb (F64.is_nan f)
  | _ => true
  end.

(** The number a cell stands for; a string is not a number. *)
Definition as_float (x : scalar) : F64.t :=
  match x with
  | SInt z => F64.of_Z z
  | SFloat f => f
  | SStr _ => F64.nan
  end.

(** A column of a frame, by dtype. *)
Inductive column : Type :=
| Int64 (l : list Z)
| Float64 (l : list F64.t)
| Object (l : list scalar).

Definition col_len (c : column) : nat :=
  match c with
  | Int64 l => length l
  | Float64 l => length l
  | Object l => length l
  end.

(** [c[i]]; NaN past the end. *)
Definition col_get (c : column) (i : nat) : scalar :=
  match c with
  | Int64 l => match nth_error l i with Some z => SInt z | None => NaN end
  | Float64 l => SFloat (nth i l F64.nan)
  | Object l => nth i l NaN
  end.

Definition col_scalars (c : column) : list scalar :=
  match c with
  | Int64 l => map SInt l
  | Float64 l => map SFloat l
  | Object l => l
  end.

(** [c.take(idx)] where [None] (and any position past the end) selects a
    missing value.  An [int64] column that receives a missing value becomes
    [float64]. *)
Definition in_bounds (n : nat) (o : option nat) : bool :=
  match o with
  | Some j => Nat.ltb j n
  | None => false
  end.

Definition col_take (idx : list (option nat)) (c : column) : column :=
  match c with
  | Int64 l =>
      if forallb (in_bounds (length l)) idx
      then Int64 (map (fun o => match o with Some j => nth j l 0%Z | None => 0%Z end) idx)
      else Float64 (map (fun o => match o with
                                  | Some j => match nth_error l j with
                                              | Some z => F64.of_Z z
                                              | None => F64.nan
                                              end
                                  | None => F64.nan
                                  end) idx)
  | Float64 l =>
      Float64 (map (fun o => match o with Some j => nth j l F64.nan | None => F64.nan end) idx)
  | Object l =>
      Object (map (fun o => match o with Some j => nth j l NaN | None => NaN end) idx)
  end.

(** [c.reindex(range(n))] *)
Definition reindex (n : nat) (c : column) : column :=
  col_take (map Some (seq 0 n)) c.

(** ** Python arithmetic on scalars *)

(** [x * k] for an [int] [k]: Python integers are unbounded, a string is
    repeated. *)
Definition py_mul_int (x : scalar) (k : Z) : scalar :=
  match x with
  | SInt z => SInt (z * k)
  | SFloat f => SFloat (F64.mul f (F64.of_Z k))
  | SStr s => SStr (Str.repeat s (Z.to_nat k))
  end.

Definition py_is_zero (x : scalar) : bool :=
  match x with
  | SInt z => Z.eqb z 0
  | SFloat f => F64.is_zero f
  | SStr _ => false
  end.

(** [x / y] on Python objects *)
Definition py_truediv (x y : scalar) : result scalar :=
  match x, y with
  | SStr _, _ | _, SStr _ => inl (TypeError "unsupported operand type(s) for /")
  | _, _ =>
      if py_is_zero y then inl (ZeroDivisionError "division by zero")
      else inr (SFloat (F64.div (as_float x) (as_float y)))
  end.

(** [x > 0] *)
Definition py_gt_zero (x : scalar) : result bool :=
  match x with
  | SInt z => inr (Z.ltb 0 z)
  | SFloat f => inr (F64.gtb f F64.zero)
  | SStr _ => inl (TypeError "'>' not supported between instances of 'str' and 'int'")
  end.

(** ** Arithmetic on columns *)

(** [series * k]: numpy multiplies [int64] with wrap-around and [float64]
    in IEEE arithmetic; an [object] array is multiplied cell by cell. *)
Definition col_mul_int (c : column) (k : Z) : column :=
  match c with
  | Int64 l => Int64 (map (fun z => I64.mul z k) l)
  | Float64 l => Float64 (map (fun f => F64.mul f (F64.of_Z k)) l)
  | Object l => Object (map (fun x => py_mul_int x k) l)
  end.

Definition is_object (c : column) : bool :=
  match c with
  | Object _ => true
  | _ => false
  end.

Definition div_pair (p : scalar * scalar) : F64.t :=
  F64.div (as_float (fst p)) (as_float (snd p)).

Definition py_truediv_pair (p : scalar * scalar) : result scalar :=
  py_truediv (fst p) (snd p).

(** pandas' fallback for [object] operands: only the cells where both
    operands are present are divided, the others are NaN. *)
Definition masked_truediv_pair (p : scalar * scalar) : result scalar :=
  if notna (fst p) && notna (snd p) then py_truediv (fst p) (snd p) else inr NaN.

(** [a / b] for two series on the same [RangeIndex].  Numeric arrays are
    divided as [float64] (a zero divisor gives an infinity or NaN, no
    error).  With an [object] operand the cells are divided as Python
    objects; a [TypeError] there triggers the masked fallback, any other
    error is raised. *)
Definition col_truediv (a b : column) : result column :=
  let pairs := combine (col_scalars a) (col_scalars b) in
  if is_object a || is_object b then
    match rmap py_truediv_pair pairs with
    | inr l => inr (Object l)
    | inl (TypeError _) =>
        match rmap masked_truediv_pair pairs with
        | inr l => inr (Object l)
        | inl e => inl e
        end
    | inl e => inl e
    end
  else inr (Float64 (map div_pair pairs)).

(** dtype inference for a list of scalars (result of a row-wise apply) *)
Definition is_str (x : scalar) : bool :=
  match x with SStr _ => true | _ => false end.

Definition is_int (x : scalar) : bool :=
  match x with SInt _ => true | _ => false end.

Definition int_of (x : scalar) : Z :=
  match x with SInt z => z | _ => 0%Z end.

Definition infer_column (l : list scalar) : column :=
  if existsb is_str l then Object l
  else if forallb is_int l && negb (Nat.eqb (length l) 0) then Int64 (map int_of l)
  else Float64 (map as_float l).

(** ** Frames *)

Record DataFrame : Type := mkDataFrame {
  nrows : nat;                         (* length of the RangeIndex *)
  columns : list (string * column)
}.

Fixpoint find_col (name : string) (cols : list (string * column)) : option column :=
  match cols with
  | [] => None
  | (n, c) :: rest => if String.eqb n name then Some c else find_col name rest
  end.

Definition has_col (name : string) (cols : list (string * column)) : bool :=
  match find_col name cols with Some _ => true | None => false end.

(** [df[name]], aligned on the frame's index *)
Definition getitem (df : DataFrame) (name : string) : result column :=
  match find_col name (columns df) with
  | Some c => inr (reindex (nrows df) c)
  | None => inl (KeyError name)
  end.

Fixpoint set_col (name : string) (c : column) (cols : list (string * column))
  : list (string * column) :=
  match cols with
  | [] => [(name, c)]
  | (n, c0) :: rest =>
      if String.eqb n name then (n, c) :: rest else (n, c0) :: set_col name c rest
  end.

(** [df[name] = series]: the series is aligned on the frame's index; an
    existing column is replaced in place, a new one is appended. *)
Definition setitem (df : DataFrame) (name : string) (c : column) : DataFrame :=
  {| nrows := nrows df; columns := set_col name (reindex (nrows df) c) (columns df) |}.

(** [df[name] = s] for a string [s] *)
Definition setitem_str (df : DataFrame) (name : string) (s : string) : DataFrame :=
  {| nrows := nrows df;
     columns := set_col name (Object (List.repeat (SStr s) (nrows df))) (columns df) |}.

(** [df[[n1, ..., nk]].copy()] *)
Definition select (df : DataFrame) (names : list string) : result DataFrame :=
  match rmap (fun n => match getitem df n with
                       | inl e => inl e
                       | inr c => inr (n, c)
                       end) names with
  | inl e => inl e
  | inr cols => inr {| nrows := nrows df; columns := cols |}
  end.

Fixpoint assoc (n : string) (m : list (string * string)) : option string :=
  match m with
  | [] => None
  | (k, v) :: rest => if String.eqb k n then Some v else assoc n rest
  end.

(** [df.rename(columns=m, inplace=True)] *)
Definition rename (df : DataFrame) (m : list (string * string)) : DataFrame :=
  {| nrows := nrows df;
     columns := map (fun nc => (match assoc (fst nc) m with
                                | Some n' => n'
                                | None => fst nc
                                end, snd nc)) (columns df) |}.

(** *** Left merge on one key column *)

(** Equality of join keys; missing keys match each other. *)
Definition key_eqb (x y : scalar) : bool :=
  match x, y with
  | SStr a, SStr b => String.eqb a b
  | SInt a, SInt b => Z.eqb a b
  | SFloat a, SFloat b => (F64.is_nan a && F64.is_nan b) || F64.eqb a b
  | SInt a, SFloat b => F64.eqb (F64.of_Z a) b
  | SFloat a, SInt b => F64.eqb a (F64.of_Z b)
  | _, _ => false
  end.

(** positions of [rk], from [start], whose key equals [k] *)
Fixpoint matches_from (start : nat) (k : scalar) (rk : list scalar) : list nat :=
  match rk with
  | [] => []
  | r :: rest =>
      if key_eqb k r then start :: matches_from (S start) k rest
      else matches_from (S start) k rest
  end.

Definition matches (k : scalar) (rk : list scalar) : list nat := matches_from 0 k rk.

(** the rows a left row contributes: one per matching right row, in the
    order of the right table, or one unmatched row *)
Definition join_row (rk : list scalar) (i : nat) (k : scalar) : list (nat * option nat) :=
  match matches k rk with
  | [] => [(i, None)]
  | js => map (fun j => (i, Some j)) js
  end.

Fixpoint join_from (start : nat) (lk rk : list scalar) : list (nat * option nat) :=
  match lk with
  | [] => []
  | k :: rest => join_row rk start k ++ join_from (S start) rest rk
  end.

(** left and right row positions of the result of a left join, in the
    order of the left keys *)
Definition join_indexer (lk rk : list scalar) : list (nat * option nat) :=
  join_from 0 lk rk.

Definition left_idx (idx : list (nat * option nat)) : list (option nat) :=
  map (fun p => Some (fst p)) idx.

Definition right_idx (idx : list (nat * option nat)) : list (option nat) :=
  map snd idx.

Definition overlaps (on : string) (lcols rcols : list (string * column)) (n : string) : bool :=
  negb (String.eqb n on) && has_col n lcols && has_col n rcols.

Definition suffixed (on : string) (lcols rcols : list (string * column))
  (suffix : string) (n : string) : string :=
  if overlaps on lcols rcols n then n ++ suffix else n.

(** [left.merge(right, on=on, how='left', suffixes=(ls, rs))].  A suffix is
    added to a column name only when the name occurs on both sides and is
    not the key. *)
Definition merge_left (left right : DataFrame) (on : string) (suffixes : string * string)
  : result DataFrame :=
  match getitem left on, getitem right on with
  | inl e, _ => inl e
  | _, inl e => inl e
  | inr lk, inr rk =>
      let lcols := columns left in
      let rcols := columns right in
      if existsb (fun nc => overlaps on lcols rcols (fst nc)) lcols
         && String.eqb (fst suffixes) EmptyString && String.eqb (snd suffixes) EmptyString
      then inl (ValueError "columns overlap but no suffix specified")
      else
        let idx := join_indexer (col_scalars lk) (col_scalars rk) in
        inr {| nrows := length idx;
               columns :=
                 map (fun nc => (suffixed on lcols rcols (fst suffixes) (fst nc),
                                 col_take (left_idx idx) (reindex (nrows left) (snd nc))))
                     lcols
                 ++
                 map (fun nc => (suffixed on lcols rcols (snd suffixes) (fst nc),
                                 col_take (right_idx idx) (reindex (nrows right) (snd nc))))
                     (filter (fun nc => negb (String.eqb (fst nc) on)) rcols) |}
  end.

(** *** Row-wise apply *)

Definition row : Type := list (string * scalar).

Definition row_at (df : DataFrame) (i : nat) : row :=
  map (fun nc => (fst nc, col_get (snd nc) i)) (columns df).

Fixpoint row_get (x : row) (name : string) : result scalar :=
  match x with
  | [] => inl (KeyError name)
  | (n, v) :: rest => if String.eqb n name then inr v else row_get rest name
  end.

(** [df.apply(f, axis=1)] *)
Definition apply_rows (df : DataFrame) (f : row -> result scalar) : result column :=
  match rmap f (map (row_at df) (seq 0 (nrows df))) with
  | inl e => inl e
  | inr l => inr (infer_column l)
  end.

(** ** The file system and the console *)

(** A file is kept as what the script can see of it: the table
    [pd.read_csv] parses from it, or its text lines. *)
Inductive file : Type :=
| Csv (df : DataFrame)
| Text (lines : list string).

(** [os.path.join(dir, name)] for a file name without separator *)
Definition path : Type := (string * string)%type.

Definition os_path_join (dir name : string) : path := (dir, name).

(** [os.path.basename] *)
Definition basename (p : path) : string := snd p.

Definition path_eqb (p q : path) : bool :=
  String.eqb (fst p) (fst q) && String.eqb (snd p) (snd q).

Definition path_str (p : path) : string := (fst p ++ "/" ++ snd p)%string.

Record filesystem : Type := mkFs {
  dirs : list string;              (* directories that exist *)
  files : list (path * file);      (* files, in directory-listing order *)
  readonly : list string           (* directories that refuse writes *)
}.

Definition mem (s : string) (l : list string) : bool := existsb (String.eqb s) l.

Fixpoint find_file (p : path) (l : list (path * file)) : option file :=
  match l with
  | [] => None
  | (q, f) :: rest => if path_eqb q p then Some f else find_file p rest
  end.

Definition isdir (fs : filesystem) (d : string) : bool :=
  mem d (dirs fs) || existsb (fun e => String.eqb (fst (fst e)) d) (files fs).

Fixpoint store (p : path) (f : file) (l : list (path * file)) : list (path * file) :=
  match l with
  | [] => [(p, f)]
  | (q, g) :: rest => if path_eqb q p then (q, f) :: rest else (q, g) :: store p f rest
  end.

(** names of the files of a directory, in listing order *)
Definition listdir (fs : filesystem) (d : string) : list string :=
  map (fun e => snd (fst e)) (filter (fun e => String.eqb (fst (fst e)) d) (files fs)).

(** [glob] skips names that start with a dot unless the pattern does *)
Definition ishidden (n : string) : bool := Str.startswith "." n.

(** the result of [glob.glob(os.path.join(d, "*" + suffix))]: the names of
    [d] that do not start with a dot and end with [suffix], in listing
    order *)
Definition glob_star (fs : filesystem) (d : string) (suffix : string) : list path :=
  map (os_path_join d)
      (filter (fun n => negb (ishidden n) && Str.endswith suffix n) (listdir fs d)).

Record world : Type := mkWorld {
  fs : filesystem;
  stdout : list string             (* printed lines, oldest first *)
}.

(** Commands: they may raise, and keep the effects made before raising. *)
Definition M (A : Type) : Type := world -> result A * world.

Definition ret {A} (a : A) : M A := fun w => (inr a, w).

Definition bind {A B} (m : M A) (k : A -> M B) : M B :=
  fun w => match m w with
           | (inl e, w') => (inl e, w')
           | (inr a, w') => k a w'
           end.

Definition raise {A} (e : exn) : M A := fun w => (inl e, w).

Definition lift {A} (r : result A) : M A := fun w => (r, w).

Declare Scope cmd_scope.
Delimit Scope cmd_scope with cmd.
Notation "x <- m ;; k" := (bind m (fun x => k))
  (at level 61, m at next level, right associativity) : cmd_scope.
Notation "m ;; k" := (bind m (fun _ => k))
  (at level 61, right associativity) : cmd_scope.

(** [try: body except Exception as e: handler(e)] *)
Definition try_except {A} (body : M A) (handler : exn -> M A) : M A :=
  fun w => match body w with
           | (inl e, w') => if is_Exception e then handler e w' else (inl e, w')
           | (inr a, w') => (inr a, w')
           end.

(** [print(s)] *)
Definition print (s : string) : M unit :=
  fun w => (inr tt, {| fs := fs w; stdout := stdout w ++ [s] |}).

(** [pd.read_csv(p)] *)
Definition read_csv (p : path) : M DataFrame :=
  fun w => match find_file p (files (fs w)) with
           | None => (inl (FileNotFoundError (path_str p)), w)
           | Some (Text _) => (inl (ParserError (path_str p)), w)
           | Some (Csv df) => (inr df, w)
           end.

(** [os.makedirs(d, exist_ok=True)] *)
Definition makedirs (d : string) : M unit :=
  fun w => if isdir (fs w) d then (inr tt, w)
           else (inr tt, {| fs := {| dirs := dirs (fs w) ++ [d];
                                     files := files (fs w);
                                     readonly := readonly (fs w) |};
                            stdout := stdout w |}).

(** creating or overwriting the file [p] with content [f] *)
Definition write_file (p : path) (f : file) : M unit :=
  fun w => if mem (fst p) (readonly (fs w)) then (inl (PermissionError (path_str p)), w)
           else if negb (isdir (fs w) (fst p)) then (inl (FileNotFoundError (path_str p)), w)
           else (inr tt, {| fs := {| dirs := dirs (fs w);
                                     files := store p f (files (fs w));
                                     readonly := readonly (fs w) |};
                            stdout := stdout w |}).

(** [df.to_csv(p, index=False)] *)
Definition to_csv (df : DataFrame) (p : path) : M unit := write_file p (Csv df).

(** [glob.glob(os.path.join(d, "*" + suffix))] *)
Definition glob (d : string) (suffix : string) : M (list path) :=
  fun w => (inr (glob_star (fs w) d suffix), w).

(** [for x in xs: body(x)] with an accumulator *)
Fixpoint for_each {A S} (xs : list A) (body : S -> A -> M S) (acc : S) : M S :=
  match xs with
  | [] => ret acc
  | x :: rest => bind (body acc x) (fun acc' => for_each rest body acc')
  end.

(** ** The script *)

Module Col.
(** the column headers of the input files *)
Definition date_ : string := "日期".
Definition code_ : string := "股票代码".
Definition lots_ : string := "成交量".
Definition turnover_ : string := "成交额".
Definition open_ : string := "开盘".
Definition close_ : string := "收盘".
Definition high_ : string := "最高".
Definition low_ : string := "最低".
End Col.

Section Script.

(** [pd.to_datetime(series).dt.strftime('%Y-%m-%d')]: on failure the
    message of the exception, otherwise the formatted dates, [None] for a
    missing date.  The result is an [object] series on the index of its
    argument. *)
Variable to_datetime_strftime : column -> string + list (option string).

Definition date_cell (o : option string) : scalar :=
  match o with
  | Some s => SStr s
  | None => NaN
  end.

(** [df['日期'] = pd.to_datetime(df['日期']).dt.strftime('%Y-%m-%d')] *)
Definition normalize_date (df : DataFrame) : result DataFrame :=
  match getitem df Col.date_ with
  | inl e => inl e
  | inr c =>
      match to_datetime_strftime c with
      | inl msg => inl (ValueError msg)
      | inr l => inr (setitem df Col.date_ (Object (map date_cell l)))
      end
  end.

(** [lambda x: x['vwap'] if x['volume'] > 0 else np.nan] *)
Definition vwap_guard (x : row) : result scalar :=
  match row_get x "volume" with
  | inl e => inl e
  | inr v =>
      match py_gt_zero v with
      | inl e => inl e
      | inr true => row_get x "vwap"
      | inr false => inr NaN
      end
  end.

Definition price_columns : list string := [Col.date_; Col.open_; Col.close_; Col.high_; Col.low_].

Definition qlib_columns : list string :=
  [Col.date_; "open"; "high"; "low"; "close"; "volume"; "amount"; "vwap"; "factor"].

Definition price_renaming : list (string * string) :=
  [ ("开盘_hfq", "open"); ("收盘_hfq", "close");
    ("最高_hfq", "high"); ("最低_hfq", "low");
    ("开盘_qfq", "open_qfq"); ("收盘_qfq", "close_qfq");
    ("最高_qfq", "high_qfq"); ("最低_qfq", "low_qfq") ].

Local Open Scope result_scope.

(** Lines 35 to 98 of [process_stock_data]: from the three tables read to
    the table written. *)
Definition qlib_frame (exchange stock_code : string)
  (no_adj_df hfq_df qfq_df : DataFrame) : result DataFrame :=
  let? no_adj_df := normalize_date no_adj_df in
  let? hfq_df := normalize_date hfq_df in
  let? qfq_df := normalize_date qfq_df in
  let? merged_df := select no_adj_df [Col.date_; Col.code_; Col.lots_; Col.turnover_] in
  let? hfq_prices := select hfq_df price_columns in
  let? merged_df := merge_left merged_df hfq_prices Col.date_ (EmptyString, "_hfq") in
  let? qfq_prices := select qfq_df price_columns in
  let? merged_df := merge_left merged_df qfq_prices Col.date_ ("_hfq", "_qfq") in
  let merged_df := rename merged_df price_renaming in
  let merged_df := setitem_str merged_df "instrument" (exchange ++ stock_code)%string in
  let? lots := getitem merged_df Col.lots_ in
  let merged_df := setitem merged_df "volume" (col_mul_int lots 100) in
  let? turnover := getitem merged_df Col.turnover_ in
  let merged_df := setitem merged_df "amount" turnover in
  let? amount := getitem merged_df "amount" in
  let? volume := getitem merged_df "volume" in
  let? quotient := col_truediv amount volume in
  let merged_df := setitem merged_df "vwap" quotient in
  let? guarded := apply_rows merged_df vwap_guard in
  let merged_df := setitem merged_df "vwap" guarded in
  let? close_no_adj := getitem no_adj_df Col.close_ in
  let merged_df := setitem merged_df "close_no_adj" close_no_adj in
  let? close := getitem merged_df "close" in
  let? close_no_adj := getitem merged_df "close_no_adj" in
  let? factor := col_truediv close close_no_adj in
  let merged_df := setitem merged_df "factor" factor in
  let? qlib_df := select merged_df qlib_columns in
  inr (rename qlib_df [(Col.date_, "date")]).

Local Close Scope result_scope.
Local Open Scope cmd_scope.

(** the exchange prefix: [if stock_code.startswith('6')] *)
Definition exchange_of (stock_code : string) : string :=
  if Str.startswith "6" stock_code then "SH" else "SZ".

Definition output_name (stock_code : string) : string :=
  (exchange_of stock_code ++ stock_code ++ ".csv")%string.

(** the body of the [try] block *)
Definition process_stock_data_try
  (stock_code no_adj_dir hfq_dir qfq_dir output_dir : string) : M bool :=
  let exchange := exchange_of stock_code in
  let no_adj_file := os_path_join no_adj_dir (stock_code ++ "_daily.csv")%string in
  let hfq_file := os_path_join hfq_dir (stock_code ++ "_daily_hfq.csv")%string in
  let qfq_file := os_path_join qfq_dir (stock_code ++ "_daily_qfq.csv")%string in
  no_adj_df <- read_csv no_adj_file ;;
  hfq_df <- read_csv hfq_file ;;
  qfq_df <- read_csv qfq_file ;;
  qlib_df <- lift (qlib_frame exchange stock_code no_adj_df hfq_df qfq_df) ;;
  makedirs output_dir ;;
  let output_file := os_path_join output_dir (exchange ++ stock_code ++ ".csv")%string in
  to_csv qlib_df output_file ;;
  ret true.

(** the diagnostic of the [except] clause *)
Definition diagnostic (stock_code : string) (e : exn) : string :=
  ("处理股票 " ++ stock_code ++ " 时出错: " ++ str_exn e)%string.

Definition process_stock_data
  (stock_code no_adj_dir hfq_dir qfq_dir output_dir : string) : M bool :=
  try_except
    (process_stock_data_try stock_code no_adj_dir hfq_dir qfq_dir output_dir)
    (fun e => print (diagnostic stock_code e) ;; ret false).

Definition instruments_name : string := "instruments.txt".

Definition generate_instruments_file (data_dir : string) : M unit :=
  csv_files <- glob data_dir ".csv" ;;
  let instruments := map (fun f => Str.split_head "." (basename f)) csv_files in
  let instruments_file := os_path_join data_dir instruments_name in
  write_file instruments_file (Text instruments) ;;
  print ("已生成 " ++ path_str instruments_file ++ "，包含 "
         ++ Str.of_nat (length instruments) ++ " 只股票")%string.

Definition summary (success_count total : nat) : string :=
  ("处理完成! 成功处理 " ++ Str.of_nat success_count ++ "/" ++ Str.of_nat total
   ++ " 只股票的数据")%string.

(** the loop of [main]: the success counter after the given codes *)
Definition count_step (no_adj_dir hfq_dir qfq_dir output_dir : string)
  (success_count : nat) (stock_code : string) : M nat :=
  ok <- process_stock_data stock_code no_adj_dir hfq_dir qfq_dir output_dir ;;
  ret (if ok then S success_count else success_count).

(** [main], with its four directories as arguments *)
Definition run (no_adj_dir hfq_dir qfq_dir output_dir : string) : M unit :=
  no_adj_files <- glob no_adj_dir "_daily.csv" ;;
  let stock_codes := map (fun f => Str.split_head "_" (basename f)) no_adj_files in
  print ("找到 " ++ Str.of_nat (length stock_codes) ++ " 只股票的数据")%string ;;
  success_count <- for_each stock_codes
                     (count_step no_adj_dir hfq_dir qfq_dir output_dir) 0 ;;
  print (summary success_count (length stock_codes)) ;;
  generate_instruments_file output_dir.

Definition main : M unit :=
  run "D:\BaiduNetdiskDownload\daily" "D:\BaiduNetdiskDownload\daily_hfq"
      "D:\BaiduNetdiskDownload\daily_qfq" "D:\data".

Local Close Scope cmd_scope.

End Script.

(** ** Vocabulary of the statements *)

(** the cell of column [name] on row [i], as the script reads it *)
Definition cell (df : DataFrame) (name : string) (i : nat) : scalar :=
  match getitem df name with
  | inr c => col_get c i
  | inl _ => NaN
  end.

(** the column headers, in order *)
Definition header (df : DataFrame) : list string := map fst (columns df).

(** the value of an [int64] cell once its column has become [float64] *)
Definition promote (x : scalar) : scalar :=
  match x with
  | SInt z => SFloat (F64.of_Z z)
  | _ => x
  end.

(** [e] is the value [v], possibly converted to [float64] *)
Definition carries (v e : scalar) : Prop := e = v \/ e = promote v.

(** [x < 0] for a number *)
Definition is_negative (x : scalar) : bool :=
  match x with
  | SInt z => Z.ltb z 0
  | SFloat f => F64.ltb f F64.zero
  | SStr _ => false
  end.

(** [x > 0] for a number *)
Definition is_positive (x : scalar) : bool :=
  match x with
  | SInt z => Z.ltb 0 z
  | SFloat f => F64.gtb f F64.zero
  | SStr _ => false
  end.

(** every key of [lk] matches at most one row of [rk] *)
Definition single_match (lk rk : list scalar) : bool :=
  forallb (fun k => Nat.leb (length (matches k rk)) 1) lk.

(** What a row of the join says: its left position is a row of the left
    table; its right position, when there is one, is a row of the right
    table with the same key; without one, no right row has that key. *)
Definition join_row_ok (lk rk : list scalar) (s : nat) (p : nat * option nat) : Prop :=
  s <= fst p /\ fst p < s + length lk /\
  match snd p with
  | Some j => j < length rk /\ key_eqb (nth (fst p - s) lk NaN) (nth j rk NaN) = true
  | None => forall j, j < length rk -> key_eqb (nth (fst p - s) lk NaN) (nth j rk NaN) = false
  end.

(** [safe r]: [r] raises nothing but instances of [Exception] *)
Definition safe {A : Type} (r : result A) : Prop :=
  forall e, r = inl e -> is_Exception e = true.

(** the world after [os.makedirs(output_dir, exist_ok=True)] *)
Definition after_makedirs (d : string) (w : world) : world := snd (makedirs d w).

(** [df] has a column [name] *)
Definition has_column (df : DataFrame) (name : string) : bool :=
  match getitem df name with
  | inr _ => true
  | inl _ => false
  end.

(** [df] has a column [name] of dtype [int64] or [float64] *)
Definition has_numeric (df : DataFrame) (name : string) : bool :=
  match getitem df name with
  | inr c => negb (is_object c)
  | inl _ => false
  end.

(** the file found at a path *)
Definition file_at (w : world) (p : path) : option file := find_file p (files (fs w)).

(** a file name without its last four characters (the [.csv] extension) *)
Definition strip_csv (n : string) : string := substring 0 (String.length n - 4) n.

Section Vocabulary.

Variable to_datetime_strftime : column -> string + list (option string).

(** the join keys of a table: its dates once normalised *)
Definition date_keys (df : DataFrame) : list scalar :=
  match normalize_date to_datetime_strftime df with
  | inl _ => []
  | inr df' =>
      match getitem df' Col.date_ with
      | inl _ => []
      | inr c => col_scalars c
      end
  end.

(** the dates of [df] are present and can be normalised *)
Definition has_dates (df : DataFrame) : bool :=
  match normalize_date to_datetime_strftime df with
  | inr _ => true
  | inl _ => false
  end.

(** The three tables of an instrument are well formed: each has dates that
    can be normalised; the unadjusted table has the code column and
    numeric volume, amount and close; the adjusted tables have open, high,
    low and close, the backward-adjusted close being numeric. *)
Definition well_formed (na hf qf : DataFrame) : bool :=
  has_dates na && has_dates hf && has_dates qf
  && has_column na Col.code_ && has_numeric na Col.lots_
  && has_numeric na Col.turnover_ && has_numeric na Col.close_
  && has_column hf Col.open_ && has_numeric hf Col.close_
  && has_column hf Col.high_ && has_column hf Col.low_
  && has_column qf Col.open_ && has_column qf Col.close_
  && has_column qf Col.high_ && has_column qf Col.low_.

(** the two joins of the script and the columns they carry over *)
Definition hfq_join (na hf : DataFrame) : list (nat * option nat) :=
  join_indexer (date_keys na) (date_keys hf).

Definition merged_keys (na hf : DataFrame) : column :=
  col_take (left_idx (hfq_join na hf)) (Object (date_keys na)).

Definition qfq_join (na hf qf : DataFrame) : list (nat * option nat) :=
  join_indexer (col_scalars (merged_keys na hf)) (date_keys qf).

(** a column of the unadjusted table, carried through both joins *)
Definition from_left (na hf qf : DataFrame) (c : column) : column :=
  col_take (left_idx (qfq_join na hf qf)) (col_take (left_idx (hfq_join na hf)) c).

(** a column of the backward-adjusted table, carried through both joins *)
Definition from_hfq (na hf qf : DataFrame) (c : column) : column :=
  col_take (left_idx (qfq_join na hf qf)) (col_take (right_idx (hfq_join na hf)) c).

(** the row of the first join an output row stems from *)
Definition merged_row (na hf qf : DataFrame) (i : nat) : nat :=
  fst (nth i (qfq_join na hf qf) (0, None)).

(** the row of the unadjusted table an output row stems from *)
Definition source_row (na hf qf : DataFrame) (i : nat) : nat :=
  fst (nth (merged_row na hf qf i) (hfq_join na hf) (0, None)).

(** the row of the backward-adjusted table joined to an output row *)
Definition hfq_row (na hf qf : DataFrame) (i : nat) : option nat :=
  snd (nth (merged_row na hf qf i) (hfq_join na hf) (0, None)).

(** [process_stock_data] reads the three tables [na], [hf], [qf] for
    [stock_code] in world [w], returns [True] and leaves the table [out]
    in the output file *)
Definition emits (stock_code no_adj_dir hfq_dir qfq_dir output_dir : string) (w : world)
  (na hf qf out : DataFrame) : Prop :=
  file_at w (no_adj_dir, (stock_code ++ "_daily.csv")%string) = Some (Csv na) /\
  file_at w (hfq_dir, (stock_code ++ "_daily_hfq.csv")%string) = Some (Csv hf) /\
  file_at w (qfq_dir, (stock_code ++ "_daily_qfq.csv")%string) = Some (Csv qf) /\
  exists w',
    process_stock_data to_datetime_strftime stock_code no_adj_dir hfq_dir qfq_dir output_dir w
      = (inr true, w') /\
    file_at w' (output_dir, output_name stock_code) = Some (Csv out).

(** the results of the normalizer on a list of codes, run in sequence *)
Fixpoint outcomes (no_adj_dir hfq_dir qfq_dir output_dir : string)
  (codes : list string) (w : world) : list bool :=
  match codes with
  | [] => []
  | c :: rest =>
      let r := process_stock_data to_datetime_strftime c no_adj_dir hfq_dir qfq_dir output_dir w in
      match fst r with
      | inr b => b :: outcomes no_adj_dir hfq_dir qfq_dir output_dir rest (snd r)
      | inl _ => []
      end
  end.

End Vocabulary.

(** the names a [*.csv] glob returns for a directory *)
Definition visible_csv_names (fs : filesystem) (d : string) : list string :=
  filter (fun n => negb (ishidden n) && Str.endswith ".csv" n) (listdir fs d).

(** number of [True] in a list of results *)
Definition successes (l : list bool) : nat := count_occ Bool.bool_dec l true.

(** the instrument codes [main] discovers in the unadjusted directory *)
Definition discovered_codes (no_adj_dir : string) (w : world) : list string :=
  map (fun f => Str.split_head "_" (basename f)) (glob_star (fs w) no_adj_dir "_daily.csv").

(** the first line [main] prints *)
Definition found_line (n : nat) : string :=
  ("找到 " ++ Str.of_nat n ++ " 只股票的数据")%string.

(** ** Example data *)

Module Ex.

Definition is_digit (c : ascii) : bool :=
  let n := nat_of_ascii c in Nat.leb 48 n && Nat.leb n 57.

Definition digit (c : ascii) : Z := Z.of_nat (nat_of_ascii c) - 48.

Definition is_leap (y : Z) : bool :=
  (y mod 4 =? 0)%Z && (negb (y mod 100 =? 0)%Z || (y mod 400 =? 0)%Z).

Definition days_in_month (y m : Z) : Z :=
  if (m =? 2)%Z then (if is_leap y then 29 else 28)
  else if (m =? 4)%Z || (m =? 6)%Z || (m =? 9)%Z || (m =? 11)%Z then 30
  else 31.

(** [YYYY-MM-DD], a day of the calendar that a pandas timestamp can hold
    (1677-09-22 to 2262-04-11) *)
Definition is_iso_date (s : string) : bool :=
  match list_ascii_of_string s with
  | [y1; y2; y3; y4; d1; m1; m2; d2; a1; a2] =>
      let y := (1000 * digit y1 + 100 * digit y2 + 10 * digit y3 + digit y4)%Z in
      let m := (10 * digit m1 + digit m2)%Z in
      let d := (10 * digit a1 + digit a2)%Z in
      let n := (10000 * y + 100 * m + d)%Z in
      forallb is_digit [y1; y2; y3; y4; m1; m2; a1; a2]
      && Ascii.eqb d1 "-" && Ascii.eqb d2 "-"
      && (1 <=? m)%Z && (m <=? 12)%Z && (1 <=? d)%Z && (d <=? days_in_month y m)%Z
      && (16770922 <=? n)%Z && (n <=? 22620411)%Z
  | _ => false
  end.

Definition iso_cell (x : scalar) : option (option string) :=
  match x with
  | SStr s => if is_iso_date s then Some (Some s) else None
  | SFloat f => if F64.is_nan f then Some None else None
  | SInt _ => None
  end.

Fixpoint iso_cells (l : list scalar) : option (list (option string)) :=
  match l with
  | [] => Some []
  | x :: rest =>
      match iso_cell x, iso_cells rest with
      | Some d, Some ds => Some (d :: ds)
      | _, _ => None
      end
  end.

(** An instance of the date parameter for the examples.  It covers the
    columns whose cells are days of the calendar written [YYYY-MM-DD] or
    missing values, which it returns as they are, as pandas does.  It
    rejects every other column: so does pandas for a text that is no date
    (such as the thirteenth month in [2024-13-45]), whereas pandas also
    reads other layouts and numbers, which the examples do not use. *)
Definition iso_dates (c : column) : string + list (option string) :=
  match iso_cells (col_scalars c) with
  | Some l => inr l
  | None => inl "time data does not match format"
  end.

Definition strs (l : list string) : column := Object (map SStr l).
Definition floats (l : list Z) : column := Float64 (map F64.of_Z l).

(** an unadjusted table of two days; the second day has no trade *)
Definition na : DataFrame :=
  {| nrows := 2;
     columns := [ (Col.date_, strs ["2024-01-02"; "2024-01-03"]);
                  (Col.code_, Int64 [600001; 600001]%Z);
                  (Col.open_, floats [10; 20]%Z);
                  (Col.close_, floats [10; 20]%Z);
                  (Col.high_, floats [10; 20]%Z);
                  (Col.low_, floats [10; 20]%Z);
                  (Col.lots_, Int64 [100; 0]%Z);
                  (Col.turnover_, floats [5000; 0]%Z) ] |}.

Definition prices (dates : list string) (l : list Z) : DataFrame :=
  {| nrows := length dates;
     columns := [ (Col.date_, strs dates);
                  (Col.open_, floats l); (Col.close_, floats l);
                  (Col.high_, floats l); (Col.low_, floats l) ] |}.

Definition hf : DataFrame := prices ["2024-01-02"; "2024-01-03"] [100; 110]%Z.
Definition qf : DataFrame := prices ["2024-01-02"; "2024-01-03"] [1; 2]%Z.

(** a backward-adjusted table that repeats its first date *)
Definition hf_dup : DataFrame := prices ["2024-01-02"; "2024-01-02"] [100; 110]%Z.

(** an unadjusted table whose volume in lots is 2^62 *)
Definition na_big : DataFrame :=
  {| nrows := 1;
     columns := [ (Col.date_, strs ["2024-01-02"]);
                  (Col.code_, Int64 [600001]%Z);
                  (Col.close_, floats [10]%Z);
                  (Col.lots_, Int64 [4611686018427387904]%Z);
                  (Col.turnover_, floats [5000]%Z) ] |}.

Definition hf1 : DataFrame := prices ["2024-01-02"] [100]%Z.
Definition qf1 : DataFrame := prices ["2024-01-02"] [1]%Z.

Definition triple (code : string) (a h q : DataFrame) : list (path * file) :=
  [ (("daily", (code ++ "_daily.csv")%string), Csv a);
    (("daily_hfq", (code ++ "_daily_hfq.csv")%string), Csv h);
    (("daily_qfq", (code ++ "_daily_qfq.csv")%string), Csv q) ].

Definition world_of (fl : list (path * file)) (ro : list string) : world :=
  {| fs := {| dirs := ["daily"; "daily_hfq"; "daily_qfq"; "out"]; files := fl; readonly := ro |};
     stdout := [] |}.

(** one complete instrument *)
Definition w1 : world := world_of (triple "600001" na hf qf) [].

(** the same with the repeated date in the backward-adjusted file *)
Definition w_dup : world := world_of (triple "600001" na hf_dup qf) [].

(** the instrument with the huge volume *)
Definition w_big : world := world_of (triple "600001" na_big hf1 qf1) [].

(** an unadjusted table with a negative volume *)
Definition na_neg : DataFrame :=
  {| nrows := 1;
     columns := [ (Col.date_, strs ["2024-01-02"]);
                  (Col.code_, Int64 [600001]%Z);
                  (Col.close_, floats [10]%Z);
                  (Col.lots_, Int64 [-5]%Z);
                  (Col.turnover_, floats [5000]%Z) ] |}.

Definition w_neg : world := world_of (triple "600001" na_neg hf1 qf1) [].

(** the output directory refuses writes *)
Definition w_ro : world := world_of (triple "600001" na hf qf) ["out"].

(** three instruments; the backward-adjusted file of the second is missing *)
Definition w_batch : world :=
  world_of (triple "600001" na hf qf
            ++ [ (("daily", "000001_daily.csv"), Csv na);
                 (("daily_qfq", "000001_daily_qfq.csv"), Csv qf) ]
            ++ triple "000002" na hf qf) [].

(** an output directory with two produced files and an old manifest *)
Definition w_out : world :=
  world_of [ (("out", "SH600001.csv"), Csv na);
             (("out", "instruments.txt"), Text ["OLD1"; "OLD2"; "OLD3"]);
             (("out", "SZ000001.csv"), Csv na) ] [].

(** an output directory with a file name that has two dots *)
Definition w_dots : world :=
  world_of [ (("out", "SH600001.csv"), Csv na);
             (("out", "SZ000001.bak.csv"), Csv na) ] [].

(** the table [process_stock_data] leaves for [600001] *)
Definition emitted (w : world) : DataFrame :=
  match file_at (snd (process_stock_data iso_dates "600001" "daily" "daily_hfq" "daily_qfq"
                        "out" w)) ("out", "SH600001.csv") with
  | Some (Csv df) => df
  | _ => {| nrows := 0; columns := [] |}
  end.

End Ex.

(** ** More vocabulary *)

(** the world after one more printed line *)
Definition say (w : world) (line : string) : world :=
  {| fs := fs w; stdout := stdout w ++ [line] |}.

(** the results of the normalizer in a run of [main]: one per discovered
    code, in order, starting after the first printed line *)
Definition batch_outcomes (to_datetime_strftime : column -> string + list (option string))
  (no_adj_dir hfq_dir qfq_dir output_dir : string) (w : world) : list bool :=
  outcomes to_datetime_strftime no_adj_dir hfq_dir qfq_dir output_dir
    (discovered_codes no_adj_dir w)
    (say w (found_line (length (discovered_codes no_adj_dir w)))).

(** the path of the manifest of a directory *)
Definition manifest_path (data_dir : string) : path := (data_dir, instruments_name).

(** lines 26 to 98 of [process_stock_data]: the three tables read and
    transformed, everything the [try] block does before [os.makedirs] *)
Definition load_and_transform
  (to_datetime_strftime : column -> string + list (option string))
  (stock_code no_adj_dir hfq_dir qfq_dir : string) : M DataFrame :=
  (let exchange := exchange_of stock_code in
   let no_adj_file := os_path_join no_adj_dir (stock_code ++ "_daily.csv")%string in
   let hfq_file := os_path_join hfq_dir (stock_code ++ "_daily_hfq.csv")%string in
   let qfq_file := os_path_join qfq_dir (stock_code ++ "_daily_qfq.csv")%string in
   no_adj_df <- read_csv no_adj_file ;;
   hfq_df <- read_csv hfq_file ;;
   qfq_df <- read_csv qfq_file ;;
   lift (qlib_frame to_datetime_strftime exchange stock_code no_adj_df hfq_df qfq_df))%cmd.

(** the dtype of a column is [int64] *)
Definition is_int64 (c : column) : bool :=
  match c with
  | Int64 _ => true
  | _ => false
  end.

(** [df] has a column [name] of dtype [int64] *)
Definition has_int64 (df : DataFrame) (name : string) : bool :=
  match getitem df name with
  | inr c => is_int64 c
  | inl _ => false
  end.

(** the columns the script reads by name *)
Definition required_columns (na hf qf : DataFrame) : bool :=
  forallb (has_column na) [Col.date_; Col.code_; Col.lots_; Col.turnover_; Col.close_]
  && forallb (has_column hf) [Col.date_; Col.open_; Col.close_; Col.high_; Col.low_]
  && forallb (has_column qf) [Col.date_; Col.open_; Col.close_; Col.high_; Col.low_].

(** the number of rows a left row of key [k] gives in a left join *)
Definition fanout (k : scalar) (rk : list scalar) : nat := Nat.max 1 (length (matches k rk)).

(** [x] is a finite number other than zero *)
Definition is_finite_nonzero (x : F64.t) : bool :=
  match x with
  | S754_finite _ _ _ => true
  | _ => false
  end.

(** ** More example data *)

Module Ex2.

(** a forward-adjusted table without its open column *)
Definition qf_no_open : DataFrame :=
  {| nrows := 2;
     columns := [ (Col.date_, Ex.strs ["2024-01-02"; "2024-01-03"]);
                  (Col.close_, Ex.floats [1; 2]%Z);
                  (Col.high_, Ex.floats [1; 2]%Z);
                  (Col.low_, Ex.floats [1; 2]%Z) ] |}.

Definition w_no_open : world := Ex.world_of (Ex.triple "600001" Ex.na Ex.hf qf_no_open) [].

(** an unadjusted table whose first date names a thirteenth month *)
Definition na_undated : DataFrame :=
  {| nrows := 2;
     columns := [ (Col.date_, Ex.strs ["2024-13-45"; "2024-01-03"]);
                  (Col.code_, Int64 [600001; 600001]%Z);
                  (Col.close_, Ex.floats [10; 20]%Z);
                  (Col.lots_, Int64 [100; 0]%Z);
                  (Col.turnover_, Ex.floats [5000; 0]%Z) ] |}.

Definition w_undated : world := Ex.world_of (Ex.triple "600001" na_undated Ex.hf Ex.qf) [].

(** an unadjusted table with a day without trade that has an amount *)
Definition na_idle : DataFrame :=
  {| nrows := 2;
     columns := [ (Col.date_, Ex.strs ["2024-01-02"; "2024-01-03"]);
                  (Col.code_, Int64 [600001; 600001]%Z);
                  (Col.close_, Ex.floats [10; 20]%Z);
                  (Col.lots_, Int64 [100; 0]%Z);
                  (Col.turnover_, Ex.floats [5000; 7]%Z) ] |}.

Definition w_idle : world := Ex.world_of (Ex.triple "600001" na_idle Ex.hf Ex.qf) [].

(** an unadjusted table whose volume column is of dtype [object]: its
    first volume does not fit in 64 bits, its second volume is zero *)
Definition na_obj : DataFrame :=
  {| nrows := 2;
     columns := [ (Col.date_, Ex.strs ["2024-01-02"; "2024-01-03"]);
                  (Col.code_, Int64 [600001; 600001]%Z);
                  (Col.close_, Ex.floats [10; 20]%Z);
                  (Col.lots_, Object [SInt (2 ^ 70); SInt 0]);
                  (Col.turnover_, Ex.floats [5000; 7]%Z) ] |}.

Definition w_obj : world := Ex.world_of (Ex.triple "600001" na_obj Ex.hf Ex.qf) [].

(** a backward-adjusted table with the first day twice *)
Definition hf_rep : DataFrame :=
  Ex.prices ["2024-01-02"; "2024-01-02"; "2024-01-03"] [100; 110; 120]%Z.

Definition w_rep : world := Ex.world_of (Ex.triple "600001" Ex.na hf_rep Ex.qf) [].

(** a backward-adjusted table that lacks the second day *)
Definition hf_gap : DataFrame := Ex.prices ["2024-01-02"] [100]%Z.

Definition w_gap : world := Ex.world_of (Ex.triple "600001" Ex.na hf_gap Ex.qf) [].

(** an unadjusted table whose first close is zero *)
Definition na_zero : DataFrame :=
  {| nrows := 2;
     columns := [ (Col.date_, Ex.strs ["2024-01-02"; "2024-01-03"]);
                  (Col.code_, Int64 [600001; 600001]%Z);
                  (Col.close_, Ex.floats [0; 20]%Z);
                  (Col.lots_, Int64 [100; 0]%Z);
                  (Col.turnover_, Ex.floats [5000; 0]%Z) ] |}.

Definition w_zero : world := Ex.world_of (Ex.triple "600001" na_zero Ex.hf Ex.qf) [].

(** a world without output directory and without backward-adjusted files *)
Definition w_bare : world :=
  {| fs := {| dirs := ["daily"];
              files := [ (("daily", "600001_daily.csv"), Csv Ex.na);
                         (("daily", "000001_daily.csv"), Csv Ex.na) ];
              readonly := [] |};
     stdout := [] |}.

(** a world without output directory, with one complete instrument *)
Definition w_fresh : world :=
  {| fs := {| dirs := ["daily"; "daily_hfq"; "daily_qfq"];
              files := Ex.triple "600001" Ex.na Ex.hf Ex.qf;
              readonly := [] |};
     stdout := [] |}.

(** forward-adjusted tables of the same dates and other prices *)
Definition qf_other : DataFrame := Ex.prices ["2024-01-02"; "2024-01-03"] [7; 9]%Z.

(** the table computed from the first example with [qf] as forward-adjusted
    table *)
Definition frame_with (qf : DataFrame) : DataFrame :=
  match qlib_frame Ex.iso_dates "SH" "600001" Ex.na Ex.hf qf with
  | inr out => out
  | inl _ => {| nrows := 0; columns := [] |}
  end.

End Ex2.


(** * Properties *)

(** ** Lists and columns *)

Lemma map_nth_seq (A : Type) (d : A) (l : list A) :
  map (fun j => nth j l d) (seq 0 (length l)) = l.
Proof.
  induction l as [|a l IH]; simpl; [reflexivity|].
  f_equal. rewrite <- seq_shift, map_map. exact IH.
Qed.

Lemma forallb_in_bounds_seq (n m : nat) :
  n <= m -> forallb (in_bounds m) (map Some (seq 0 n)) = true.
Proof.
  intros H. apply forallb_forall. intros o Ho.
  apply in_map_iff in Ho. destruct Ho as [j [<- Hj]].
  apply in_seq in Hj. simpl. apply Nat.ltb_lt. lia.
Qed.

Lemma col_len_take (idx : list (option nat)) (c : column) :
  col_len (col_take idx c) = length idx.
Proof.
  destruct c as [l|l|l]; simpl.
  - destruct (forallb (in_bounds (length l)) idx); simpl; apply length_map.
  - apply length_map.
  - apply length_map.
Qed.

Lemma col_len_reindex (n : nat) (c : column) : col_len (reindex n c) = n.
Proof. unfold reindex. rewrite col_len_take, length_map, length_seq. reflexivity. Qed.

Lemma col_len_scalars (c : column) : length (col_scalars c) = col_len c.
Proof. destruct c; simpl; try apply length_map; reflexivity. Qed.

Lemma reindex_id (n : nat) (c : column) : col_len c = n -> reindex n c = c.
Proof.
  intros <-. unfold reindex. destruct c as [l|l|l]; simpl.
  - rewrite forallb_in_bounds_seq by lia. f_equal.
    rewrite map_map. apply map_nth_seq.
  - f_equal. rewrite map_map. apply map_nth_seq.
  - f_equal. rewrite map_map. apply map_nth_seq.
Qed.

Lemma reindex_idem (n : nat) (c : column) : reindex n (reindex n c) = reindex n c.
Proof. apply reindex_id, col_len_reindex. Qed.

Lemma nth_scalars (c : column) (i : nat) :
  i < col_len c -> nth i (col_scalars c) NaN = col_get c i.
Proof.
  intros H. destruct c as [l|l|l]; simpl in *.
  - rewrite (nth_error_nth' l 0%Z H).
    rewrite (nth_indep _ NaN (SInt 0%Z)) by (rewrite length_map; exact H).
    apply (map_nth SInt).
  - rewrite (nth_indep _ NaN (SFloat F64.nan)) by (rewrite length_map; exact H).
    apply (map_nth SFloat).
  - reflexivity.
Qed.

Lemma col_get_past (c : column) (i : nat) : col_len c <= i -> col_get c i = NaN.
Proof.
  intros H. destruct c as [l|l|l]; simpl in *.
  - rewrite (proj2 (nth_error_None l i) H). reflexivity.
  - rewrite nth_overflow by exact H. reflexivity.
  - apply nth_overflow. exact H.
Qed.

Lemma promote_idem (x : scalar) : promote (promote x) = promote x.
Proof. destruct x; reflexivity. Qed.

Lemma as_float_promote (x : scalar) : as_float (promote x) = as_float x.
Proof. destruct x; reflexivity. Qed.

Lemma carries_refl (v : scalar) : carries v v.
Proof. left. reflexivity. Qed.

Lemma carries_trans (a b c : scalar) : carries a b -> carries b c -> carries a c.
Proof.
  intros [->| ->] [->| ->]; unfold carries; auto.
  rewrite promote_idem. auto.
Qed.

Lemma carries_as_float (v e : scalar) : carries v e -> as_float e = as_float v.
Proof. intros [->| ->]; [reflexivity|apply as_float_promote]. Qed.

(** A taken cell is the cell it was taken from, up to the conversion of the
    column. *)
Lemma col_get_take_some (idx : list (option nat)) (c : column) (i j : nat) :
  nth_error idx i = Some (Some j) -> j < col_len c ->
  carries (col_get c j) (col_get (col_take idx c) i).
Proof.
  intros Hi Hj. destruct c as [l|l|l]; simpl in *.
  - destruct (forallb (in_bounds (length l)) idx); simpl.
    + left. rewrite nth_error_map, Hi. simpl.
      rewrite (nth_error_nth' l 0%Z Hj). reflexivity.
    + right. rewrite (nth_error_nth' l 0%Z Hj). simpl.
      erewrite nth_indep by (rewrite length_map; apply nth_error_Some; congruence).
      rewrite (map_nth (fun o => match o with
                                 | Some j0 => match nth_error l j0 with
                                              | Some z => F64.of_Z z
                                              | None => F64.nan
                                              end
                                 | None => F64.nan
                                 end) idx None).
      rewrite (nth_error_nth idx _ _ Hi). rewrite (nth_error_nth' l 0%Z Hj). reflexivity.
  - left. f_equal.
    erewrite nth_indep by (rewrite length_map; apply nth_error_Some; congruence).
    rewrite (map_nth (fun o => match o with Some j0 => nth j0 l F64.nan | None => F64.nan end)
               idx None).
    rewrite (nth_error_nth idx _ _ Hi). reflexivity.
  - left.
    erewrite nth_indep by (rewrite length_map; apply nth_error_Some; congruence).
    rewrite (map_nth (fun o => match o with Some j0 => nth j0 l NaN | None => NaN end)
               idx None).
    rewrite (nth_error_nth idx _ _ Hi). reflexivity.
Qed.

Lemma forallb_nth_error (A : Type) (f : A -> bool) (l : list A) (i : nat) (a : A) :
  forallb f l = true -> nth_error l i = Some a -> f a = true.
Proof.
  intros H Hi. rewrite forallb_forall in H. apply H. eapply nth_error_In; eauto.
Qed.

(** A position without source gives a missing value. *)
Lemma col_get_take_none (idx : list (option nat)) (c : column) (i : nat) :
  nth_error idx i = Some None -> col_get (col_take idx c) i = NaN.
Proof.
  intros Hi. destruct c as [l|l|l]; simpl in *.
  - destruct (forallb (in_bounds (length l)) idx) eqn:E; simpl.
    + pose proof (forallb_nth_error _ _ _ E Hi) as F. discriminate.
    + unfold NaN. f_equal.
      erewrite nth_indep by (rewrite length_map; apply nth_error_Some; congruence).
      rewrite (map_nth (fun o => match o with
                                 | Some j0 => match nth_error l j0 with
                                              | Some z => F64.of_Z z
                                              | None => F64.nan
                                              end
                                 | None => F64.nan
                                 end) idx None).
      rewrite (nth_error_nth idx _ _ Hi). reflexivity.
  - unfold NaN. f_equal.
    erewrite nth_indep by (rewrite length_map; apply nth_error_Some; congruence).
    rewrite (map_nth (fun o => match o with Some j0 => nth j0 l F64.nan | None => F64.nan end)
               idx None).
    rewrite (nth_error_nth idx _ _ Hi). reflexivity.
  - erewrite nth_indep by (rewrite length_map; apply nth_error_Some; congruence).
    rewrite (map_nth (fun o => match o with Some j0 => nth j0 l NaN | None => NaN end)
               idx None).
    rewrite (nth_error_nth idx _ _ Hi). reflexivity.
Qed.

(** When every position has a source, the cells are taken unchanged. *)
Lemma col_get_take_exact (idx : list (option nat)) (c : column) (i j : nat) :
  forallb (in_bounds (col_len c)) idx = true ->
  nth_error idx i = Some (Some j) ->
  col_get (col_take idx c) i = col_get c j.
Proof.
  intros Hall Hi.
  pose proof (forallb_nth_error _ _ _ Hall Hi) as Hj. simpl in Hj.
  apply Nat.ltb_lt in Hj.
  destruct c as [l|l|l]; simpl in *.
  - rewrite Hall. simpl. rewrite nth_error_map, Hi. simpl.
    rewrite (nth_error_nth' l 0%Z Hj). reflexivity.
  - f_equal.
    erewrite nth_indep by (rewrite length_map; apply nth_error_Some; congruence).
    rewrite (map_nth (fun o => match o with Some j0 => nth j0 l F64.nan | None => F64.nan end)
               idx None).
    rewrite (nth_error_nth idx _ _ Hi). reflexivity.
  - erewrite nth_indep by (rewrite length_map; apply nth_error_Some; congruence).
    rewrite (map_nth (fun o => match o with Some j0 => nth j0 l NaN | None => NaN end)
               idx None).
    rewrite (nth_error_nth idx _ _ Hi). reflexivity.
Qed.

(** ** The left join *)

Lemma matches_from_spec (k : scalar) (rk : list scalar) (s j : nat) :
  In j (matches_from s k rk) <->
  s <= j /\ j < s + length rk /\ key_eqb k (nth (j - s) rk NaN) = true.
Proof.
  revert s. induction rk as [|r rk IH]; intros s; simpl.
  - split; [tauto|]. intros [? [? _]]. lia.
  - destruct (key_eqb k r) eqn:E; simpl; rewrite IH; split.
    + intros [<-|[H1 [H2 H3]]].
      * replace (s - s) with 0 by lia. repeat split; try lia. exact E.
      * destruct (j - s) as [|d] eqn:D; [lia|].
        replace (j - S s) with d in H3 by lia. repeat split; try lia. exact H3.
    + intros [H1 [H2 H3]]. destruct (j - s) as [|d] eqn:D.
      * left. lia.
      * right. replace (j - S s) with d by lia. repeat split; try lia. exact H3.
    + intros [H1 [H2 H3]]. destruct (j - s) as [|d] eqn:D; [lia|].
      replace (j - S s) with d in H3 by lia. repeat split; try lia. exact H3.
    + intros [H1 [H2 H3]]. destruct (j - s) as [|d] eqn:D.
      * congruence.
      * replace (j - S s) with d by lia. repeat split; try lia. exact H3.
Qed.

Lemma matches_spec (k : scalar) (rk : list scalar) (j : nat) :
  In j (matches k rk) <-> j < length rk /\ key_eqb k (nth j rk NaN) = true.
Proof.
  unfold matches. rewrite matches_from_spec. rewrite Nat.sub_0_r. simpl.
  split; [intros [_ H]; exact H | intros H; split; [lia | exact H]].
Qed.

Lemma matches_nil (k : scalar) (rk : list scalar) (j : nat) :
  matches k rk = [] -> j < length rk -> key_eqb k (nth j rk NaN) = false.
Proof.
  intros E Hj. destruct (key_eqb k (nth j rk NaN)) eqn:K; [|reflexivity].
  assert (In j (matches k rk)) as H by (apply matches_spec; auto).
  rewrite E in H. destruct H.
Qed.

Lemma join_row_spec (rk : list scalar) (i : nat) (k : scalar) (p : nat * option nat) :
  In p (join_row rk i k) ->
  fst p = i /\
  match snd p with
  | Some j => j < length rk /\ key_eqb k (nth j rk NaN) = true
  | None => forall j, j < length rk -> key_eqb k (nth j rk NaN) = false
  end.
Proof.
  unfold join_row. destruct (matches k rk) as [|j0 js] eqn:E.
  - intros [<-|[]]. simpl. split; [reflexivity|]. intros j Hj. apply matches_nil; assumption.
  - intros H. apply in_map_iff in H. destruct H as [j [<- Hj]]. simpl.
    split; [reflexivity|]. rewrite <- E in Hj. apply matches_spec. exact Hj.
Qed.

Lemma join_from_ok (lk rk : list scalar) (s : nat) (p : nat * option nat) :
  In p (join_from s lk rk) -> join_row_ok lk rk s p.
Proof.
  revert s. induction lk as [|k lk IH]; intros s; simpl; [tauto|].
  intros H. apply in_app_or in H. destruct H as [H|H].
  - apply join_row_spec in H. destruct H as [H1 H2]. unfold join_row_ok.
    rewrite H1. replace (s - s) with 0 by lia. simpl. repeat split; try lia. exact H2.
  - apply IH in H. destruct H as [H1 [H2 H3]]. unfold join_row_ok. simpl.
    repeat split; try lia.
    destruct (fst p - s) as [|d] eqn:D; [lia|].
    replace (fst p - S s) with d in H3 by lia. exact H3.
Qed.

Lemma join_indexer_ok (lk rk : list scalar) (p : nat * option nat) :
  In p (join_indexer lk rk) ->
  fst p < length lk /\
  match snd p with
  | Some j => j < length rk /\ key_eqb (nth (fst p) lk NaN) (nth j rk NaN) = true
  | None => forall j, j < length rk -> key_eqb (nth (fst p) lk NaN) (nth j rk NaN) = false
  end.
Proof.
  intros H. apply join_from_ok in H. destruct H as [_ [H2 H3]].
  rewrite Nat.sub_0_r in H3. simpl in H2. auto.
Qed.

(** A left join never loses a left row. *)
Lemma join_row_length (rk : list scalar) (i : nat) (k : scalar) :
  1 <= length (join_row rk i k).
Proof.
  unfold join_row. destruct (matches k rk); simpl; [lia|]. lia.
Qed.

Lemma join_from_length (lk rk : list scalar) (s : nat) :
  length lk <= length (join_from s lk rk).
Proof.
  revert s. induction lk as [|k lk IH]; intros s; simpl; [lia|].
  rewrite length_app. pose proof (join_row_length rk s k). specialize (IH (S s)). lia.
Qed.

(** When every left key has at most one match, the join has exactly the
    rows of the left table, in order. *)
Lemma join_from_single (lk rk : list scalar) (s : nat) :
  single_match lk rk = true ->
  map fst (join_from s lk rk) = seq s (length lk).
Proof.
  revert s. induction lk as [|k lk IH]; intros s; simpl; [reflexivity|].
  intros H. apply andb_prop in H. destruct H as [H1 H2].
  rewrite map_app, (IH (S s) H2).
  unfold join_row. apply Nat.leb_le in H1.
  destruct (matches k rk) as [|j [|j' js]]; simpl in *; try reflexivity. lia.
Qed.

Lemma left_idx_single (lk rk : list scalar) :
  single_match lk rk = true ->
  left_idx (join_indexer lk rk) = map Some (seq 0 (length lk)).
Proof.
  intros H. unfold left_idx, join_indexer.
  rewrite <- (join_from_single lk rk 0 H), map_map. reflexivity.
Qed.

Lemma left_idx_in_bounds (lk rk : list scalar) :
  forallb (in_bounds (length lk)) (left_idx (join_indexer lk rk)) = true.
Proof.
  apply forallb_forall. intros o Ho. unfold left_idx in Ho.
  apply in_map_iff in Ho. destruct Ho as [p [<- Hp]].
  apply join_indexer_ok in Hp. simpl. apply Nat.ltb_lt. tauto.
Qed.

Lemma length_left_idx (idx : list (nat * option nat)) : length (left_idx idx) = length idx.
Proof. apply length_map. Qed.

Lemma length_right_idx (idx : list (nat * option nat)) : length (right_idx idx) = length idx.
Proof. apply length_map. Qed.

(** ** Fallible maps *)

Lemma rmap_length (A B : Type) (f : A -> result B) (l : list A) (l' : list B) :
  rmap f l = inr l' -> length l' = length l.
Proof.
  revert l'. induction l as [|a l IH]; intros l' H; simpl in H.
  - inversion H. reflexivity.
  - destruct (f a); [discriminate|]. destruct (rmap f l); [discriminate|].
    inversion H. simpl. f_equal. apply IH. reflexivity.
Qed.

Lemma rmap_nth_error (A B : Type) (f : A -> result B) (l : list A) (l' : list B)
  (i : nat) (a : A) :
  rmap f l = inr l' -> nth_error l i = Some a ->
  exists b, f a = inr b /\ nth_error l' i = Some b.
Proof.
  revert l' i. induction l as [|x l IH]; intros l' i H Hi; simpl in H.
  - destruct i; discriminate.
  - destruct (f x) as [|b] eqn:Fx; [discriminate|].
    destruct (rmap f l) as [|bs] eqn:R; [discriminate|].
    inversion H; subst l'. destruct i as [|i]; simpl in *.
    + inversion Hi; subst. exists b. auto.
    + apply (IH bs i eq_refl Hi).
Qed.

Lemma rmap_error (A B : Type) (f : A -> result B) (l : list A) (e : exn) :
  rmap f l = inl e -> exists a, In a l /\ f a = inl e.
Proof.
  induction l as [|x l IH]; simpl; [discriminate|].
  destruct (f x) as [e'|b] eqn:Fx.
  - intros H. inversion H; subst. exists x. auto.
  - destruct (rmap f l) as [e'|bs]; [|discriminate].
    intros H. destruct (IH H) as [a [Ha Fa]]. exists a. auto.
Qed.

Lemma rmap_total (A B : Type) (f : A -> result B) (l : list A) :
  (forall a, In a l -> exists b, f a = inr b) -> exists l', rmap f l = inr l'.
Proof.
  induction l as [|x l IH]; intros H; simpl.
  - eexists. reflexivity.
  - destruct (H x) as [b Hb]; [left; reflexivity|]. rewrite Hb.
    destruct IH as [l' Hl']; [intros a Ha; apply H; right; exact Ha|].
    rewrite Hl'. eexists. reflexivity.
Qed.

(** ** Division of columns *)

Lemma div_nan_l (y : F64.t) : F64.div F64.nan y = F64.nan.
Proof. reflexivity. Qed.

Lemma div_nan_r (x : F64.t) : F64.div x F64.nan = F64.nan.
Proof. destruct x; reflexivity. Qed.

Lemma notna_false (x : scalar) : notna x = false -> as_float x = F64.nan.
Proof.
  destruct x as [z|f|s]; simpl; try discriminate.
  destruct f; simpl; try discriminate. reflexivity.
Qed.

Lemma py_truediv_value (x y v : scalar) :
  py_truediv x y = inr v -> v = SFloat (F64.div (as_float x) (as_float y)).
Proof.
  unfold py_truediv.
  destruct x, y; try discriminate; destruct (py_is_zero _); try discriminate;
    intros H; inversion H; reflexivity.
Qed.

Lemma masked_truediv_value (p : scalar * scalar) (v : scalar) :
  masked_truediv_pair p = inr v -> v = SFloat (div_pair p).
Proof.
  unfold masked_truediv_pair, div_pair.
  destruct (notna (fst p)) eqn:N1; simpl.
  - destruct (notna (snd p)) eqn:N2.
    + apply py_truediv_value.
    + intros H. inversion H. rewrite (notna_false _ N2), div_nan_r. reflexivity.
  - intros H. inversion H. rewrite (notna_false _ N1), div_nan_l. reflexivity.
Qed.

Lemma nth_error_pairs (a b : column) (n i : nat) :
  col_len a = n -> col_len b = n -> i < n ->
  nth_error (combine (col_scalars a) (col_scalars b)) i = Some (col_get a i, col_get b i).
Proof.
  intros Ha Hb Hi.
  rewrite <- (nth_scalars a) by lia. rewrite <- (nth_scalars b) by lia.
  rewrite <- (combine_nth (col_scalars a) (col_scalars b) i NaN NaN)
    by (rewrite !col_len_scalars; congruence).
  apply nth_error_nth'. rewrite length_combine, !col_len_scalars. lia.
Qed.

(** A quotient column holds, on every row, the [float64] quotient of the
    two cells. *)
Lemma col_truediv_cells (a b q : column) (n : nat) :
  col_truediv a b = inr q -> col_len a = n -> col_len b = n ->
  col_len q = n /\
  forall i, i < n ->
    col_get q i = SFloat (F64.div (as_float (col_get a i)) (as_float (col_get b i))).
Proof.
  intros H Ha Hb. unfold col_truediv in H.
  set (pairs := combine (col_scalars a) (col_scalars b)) in *.
  assert (length pairs = n) as Hlen
    by (unfold pairs; rewrite length_combine, !col_len_scalars; lia).
  assert (forall l (f : scalar * scalar -> result scalar),
             (forall p v, f p = inr v -> v = SFloat (div_pair p)) ->
             rmap f pairs = inr l ->
             col_len (Object l) = n /\
             forall i, i < n ->
               col_get (Object l) i
               = SFloat (F64.div (as_float (col_get a i)) (as_float (col_get b i)))) as K.
  { intros l f Hf R. split.
    - simpl. rewrite (rmap_length _ _ R). exact Hlen.
    - intros i Hi. simpl.
      destruct (rmap_nth_error _ _ i R (nth_error_pairs a b Ha Hb Hi)) as [v [Fv Nv]].
      rewrite (nth_error_nth _ _ _ Nv). apply Hf in Fv. exact Fv. }
  destruct (is_object a || is_object b).
  - destruct (rmap py_truediv_pair pairs) as [e|l] eqn:R1.
    + destruct e; try discriminate.
      destruct (rmap masked_truediv_pair pairs) as [e|l] eqn:R2; [discriminate|].
      inversion H; subst q. apply (K l masked_truediv_pair); [|exact R2].
      apply masked_truediv_value.
    + inversion H; subst q. apply (K l py_truediv_pair); [|exact R1].
      intros p v. apply py_truediv_value.
  - inversion H; subst q. split.
    + simpl. rewrite length_map. exact Hlen.
    + intros i Hi. simpl. f_equal.
      erewrite nth_indep by (rewrite length_map; lia).
      rewrite (map_nth div_pair pairs (NaN, NaN)).
      rewrite (nth_error_nth _ _ _ (nth_error_pairs a b Ha Hb Hi)). reflexivity.
Qed.

(** ** Frames *)

Lemma find_col_set_col_same (n : string) (c : column) (cols : list (string * column)) :
  find_col n (set_col n c cols) = Some c.
Proof.
  induction cols as [|[m c0] cols IH]; simpl.
  - rewrite String.eqb_refl. reflexivity.
  - destruct (String.eqb m n) eqn:E; simpl; rewrite E; auto.
Qed.

Lemma find_col_set_col_other (n m : string) (c : column) (cols : list (string * column)) :
  n <> m -> find_col m (set_col n c cols) = find_col m cols.
Proof.
  intros Hnm. induction cols as [|[k c0] cols IH]; simpl.
  - destruct (String.eqb_spec n m); [contradiction|reflexivity].
  - destruct (String.eqb_spec k n) as [->|Hk]; simpl.
    + destruct (String.eqb_spec n m); [contradiction|reflexivity].
    + destruct (String.eqb k m); auto.
Qed.

Lemma getitem_setitem_same (df : DataFrame) (n : string) (c : column) :
  getitem (setitem df n c) n = inr (reindex (nrows df) c).
Proof.
  unfold getitem, setitem. simpl. rewrite find_col_set_col_same, reindex_idem. reflexivity.
Qed.

Lemma getitem_setitem_other (df : DataFrame) (n m : string) (c : column) :
  n <> m -> getitem (setitem df n c) m = getitem df m.
Proof.
  intros H. unfold getitem, setitem. simpl. rewrite find_col_set_col_other by exact H.
  reflexivity.
Qed.

Lemma getitem_len (df : DataFrame) (n : string) (c : column) :
  getitem df n = inr c -> col_len c = nrows df.
Proof.
  unfold getitem. destruct (find_col n (columns df)); [|discriminate].
  intros H. inversion H. apply col_len_reindex.
Qed.

Lemma getitem_error (df : DataFrame) (n : string) (e : exn) :
  getitem df n = inl e -> e = KeyError n.
Proof.
  unfold getitem. destruct (find_col n (columns df)); [discriminate|].
  intros H. inversion H. reflexivity.
Qed.

Section FrameFacts.

Variable to_datetime_strftime : column -> string + list (option string).

Local Abbreviation normalize := (normalize_date to_datetime_strftime).
Local Abbreviation keys := (date_keys to_datetime_strftime).

Lemma normalize_date_inv (df df' : DataFrame) :
  normalize df = inr df' ->
  nrows df' = nrows df /\
  getitem df' Col.date_ = inr (Object (keys df)) /\
  length (keys df) = nrows df /\
  forall n, n <> Col.date_ -> getitem df' n = getitem df n.
Proof.
  intros H. unfold date_keys. rewrite H.
  unfold normalize_date in H.
  destruct (getitem df Col.date_) as [e|c]; [discriminate|].
  destruct (to_datetime_strftime c) as [msg|l]; [discriminate|].
  inversion H; subst df'; clear H.
  rewrite getitem_setitem_same. unfold reindex. simpl.
  repeat split.
  - rewrite !length_map, length_seq. reflexivity.
  - intros n Hn. apply getitem_setitem_other. congruence.
Qed.

End FrameFacts.

(** ** The table built by the script *)

Section Inversion.

Variable to_datetime_strftime : column -> string + list (option string).

Local Abbreviation keys := (date_keys to_datetime_strftime).

Lemma select4_inv (df : DataFrame) (a b c d : string) (m : DataFrame) :
  select df [a; b; c; d] = inr m ->
  exists ca cb cc cd,
    getitem df a = inr ca /\ getitem df b = inr cb /\
    getitem df c = inr cc /\ getitem df d = inr cd /\
    m = {| nrows := nrows df; columns := [(a, ca); (b, cb); (c, cc); (d, cd)] |}.
Proof.
  unfold select. simpl.
  destruct (getitem df a) as [|ca]; [discriminate|].
  destruct (getitem df b) as [|cb]; [discriminate|].
  destruct (getitem df c) as [|cc]; [discriminate|].
  destruct (getitem df d) as [|cd]; [discriminate|].
  intros H. inversion H. exists ca, cb, cc, cd. auto.
Qed.

Lemma select5_inv (df : DataFrame) (a b c d e : string) (m : DataFrame) :
  select df [a; b; c; d; e] = inr m ->
  exists ca cb cc cd ce,
    getitem df a = inr ca /\ getitem df b = inr cb /\
    getitem df c = inr cc /\ getitem df d = inr cd /\ getitem df e = inr ce /\
    m = {| nrows := nrows df;
           columns := [(a, ca); (b, cb); (c, cc); (d, cd); (e, ce)] |}.
Proof.
  unfold select. simpl.
  destruct (getitem df a) as [|ca]; [discriminate|].
  destruct (getitem df b) as [|cb]; [discriminate|].
  destruct (getitem df c) as [|cc]; [discriminate|].
  destruct (getitem df d) as [|cd]; [discriminate|].
  destruct (getitem df e) as [|ce]; [discriminate|].
  intros H. inversion H. exists ca, cb, cc, cd, ce. repeat split; auto.
Qed.

Lemma merge_hfq_eq (n0 nh : nat) (K0 Cc L A KH HO HC HH HL : column) :
  col_len K0 = n0 -> col_len Cc = n0 -> col_len L = n0 -> col_len A = n0 ->
  col_len KH = nh -> col_len HO = nh -> col_len HC = nh -> col_len HH = nh ->
  col_len HL = nh ->
  merge_left
    {| nrows := n0;
       columns := [(Col.date_, K0); (Col.code_, Cc); (Col.lots_, L); (Col.turnover_, A)] |}
    {| nrows := nh;
       columns := [(Col.date_, KH); (Col.open_, HO); (Col.close_, HC);
                   (Col.high_, HH); (Col.low_, HL)] |}
    Col.date_ (EmptyString, "_hfq")
  = let idx := join_indexer (col_scalars K0) (col_scalars KH) in
    inr {| nrows := length idx;
           columns := [(Col.date_, col_take (left_idx idx) K0);
                       (Col.code_, col_take (left_idx idx) Cc);
                       (Col.lots_, col_take (left_idx idx) L);
                       (Col.turnover_, col_take (left_idx idx) A);
                       (Col.open_, col_take (right_idx idx) HO);
                       (Col.close_, col_take (right_idx idx) HC);
                       (Col.high_, col_take (right_idx idx) HH);
                       (Col.low_, col_take (right_idx idx) HL)] |}.
Proof.
  intros. unfold merge_left.
  cbv - [reindex col_take join_indexer col_scalars left_idx right_idx length].
  rewrite !reindex_id by assumption. reflexivity.
Qed.

Lemma merge_qfq_eq (n1 nq : nat) (K1 Cc L A HO HC HH HL KQ QO QC QH QL : column) :
  col_len K1 = n1 -> col_len Cc = n1 -> col_len L = n1 -> col_len A = n1 ->
  col_len HO = n1 -> col_len HC = n1 -> col_len HH = n1 -> col_len HL = n1 ->
  col_len KQ = nq -> col_len QO = nq -> col_len QC = nq -> col_len QH = nq ->
  col_len QL = nq ->
  merge_left
    {| nrows := n1;
       columns := [(Col.date_, K1); (Col.code_, Cc); (Col.lots_, L); (Col.turnover_, A);
                   (Col.open_, HO); (Col.close_, HC); (Col.high_, HH); (Col.low_, HL)] |}
    {| nrows := nq;
       columns := [(Col.date_, KQ); (Col.open_, QO); (Col.close_, QC);
                   (Col.high_, QH); (Col.low_, QL)] |}
    Col.date_ ("_hfq", "_qfq")
  = let idx := join_indexer (col_scalars K1) (col_scalars KQ) in
    inr {| nrows := length idx;
           columns := [(Col.date_, col_take (left_idx idx) K1);
                       (Col.code_, col_take (left_idx idx) Cc);
                       (Col.lots_, col_take (left_idx idx) L);
                       (Col.turnover_, col_take (left_idx idx) A);
                       ("开盘_hfq", col_take (left_idx idx) HO);
                       ("收盘_hfq", col_take (left_idx idx) HC);
                       ("最高_hfq", col_take (left_idx idx) HH);
                       ("最低_hfq", col_take (left_idx idx) HL);
                       ("开盘_qfq", col_take (right_idx idx) QO);
                       ("收盘_qfq", col_take (right_idx idx) QC);
                       ("最高_qfq", col_take (right_idx idx) QH);
                       ("最低_qfq", col_take (right_idx idx) QL)] |}.
Proof.
  intros. unfold merge_left.
  cbv - [reindex col_take join_indexer col_scalars left_idx right_idx length].
  rewrite !reindex_id by assumption. reflexivity.
Qed.

Lemma col_len_mul_int (c : column) (k : Z) : col_len (col_mul_int c k) = col_len c.
Proof. destruct c; simpl; apply length_map. Qed.

Lemma infer_column_floats (l : list scalar) :
  Forall (fun y => exists f, y = SFloat f) l ->
  infer_column l = Float64 (map as_float l).
Proof.
  intros H. unfold infer_column.
  assert (existsb is_str l = false) as E1.
  { induction H as [|y l [f ->] _ IH]; simpl; auto. }
  rewrite E1.
  destruct l as [|y l]; [reflexivity|].
  inversion H as [|? ? [f ->] _]; subst. reflexivity.
Qed.

Lemma guard_cells (m : DataFrame) (V Q G : column) :
  (forall i, row_get (row_at m i) "volume" = inr (col_get V i)) ->
  (forall i, row_get (row_at m i) "vwap" = inr (col_get Q i)) ->
  (forall i, i < nrows m -> exists f, col_get Q i = SFloat f) ->
  apply_rows m vwap_guard = inr G ->
  col_len G = nrows m /\
  forall i, i < nrows m ->
    exists b, py_gt_zero (col_get V i) = inr b /\
              col_get G i = if b then col_get Q i else NaN.
Proof.
  intros HV HQ HF H. unfold apply_rows in H.
  destruct (rmap vwap_guard (map (row_at m) (seq 0 (nrows m)))) as [|l] eqn:R;
    [discriminate|].
  inversion H; subst G; clear H.
  pose proof (rmap_length _ _ R) as Hlen. rewrite length_map, length_seq in Hlen.
  assert (forall i, i < nrows m ->
            exists b y, py_gt_zero (col_get V i) = inr b /\ nth_error l i = Some y /\
                        y = if b then col_get Q i else NaN) as K.
  { intros i Hi.
    assert (nth_error (map (row_at m) (seq 0 (nrows m))) i = Some (row_at m i)) as Hr.
    { rewrite nth_error_map, nth_error_seq.
      destruct (Nat.ltb_spec i (nrows m)); [reflexivity|lia]. }
    destruct (rmap_nth_error _ _ i R Hr) as [y [Fy Ny]].
    unfold vwap_guard in Fy. rewrite HV in Fy.
    destruct (py_gt_zero (col_get V i)) as [|b]; [discriminate|].
    exists b, y. split; [reflexivity|]. split; [exact Ny|].
    destruct b; [rewrite HQ in Fy|]; inversion Fy; reflexivity. }
  assert (Forall (fun y => exists f, y = SFloat f) l) as Hfl.
  { apply Forall_forall. intros y Hy. apply In_nth_error in Hy. destruct Hy as [i Hi].
    assert (i < nrows m) as Hlt by (rewrite <- Hlen; apply nth_error_Some; congruence).
    destruct (K i Hlt) as [b [y' [_ [Ny ->]]]]. rewrite Hi in Ny. inversion Ny; subst.
    destruct b; [apply HF; exact Hlt | exists F64.nan; reflexivity]. }
  rewrite (infer_column_floats Hfl). split.
  - simpl. rewrite length_map. exact Hlen.
  - intros i Hi. destruct (K i Hi) as [b [y [Pb [Ny Ey]]]].
    exists b. split; [exact Pb|]. simpl.
    erewrite nth_indep by (rewrite length_map; lia).
    rewrite (map_nth as_float l NaN), (nth_error_nth _ _ _ Ny). rewrite <- Ey.
    assert (exists f, y = SFloat f) as [f ->].
    { rewrite Forall_forall in Hfl. apply Hfl. eapply nth_error_In; eauto. }
    reflexivity.
Qed.

Local Abbreviation normalize := (normalize_date to_datetime_strftime).

(** Reading [qlib_frame] backwards: when it returns a table, every step
    succeeded and the table has the nine columns below. *)
Lemma qlib_frame_inv (ex code : string) (na hf qf out : DataFrame) :
  qlib_frame to_datetime_strftime ex code na hf qf = inr out ->
  exists L A CN HO HC HH HL Q G F,
    getitem na Col.lots_ = inr L /\ getitem na Col.turnover_ = inr A /\
    getitem na Col.close_ = inr CN /\
    getitem hf Col.open_ = inr HO /\ getitem hf Col.close_ = inr HC /\
    getitem hf Col.high_ = inr HH /\ getitem hf Col.low_ = inr HL /\
    length (keys na) = nrows na /\ length (keys hf) = nrows hf /\
    length (keys qf) = nrows qf /\
    col_truediv (from_left to_datetime_strftime na hf qf A)
                (col_mul_int (from_left to_datetime_strftime na hf qf L) 100) = inr Q /\
    col_len G = length (qfq_join to_datetime_strftime na hf qf) /\
    (forall i, i < length (qfq_join to_datetime_strftime na hf qf) ->
       exists b,
         py_gt_zero (col_get (col_mul_int (from_left to_datetime_strftime na hf qf L) 100) i)
         = inr b /\
         col_get G i = if b then col_get Q i else NaN) /\
    col_truediv (from_hfq to_datetime_strftime na hf qf HC)
                (reindex (length (qfq_join to_datetime_strftime na hf qf)) CN) = inr F /\
    out = {| nrows := length (qfq_join to_datetime_strftime na hf qf);
             columns :=
               [("date", from_left to_datetime_strftime na hf qf (Object (keys na)));
                ("open", from_hfq to_datetime_strftime na hf qf HO);
                ("high", from_hfq to_datetime_strftime na hf qf HH);
                ("low", from_hfq to_datetime_strftime na hf qf HL);
                ("close", from_hfq to_datetime_strftime na hf qf HC);
                ("volume", col_mul_int (from_left to_datetime_strftime na hf qf L) 100);
                ("amount", from_left to_datetime_strftime na hf qf A);
                ("vwap", G);
                ("factor", F)] |}.
Proof.
  unfold qlib_frame, rbind. intros H.
  destruct (normalize na) as [|na'] eqn:Ena; [discriminate|].
  destruct (normalize hf) as [|hf'] eqn:Ehf; [discriminate|].
  destruct (normalize qf) as [|qf'] eqn:Eqf; [discriminate|].
  apply normalize_date_inv in Ena. destruct Ena as (Nna & Kna & Lna & Ona).
  apply normalize_date_inv in Ehf. destruct Ehf as (Nhf & Khf & Lhf & Ohf).
  apply normalize_date_inv in Eqf. destruct Eqf as (Nqf & Kqf & Lqf & Oqf).
  destruct (select na' _) as [|m0] eqn:Em0; [discriminate|].
  apply select4_inv in Em0. destruct Em0 as (K0 & Cc & L & A & G1 & G2 & G3 & G4 & ->).
  destruct (select hf' price_columns) as [|hsel] eqn:Eh; [discriminate|].
  apply select5_inv in Eh.
  destruct Eh as (KH & HO & HC & HH & HL & I1 & I2 & I3 & I4 & I5 & ->).
  rewrite Kna in G1. inversion G1; subst K0; clear G1.
  rewrite Khf in I1. inversion I1; subst KH; clear I1.
  rewrite (@merge_hfq_eq (nrows na') (nrows hf')) in H
    by (first [eapply getitem_len; eassumption | simpl; congruence]).
  cbv zeta in H.
  change (col_scalars (Object (keys na))) with (keys na) in H.
  change (col_scalars (Object (keys hf))) with (keys hf) in H.
  fold (hfq_join to_datetime_strftime na hf) in H.
  destruct (select qf' price_columns) as [|qsel] eqn:Eq; [discriminate|].
  apply select5_inv in Eq.
  destruct Eq as (KQ & QO & QC & QH & QL & J1 & J2 & J3 & J4 & J5 & ->).
  rewrite Kqf in J1. inversion J1; subst KQ; clear J1.
  rewrite (@merge_qfq_eq (length (hfq_join to_datetime_strftime na hf)) (nrows qf')) in H
    by (first [rewrite col_len_take; apply length_map
              | eapply getitem_len; eassumption | simpl; congruence]).
  cbv zeta in H.
  fold (merged_keys to_datetime_strftime na hf) in H.
  change (col_scalars (Object (keys qf))) with (keys qf) in H.
  fold (qfq_join to_datetime_strftime na hf qf) in H.
  set (idx1 := hfq_join to_datetime_strftime na hf) in *.
  set (idx2 := qfq_join to_datetime_strftime na hf qf) in *.
  remember (getitem na' Col.close_) as gcl eqn:Egcl.
  cbv - [reindex col_take left_idx right_idx length col_truediv col_mul_int
         apply_rows vwap_guard List.repeat String.append idx1 idx2 merged_keys] in H.
  assert (forall c, reindex (length idx2) (col_take (left_idx idx2) c)
                    = col_take (left_idx idx2) c) as RT
    by (intros c; apply reindex_id; rewrite col_len_take; apply length_map).
  assert (forall c, reindex (length idx2) (col_mul_int (col_take (left_idx idx2) c) 100)
                    = col_mul_int (col_take (left_idx idx2) c) 100) as RM
    by (intros c; apply reindex_id; rewrite col_len_mul_int, col_len_take; apply length_map).
  repeat (rewrite RT in H || rewrite RM in H).
  fold (from_left to_datetime_strftime na hf qf A) in H.
  fold (from_left to_datetime_strftime na hf qf L) in H.
  fold (from_hfq to_datetime_strftime na hf qf HO) in H.
  fold (from_hfq to_datetime_strftime na hf qf HC) in H.
  fold (from_hfq to_datetime_strftime na hf qf HH) in H.
  fold (from_hfq to_datetime_strftime na hf qf HL) in H.
  assert (forall c, col_len (from_left to_datetime_strftime na hf qf c) = length idx2) as LL
    by (intros c; unfold from_left; rewrite col_len_take; apply length_map).
  assert (forall c, col_len (from_hfq to_datetime_strftime na hf qf c) = length idx2) as LH
    by (intros c; unfold from_hfq; rewrite col_len_take; apply length_map).
  destruct (col_truediv _ _) as [|Q] eqn:EQ in H; [discriminate|].
  destruct (col_truediv_cells _ _ EQ (LL A)
              (eq_trans (col_len_mul_int _ _) (LL L))) as [LQ CQ].
  rewrite (reindex_id Q LQ) in H.
  destruct (apply_rows _ _) as [|G] eqn:EG in H; [discriminate|].
  apply (@guard_cells _ (col_mul_int (from_left to_datetime_strftime na hf qf L) 100) Q G)
    in EG; [ | intros i; reflexivity | intros i; reflexivity
           | intros i Hi; eexists; apply CQ; exact Hi ].
  destruct EG as [LG CG]. simpl nrows in LG, CG.
  destruct gcl as [|CN]; [discriminate|].
  symmetry in Egcl. rewrite Ona in Egcl by discriminate.
  rewrite reindex_idem in H.
  destruct (col_truediv _ _) as [|F] eqn:EF in H; [discriminate|].
  destruct (col_truediv_cells _ _ EF (LH HC) (col_len_reindex _ _)) as [LF CF].
  rewrite !reindex_idem, (reindex_id G LG), (reindex_id F LF) in H.
  inversion H; subst out; clear H.
  exists L, A, CN, HO, HC, HH, HL, Q, G, F.
  rewrite Ona in G3, G4 by discriminate.
  rewrite Ohf in I2, I3, I4, I5 by discriminate.
  repeat split; try assumption; try reflexivity.
Qed.
End Inversion.

(** ** Exceptions raised by the script *)

Lemma safe_inr (A : Type) (a : A) : safe (inr a : result A).
Proof. intros e H. discriminate. Qed.

Lemma safe_rbind (A B : Type) (m : result A) (f : A -> result B) :
  safe m -> (forall a, safe (f a)) -> safe (rbind m f).
Proof.
  intros Hm Hf e. unfold rbind. destruct m as [e'|a].
  - intros H. inversion H; subst. apply Hm. reflexivity.
  - apply Hf.
Qed.

Lemma safe_rmap (A B : Type) (f : A -> result B) (l : list A) :
  (forall a, safe (f a)) -> safe (rmap f l).
Proof.
  intros Hf e H. apply rmap_error in H. destruct H as [a [_ Ha]]. exact (Hf a e Ha).
Qed.

Lemma safe_getitem (df : DataFrame) (n : string) : safe (getitem df n).
Proof. intros e H. apply getitem_error in H. subst. reflexivity. Qed.

Lemma safe_select (df : DataFrame) (names : list string) : safe (select df names).
Proof.
  unfold select. intros e.
  destruct (rmap _ names) as [e'|cols] eqn:R; [|discriminate].
  intros H. inversion H; subst e'. revert R. apply safe_rmap.
  intros n e'. destruct (getitem df n) eqn:G; [|discriminate].
  intros H'. inversion H'; subst. exact (safe_getitem _ _ G).
Qed.

Lemma safe_merge_left (l r : DataFrame) (on : string) (sfx : string * string) :
  safe (merge_left l r on sfx).
Proof.
  unfold merge_left. intros e.
  destruct (getitem l on) eqn:G1.
  - intros H. inversion H; subst. exact (safe_getitem _ _ G1).
  - destruct (getitem r on) eqn:G2.
    + intros H. inversion H; subst. exact (safe_getitem _ _ G2).
    + destruct (_ && _); intros H; inversion H. reflexivity.
Qed.

Lemma safe_py_truediv (x y : scalar) : safe (py_truediv x y).
Proof.
  unfold py_truediv. intros e.
  destruct x, y; try (intros H; inversion H; reflexivity);
    destruct (py_is_zero _); intros H; inversion H; reflexivity.
Qed.

Lemma safe_col_truediv (a b : column) : safe (col_truediv a b).
Proof.
  unfold col_truediv. intros e. destruct (is_object a || is_object b); [|discriminate].
  destruct (rmap py_truediv_pair _) as [e1|l] eqn:R1; [|discriminate].
  assert (is_Exception e1 = true) as S1.
  { revert R1. apply safe_rmap. intros p. apply safe_py_truediv. }
  destruct e1; try (intros H; inversion H; subst; exact S1).
  destruct (rmap masked_truediv_pair _) as [e2|l] eqn:R2; [|discriminate].
  intros H. inversion H; subst e2. revert R2. apply safe_rmap.
  intros p. unfold masked_truediv_pair. destruct (_ && _); [apply safe_py_truediv|apply safe_inr].
Qed.

Lemma safe_row_get (x : row) (n : string) : safe (row_get x n).
Proof.
  induction x as [|[m v] x IH]; simpl; intros e.
  - intros H. inversion H. reflexivity.
  - destruct (String.eqb m n); [discriminate|apply IH].
Qed.

Lemma safe_vwap_guard (x : row) : safe (vwap_guard x).
Proof.
  unfold vwap_guard. intros e. destruct (row_get x "volume") eqn:G.
  - intros H. inversion H; subst. exact (safe_row_get _ _ G).
  - destruct s as [z|f|s]; simpl.
    + destruct (Z.ltb 0 z); [apply safe_row_get|apply safe_inr].
    + destruct (F64.gtb f F64.zero); [apply safe_row_get|apply safe_inr].
    + intros H. inversion H. reflexivity.
Qed.

Lemma safe_apply_rows (df : DataFrame) (f : row -> result scalar) :
  (forall x, safe (f x)) -> safe (apply_rows df f).
Proof.
  intros Hf e. unfold apply_rows. destruct (rmap f _) as [e'|l] eqn:R; [|discriminate].
  intros H. inversion H; subst e'. revert R. apply safe_rmap. exact Hf.
Qed.

Section ScriptExceptions.

Variable to_datetime_strftime : column -> string + list (option string).

Lemma safe_normalize_date (df : DataFrame) : safe (normalize_date to_datetime_strftime df).
Proof.
  unfold normalize_date. intros e. destruct (getitem df Col.date_) eqn:G.
  - intros H. inversion H; subst. exact (safe_getitem _ _ G).
  - destruct (to_datetime_strftime c); intros H; inversion H. reflexivity.
Qed.

Lemma safe_qlib_frame (ex code : string) (na hf qf : DataFrame) :
  safe (qlib_frame to_datetime_strftime ex code na hf qf).
Proof.
  unfold qlib_frame.
  repeat first
    [ apply safe_inr
    | apply safe_normalize_date | apply safe_select | apply safe_merge_left
    | apply safe_getitem | apply safe_col_truediv
    | apply safe_apply_rows; apply safe_vwap_guard
    | progress cbv zeta
    | apply safe_rbind; [ | intros ? ] ].
Qed.

End ScriptExceptions.

(** ** The file store *)

Lemma path_eqb_refl (p : path) : path_eqb p p = true.
Proof. unfold path_eqb. rewrite !String.eqb_refl. reflexivity. Qed.

Lemma path_eqb_eq (p q : path) : path_eqb p q = true -> p = q.
Proof.
  unfold path_eqb. destruct p as [a b], q as [c d]. simpl. intros H.
  apply andb_prop in H. destruct H as [H1 H2].
  apply String.eqb_eq in H1, H2. congruence.
Qed.

Lemma find_file_store_same (p : path) (f : file) (l : list (path * file)) :
  find_file p (store p f l) = Some f.
Proof.
  induction l as [|[q g] l IH]; simpl.
  - rewrite path_eqb_refl. reflexivity.
  - destruct (path_eqb q p) eqn:E; simpl; rewrite E; auto.
Qed.

Lemma find_file_store_other (p q : path) (f : file) (l : list (path * file)) :
  p <> q -> find_file q (store p f l) = find_file q l.
Proof.
  intros Hpq. induction l as [|[k g] l IH]; simpl.
  - destruct (path_eqb p q) eqn:E; [apply path_eqb_eq in E; contradiction|reflexivity].
  - destruct (path_eqb k p) eqn:E; simpl.
    + apply path_eqb_eq in E. subst k.
      destruct (path_eqb p q) eqn:E'; [apply path_eqb_eq in E'; contradiction|reflexivity].
    + destruct (path_eqb k q); auto.
Qed.

(** ** Running the normalizer *)

Section Normalizer.

Variable to_datetime_strftime : column -> string + list (option string).

Local Abbreviation try_block := (process_stock_data_try to_datetime_strftime).
Local Abbreviation normalizer := (process_stock_data to_datetime_strftime).
Local Abbreviation frame := (qlib_frame to_datetime_strftime).

Variables stock_code no_adj_dir hfq_dir qfq_dir output_dir : string.

Local Abbreviation na_path := (no_adj_dir, (stock_code ++ "_daily.csv")%string).
Local Abbreviation hf_path := (hfq_dir, (stock_code ++ "_daily_hfq.csv")%string).
Local Abbreviation qf_path := (qfq_dir, (stock_code ++ "_daily_qfq.csv")%string).
Local Abbreviation out_path := (output_dir, output_name stock_code).

Lemma try_block_returns (w w' : world) (b : bool) :
  try_block stock_code no_adj_dir hfq_dir qfq_dir output_dir w = (inr b, w') ->
  b = true /\
  exists na hf qf out,
    file_at w na_path = Some (Csv na) /\
    file_at w hf_path = Some (Csv hf) /\
    file_at w qf_path = Some (Csv qf) /\
    frame (exchange_of stock_code) stock_code na hf qf = inr out /\
    mem output_dir (readonly (fs w)) = false /\
    stdout w' = stdout w /\
    files (fs w') = store out_path (Csv out) (files (fs w)).
Proof.
  unfold process_stock_data_try, bind, read_csv, lift, to_csv, write_file, ret,
    os_path_join, file_at.
  destruct (find_file na_path (files (fs w))) as [[na|]|]; try discriminate.
  destruct (find_file hf_path (files (fs w))) as [[hf|]|]; try discriminate.
  destruct (find_file qf_path (files (fs w))) as [[qf|]|]; try discriminate.
  destruct (frame (exchange_of stock_code) stock_code na hf qf) as [|out] eqn:F;
    try discriminate.
  unfold makedirs.
  destruct (isdir (fs w) output_dir) eqn:D; simpl.
  - destruct (mem output_dir (readonly (fs w))) eqn:R; [discriminate|].
    rewrite D. simpl. intros H. inversion H; subst. split; [reflexivity|].
    exists na, hf, qf, out. repeat split; solve [reflexivity | assumption].
  - destruct (mem output_dir (readonly (fs w))) eqn:R; [discriminate|].
    unfold isdir, mem. simpl. rewrite existsb_app. simpl.
    rewrite String.eqb_refl, orb_true_r. simpl.
    intros H. inversion H; subst. split; [reflexivity|].
    exists na, hf, qf, out. repeat split; solve [reflexivity | assumption].
Qed.

Lemma try_block_raises (w w' : world) (e : exn) :
  try_block stock_code no_adj_dir hfq_dir qfq_dir output_dir w = (inl e, w') ->
  is_Exception e = true /\ stdout w' = stdout w /\ files (fs w') = files (fs w).
Proof.
  unfold process_stock_data_try, bind, read_csv, lift, to_csv, write_file, ret,
    os_path_join.
  destruct (find_file na_path (files (fs w))) as [[na|]|];
    try solve [intros H; inversion H; subst; auto].
  destruct (find_file hf_path (files (fs w))) as [[hf|]|];
    try solve [intros H; inversion H; subst; auto].
  destruct (find_file qf_path (files (fs w))) as [[qf|]|];
    try solve [intros H; inversion H; subst; auto].
  destruct (frame (exchange_of stock_code) stock_code na hf qf) as [e'|out] eqn:F.
  - intros H. inversion H; subst. repeat split.
    exact (safe_qlib_frame _ _ _ _ _ _ F).
  - unfold makedirs. destruct (isdir (fs w) output_dir) eqn:D; simpl.
    + destruct (mem output_dir (readonly (fs w))) eqn:R.
      * intros H. inversion H; subst. auto.
      * rewrite D. simpl. discriminate.
    + destruct (mem output_dir (readonly (fs w))) eqn:R.
      * intros H. inversion H; subst. auto.
      * unfold isdir, mem. simpl. rewrite existsb_app. simpl.
        rewrite String.eqb_refl, orb_true_r. simpl. discriminate.
Qed.

(** A refused write raises [PermissionError] inside the [try] block. *)
Lemma try_block_write_refused (w : world) (na hf qf out : DataFrame) :
  file_at w na_path = Some (Csv na) ->
  file_at w hf_path = Some (Csv hf) ->
  file_at w qf_path = Some (Csv qf) ->
  frame (exchange_of stock_code) stock_code na hf qf = inr out ->
  mem output_dir (readonly (fs w)) = true ->
  try_block stock_code no_adj_dir hfq_dir qfq_dir output_dir w
  = (inl (PermissionError (path_str out_path)), after_makedirs output_dir w).
Proof.
  unfold file_at. intros H1 H2 H3 HF HR.
  unfold process_stock_data_try, bind, read_csv, lift, to_csv, write_file, ret,
    os_path_join, after_makedirs.
  rewrite H1, H2, H3, HF.
  unfold makedirs. destruct (isdir (fs w) output_dir); simpl; rewrite HR; reflexivity.
Qed.

(** The [except] clause: what the normalizer does with the outcome of its
    [try] block. *)
Lemma normalizer_run (w : world) :
  normalizer stock_code no_adj_dir hfq_dir qfq_dir output_dir w
  = match try_block stock_code no_adj_dir hfq_dir qfq_dir output_dir w with
    | (inr b, w') => (inr b, w')
    | (inl e, w') =>
        (inr false, {| fs := fs w'; stdout := stdout w' ++ [diagnostic stock_code e] |})
    end.
Proof.
  unfold process_stock_data, try_except.
  destruct (try_block stock_code no_adj_dir hfq_dir qfq_dir output_dir w) as [[e|b] w'] eqn:T;
    [|reflexivity].
  destruct (try_block_raises _ T) as [-> _]. reflexivity.
Qed.

Lemma normalizer_true (w w' : world) :
  normalizer stock_code no_adj_dir hfq_dir qfq_dir output_dir w = (inr true, w') ->
  try_block stock_code no_adj_dir hfq_dir qfq_dir output_dir w = (inr true, w').
Proof.
  rewrite normalizer_run.
  destruct (try_block stock_code no_adj_dir hfq_dir qfq_dir output_dir w) as [[e|b] w1];
    intros H; inversion H; reflexivity.
Qed.

(** The table found in the output file after a successful run is the one
    [qlib_frame] builds from the three tables read. *)
Lemma emits_frame (w : world) (na hf qf out : DataFrame) :
  emits to_datetime_strftime stock_code no_adj_dir hfq_dir qfq_dir output_dir w na hf qf out ->
  frame (exchange_of stock_code) stock_code na hf qf = inr out.
Proof.
  intros (H1 & H2 & H3 & w' & Hrun & Hout).
  apply normalizer_true in Hrun. apply try_block_returns in Hrun.
  destruct Hrun as (_ & na' & hf' & qf' & out' & E1 & E2 & E3 & F & _ & _ & Hf).
  rewrite H1 in E1. rewrite H2 in E2. rewrite H3 in E3.
  inversion E1; inversion E2; inversion E3; subst na' hf' qf'.
  unfold file_at in Hout. rewrite Hf, find_file_store_same in Hout.
  inversion Hout; subst out'. exact F.
Qed.

End Normalizer.

(** ** The emitted table *)

Lemma cell_of_frame (n : nat) (cols : list (string * column)) (name : string)
  (c : column) (i : nat) :
  find_col name cols = Some c -> col_len c = n ->
  cell {| nrows := n; columns := cols |} name i = col_get c i.
Proof.
  intros Hf Hl. unfold cell, getitem. simpl. rewrite Hf, (reindex_id c Hl). reflexivity.
Qed.

Lemma is_positive_gt (v : scalar) : is_positive v = true -> py_gt_zero v = inr true.
Proof. destruct v; simpl; intros H; try discriminate; rewrite H; reflexivity. Qed.

Lemma gt_is_positive (v : scalar) (b : bool) : py_gt_zero v = inr b -> is_positive v = b.
Proof. destruct v; simpl; intros H; inversion H; reflexivity. Qed.

Lemma is_zero_not_positive (v : scalar) : py_is_zero v = true -> is_positive v = false.
Proof.
  destruct v as [z|f|s]; simpl; intros H; try reflexivity.
  - apply Z.eqb_eq in H. subst. reflexivity.
  - destruct f; try discriminate. reflexivity.
Qed.

Lemma is_negative_not_positive (v : scalar) : is_negative v = true -> is_positive v = false.
Proof.
  destruct v as [z|f|s]; simpl; intros H; try reflexivity.
  - apply Z.ltb_lt in H. apply Z.ltb_ge. lia.
  - destruct f as [s|s| |s m e]; try discriminate; destruct s; try discriminate; reflexivity.
Qed.

Section EmittedTable.

Variable to_datetime_strftime : column -> string + list (option string).

Local Abbreviation keys := (date_keys to_datetime_strftime).
Local Abbreviation emits' := (emits to_datetime_strftime).
Local Abbreviation rows_of := (qfq_join to_datetime_strftime).
Local Abbreviation left_col := (from_left to_datetime_strftime).
Local Abbreviation hfq_col := (from_hfq to_datetime_strftime).

(** The cells of an emitted table, column by column. *)
Lemma emitted_table (stock_code no_adj_dir hfq_dir qfq_dir output_dir : string)
  (w : world) (na hf qf out : DataFrame) :
  emits' stock_code no_adj_dir hfq_dir qfq_dir output_dir w na hf qf out ->
  exists L A CN HO HC HH HL,
    getitem na Col.lots_ = inr L /\ getitem na Col.turnover_ = inr A /\
    getitem na Col.close_ = inr CN /\
    getitem hf Col.open_ = inr HO /\ getitem hf Col.close_ = inr HC /\
    getitem hf Col.high_ = inr HH /\ getitem hf Col.low_ = inr HL /\
    length (keys na) = nrows na /\ length (keys hf) = nrows hf /\
    length (keys qf) = nrows qf /\
    nrows out = length (rows_of na hf qf) /\
    header out
    = ["date"; "open"; "high"; "low"; "close"; "volume"; "amount"; "vwap"; "factor"] /\
    (forall i, cell out "date" i = col_get (left_col na hf qf (Object (keys na))) i) /\
    (forall i, cell out "open" i = col_get (hfq_col na hf qf HO) i) /\
    (forall i, cell out "high" i = col_get (hfq_col na hf qf HH) i) /\
    (forall i, cell out "low" i = col_get (hfq_col na hf qf HL) i) /\
    (forall i, cell out "close" i = col_get (hfq_col na hf qf HC) i) /\
    (forall i, cell out "volume" i = col_get (col_mul_int (left_col na hf qf L) 100) i) /\
    (forall i, cell out "amount" i = col_get (left_col na hf qf A) i) /\
    (forall i, i < nrows out ->
       exists b, py_gt_zero (cell out "volume" i) = inr b /\
                 cell out "vwap" i
                 = if b then SFloat (F64.div (as_float (cell out "amount" i))
                                             (as_float (cell out "volume" i)))
                   else NaN) /\
    (forall i, i < nrows out ->
       cell out "factor" i
       = SFloat (F64.div (as_float (cell out "close" i))
                         (as_float (col_get (reindex (nrows out) CN) i)))).
Proof.
  intros He. apply emits_frame in He. apply qlib_frame_inv in He.
  destruct He as (L & A & CN & HO & HC & HH & HL & Q & G & F &
                  E1 & E2 & E3 & E4 & E5 & E6 & E7 & K1 & K2 & K3 & EQ & LG & CG & EF & ->).
  assert (forall c, col_len (left_col na hf qf c) = length (rows_of na hf qf)) as LL
    by (intros c; unfold from_left; rewrite col_len_take; apply length_map).
  assert (forall c, col_len (hfq_col na hf qf c) = length (rows_of na hf qf)) as LH
    by (intros c; unfold from_hfq; rewrite col_len_take; apply length_map).
  pose proof (col_len_mul_int (left_col na hf qf L) 100) as LV. rewrite LL in LV.
  destruct (col_truediv_cells _ _ EQ (LL A) LV) as [LQ CQ].
  destruct (col_truediv_cells _ _ EF (LH HC) (col_len_reindex _ _)) as [LF CF].
  exists L, A, CN, HO, HC, HH, HL.
  assert (forall name c i,
            find_col name
              [("date", left_col na hf qf (Object (keys na)));
               ("open", hfq_col na hf qf HO); ("high", hfq_col na hf qf HH);
               ("low", hfq_col na hf qf HL); ("close", hfq_col na hf qf HC);
               ("volume", col_mul_int (left_col na hf qf L) 100);
               ("amount", left_col na hf qf A); ("vwap", G); ("factor", F)] = Some c ->
            col_len c = length (rows_of na hf qf) ->
            cell {| nrows := length (rows_of na hf qf);
                    columns :=
                      [("date", left_col na hf qf (Object (keys na)));
                       ("open", hfq_col na hf qf HO); ("high", hfq_col na hf qf HH);
                       ("low", hfq_col na hf qf HL); ("close", hfq_col na hf qf HC);
                       ("volume", col_mul_int (left_col na hf qf L) 100);
                       ("amount", left_col na hf qf A); ("vwap", G); ("factor", F)] |}
                 name i = col_get c i) as CELL
    by (intros; apply cell_of_frame; assumption).
  repeat match goal with |- _ /\ _ => split end;
    try assumption; try reflexivity;
    try (intros i; apply CELL; [reflexivity | solve [apply LL | apply LH | exact LV]]).
  - intros i Hi. simpl in Hi.
    rewrite (CELL "volume" _ i eq_refl LV), (CELL "vwap" _ i eq_refl LG),
      (CELL "amount" _ i eq_refl (LL A)).
    destruct (CG i Hi) as [b [Pb Gb]]. exists b. split; [exact Pb|].
    rewrite Gb. destruct b; [apply CQ; exact Hi|reflexivity].
  - intros i Hi. simpl in Hi.
    rewrite (CELL "factor" _ i eq_refl LF), (CELL "close" _ i eq_refl (LH HC)).
    apply CF. exact Hi.
Qed.

End EmittedTable.

(** ** Well-formed tables are processed *)

Lemma is_object_take (idx : list (option nat)) (c : column) :
  is_object (col_take idx c) = is_object c.
Proof.
  destruct c as [l|l|l]; simpl; try reflexivity.
  destruct (forallb (in_bounds (length l)) idx); reflexivity.
Qed.

Lemma is_object_reindex (n : nat) (c : column) : is_object (reindex n c) = is_object c.
Proof. apply is_object_take. Qed.

Lemma is_object_mul_int (c : column) (k : Z) : is_object (col_mul_int c k) = is_object c.
Proof. destruct c; reflexivity. Qed.

Lemma col_truediv_numeric (a b : column) :
  is_object a = false -> is_object b = false ->
  exists q, col_truediv a b = inr q.
Proof.
  intros Ha Hb. unfold col_truediv. rewrite Ha, Hb. simpl. eexists. reflexivity.
Qed.

Lemma numeric_gt_zero (c : column) (i : nat) :
  is_object c = false -> exists b, py_gt_zero (col_get c i) = inr b.
Proof.
  destruct c as [l|l|l]; simpl; try discriminate; intros _.
  - destruct (nth_error l i); simpl; eexists; reflexivity.
  - eexists. reflexivity.
Qed.

Lemma select4_ok (df : DataFrame) (a b c d : string) (ca cb cc cd : column) :
  getitem df a = inr ca -> getitem df b = inr cb ->
  getitem df c = inr cc -> getitem df d = inr cd ->
  select df [a; b; c; d]
  = inr {| nrows := nrows df; columns := [(a, ca); (b, cb); (c, cc); (d, cd)] |}.
Proof. intros Ha Hb Hc Hd. unfold select. simpl. rewrite Ha, Hb, Hc, Hd. reflexivity. Qed.

Lemma select5_ok (df : DataFrame) (a b c d e : string) (ca cb cc cd ce : column) :
  getitem df a = inr ca -> getitem df b = inr cb ->
  getitem df c = inr cc -> getitem df d = inr cd -> getitem df e = inr ce ->
  select df [a; b; c; d; e]
  = inr {| nrows := nrows df;
           columns := [(a, ca); (b, cb); (c, cc); (d, cd); (e, ce)] |}.
Proof.
  intros Ha Hb Hc Hd He. unfold select. simpl. rewrite Ha, Hb, Hc, Hd, He. reflexivity.
Qed.

Lemma guard_total (m : DataFrame) (V Q : column) :
  (forall i, row_get (row_at m i) "volume" = inr (col_get V i)) ->
  (forall i, row_get (row_at m i) "vwap" = inr (col_get Q i)) ->
  is_object V = false ->
  exists G, apply_rows m vwap_guard = inr G.
Proof.
  intros HV HQ HN. unfold apply_rows.
  destruct (@rmap_total _ _ vwap_guard (map (row_at m) (seq 0 (nrows m)))) as [l Hl].
  - intros x Hx. apply in_map_iff in Hx. destruct Hx as [i [<- _]].
    unfold vwap_guard. rewrite HV.
    destruct (numeric_gt_zero V i HN) as [b ->].
    destruct b; [rewrite HQ|]; eexists; reflexivity.
  - rewrite Hl. eexists. reflexivity.
Qed.

Lemma has_column_inv (df : DataFrame) (n : string) :
  has_column df n = true -> exists c, getitem df n = inr c.
Proof. unfold has_column. destruct (getitem df n); [discriminate|]. eauto. Qed.

Lemma has_numeric_inv (df : DataFrame) (n : string) :
  has_numeric df n = true -> exists c, getitem df n = inr c /\ is_object c = false.
Proof.
  unfold has_numeric. destruct (getitem df n) as [|c]; [discriminate|].
  intros H. exists c. split; [reflexivity|]. destruct (is_object c); [discriminate|reflexivity].
Qed.

Section WellFormed.

Variable to_datetime_strftime : column -> string + list (option string).

Local Abbreviation keys := (date_keys to_datetime_strftime).
Local Abbreviation normalize := (normalize_date to_datetime_strftime).

Lemma has_dates_inv (df : DataFrame) :
  has_dates to_datetime_strftime df = true -> exists df', normalize df = inr df'.
Proof. unfold has_dates. destruct (normalize df); [discriminate|]. eauto. Qed.

(** On well-formed tables every step of [qlib_frame] succeeds. *)
Lemma qlib_frame_succeeds (ex code : string) (na hf qf : DataFrame) :
  well_formed to_datetime_strftime na hf qf = true ->
  exists out, qlib_frame to_datetime_strftime ex code na hf qf = inr out.
Proof.
  unfold well_formed. intros H.
  rewrite !andb_true_iff in H.
  destruct H as [[[[[[[[[[[[[[D1 D2] D3] W1] W2] W3] W4] W5] W6] W7] W8] W9] W10] W11] W12].
  apply has_dates_inv in D1. destruct D1 as [na' Ena].
  apply has_dates_inv in D2. destruct D2 as [hf' Ehf].
  apply has_dates_inv in D3. destruct D3 as [qf' Eqf].
  apply has_column_inv in W1. destruct W1 as [Cc G2].
  apply has_numeric_inv in W2. destruct W2 as [L [G3 NL]].
  apply has_numeric_inv in W3. destruct W3 as [A [G4 NA]].
  apply has_numeric_inv in W4. destruct W4 as [CN [G5 NCN]].
  apply has_column_inv in W5. destruct W5 as [HO I2].
  apply has_numeric_inv in W6. destruct W6 as [HC [I3 NHC]].
  apply has_column_inv in W7. destruct W7 as [HH I4].
  apply has_column_inv in W8. destruct W8 as [HL I5].
  apply has_column_inv in W9. destruct W9 as [QO J2].
  apply has_column_inv in W10. destruct W10 as [QC J3].
  apply has_column_inv in W11. destruct W11 as [QH J4].
  apply has_column_inv in W12. destruct W12 as [QL J5].
  unfold qlib_frame, rbind. rewrite Ena, Ehf, Eqf.
  apply normalize_date_inv in Ena. destruct Ena as (Nna & Kna & Lna & Ona).
  apply normalize_date_inv in Ehf. destruct Ehf as (Nhf & Khf & Lhf & Ohf).
  apply normalize_date_inv in Eqf. destruct Eqf as (Nqf & Kqf & Lqf & Oqf).
  rewrite <- Ona in G2, G3, G4, G5 by discriminate.
  rewrite <- Ohf in I2, I3, I4, I5 by discriminate.
  rewrite <- Oqf in J2, J3, J4, J5 by discriminate.
  rewrite (select4_ok _ _ _ _ _ Kna G2 G3 G4).
  unfold price_columns.
  rewrite (select5_ok _ _ _ _ _ _ Khf I2 I3 I4 I5).
  rewrite (@merge_hfq_eq (nrows na') (nrows hf'))
    by (first [eapply getitem_len; eassumption | simpl; congruence]).
  cbv zeta.
  change (col_scalars (Object (keys na))) with (keys na).
  change (col_scalars (Object (keys hf))) with (keys hf).
  fold (hfq_join to_datetime_strftime na hf).
  rewrite (select5_ok _ _ _ _ _ _ Kqf J2 J3 J4 J5).
  rewrite (@merge_qfq_eq (length (hfq_join to_datetime_strftime na hf)) (nrows qf'))
    by (first [rewrite col_len_take; apply length_map
              | eapply getitem_len; eassumption | simpl; congruence]).
  cbv zeta.
  fold (merged_keys to_datetime_strftime na hf).
  change (col_scalars (Object (keys qf))) with (keys qf).
  fold (qfq_join to_datetime_strftime na hf qf).
  set (idx1 := hfq_join to_datetime_strftime na hf) in *.
  set (idx2 := qfq_join to_datetime_strftime na hf qf) in *.
  rewrite G5.
  cbv - [reindex col_take left_idx right_idx length col_truediv col_mul_int
         apply_rows vwap_guard List.repeat String.append idx1 idx2 merged_keys].
  match goal with
  | |- context [col_truediv ?x ?y] =>
      destruct (@col_truediv_numeric x y) as [q ->];
        [ rewrite ?is_object_reindex, ?is_object_mul_int, ?is_object_reindex, ?is_object_take;
          assumption .. | ]
  end.
  match goal with
  | |- context [apply_rows ?m vwap_guard] =>
      destruct (@guard_total m
                  (reindex (length idx2)
                     (col_mul_int
                        (reindex (length idx2)
                           (col_take (left_idx idx2) (col_take (left_idx idx1) L))) 100))
                  (reindex (length idx2) q)) as [G ->];
        [ intros i; reflexivity | intros i; reflexivity
        | rewrite ?is_object_reindex, ?is_object_mul_int, ?is_object_reindex, ?is_object_take;
          assumption | ]
  end.
  match goal with
  | |- context [col_truediv ?x ?y] =>
      destruct (@col_truediv_numeric x y) as [F ->];
        [ rewrite ?is_object_reindex, ?is_object_take; assumption .. | ]
  end.
  eexists. reflexivity.
Qed.

End WellFormed.

Section WellFormedRun.

Variable to_datetime_strftime : column -> string + list (option string).

Variables stock_code no_adj_dir hfq_dir qfq_dir output_dir : string.

Lemma try_block_succeeds (w : world) (na hf qf out : DataFrame) :
  file_at w (no_adj_dir, (stock_code ++ "_daily.csv")%string) = Some (Csv na) ->
  file_at w (hfq_dir, (stock_code ++ "_daily_hfq.csv")%string) = Some (Csv hf) ->
  file_at w (qfq_dir, (stock_code ++ "_daily_qfq.csv")%string) = Some (Csv qf) ->
  qlib_frame to_datetime_strftime (exchange_of stock_code) stock_code na hf qf = inr out ->
  mem output_dir (readonly (fs w)) = false ->
  exists w',
    process_stock_data_try to_datetime_strftime stock_code no_adj_dir hfq_dir qfq_dir
      output_dir w = (inr true, w') /\
    files (fs w') = store (output_dir, output_name stock_code) (Csv out) (files (fs w)).
Proof.
  unfold file_at. intros H1 H2 H3 HF HR.
  unfold process_stock_data_try, bind, read_csv, lift, to_csv, write_file, ret, os_path_join.
  rewrite H1, H2, H3, HF. unfold makedirs.
  destruct (isdir (fs w) output_dir) eqn:D; simpl.
  - rewrite HR, D. simpl. eexists. split; reflexivity.
  - rewrite HR. unfold isdir, mem. simpl. rewrite existsb_app. simpl.
    rewrite String.eqb_refl, orb_true_r. simpl. eexists. split; reflexivity.
Qed.

(** Well-formed tables in a writable output directory are always emitted. *)
Lemma well_formed_emits (w : world) (na hf qf : DataFrame) :
  file_at w (no_adj_dir, (stock_code ++ "_daily.csv")%string) = Some (Csv na) ->
  file_at w (hfq_dir, (stock_code ++ "_daily_hfq.csv")%string) = Some (Csv hf) ->
  file_at w (qfq_dir, (stock_code ++ "_daily_qfq.csv")%string) = Some (Csv qf) ->
  well_formed to_datetime_strftime na hf qf = true ->
  mem output_dir (readonly (fs w)) = false ->
  exists out,
    emits to_datetime_strftime stock_code no_adj_dir hfq_dir qfq_dir output_dir w na hf qf out.
Proof.
  intros H1 H2 H3 HW HR.
  destruct (qlib_frame_succeeds to_datetime_strftime (exchange_of stock_code) stock_code
              _ _ _ HW) as [out HF].
  destruct (try_block_succeeds _ H1 H2 H3 HF HR) as [w' [T Hf]].
  exists out. unfold emits. repeat split; try assumption.
  exists w'. split.
  - rewrite normalizer_run, T. reflexivity.
  - unfold file_at. rewrite Hf. apply find_file_store_same.
Qed.

End WellFormedRun.

(** * The specification, sentence by sentence *)

(** ** Example runs *)

Lemma emits_w1 :
  emits Ex.iso_dates "600001" "daily" "daily_hfq" "daily_qfq" "out" Ex.w1
        Ex.na Ex.hf Ex.qf (Ex.emitted Ex.w1).
Proof.
  unfold emits. repeat split; try reflexivity.
  eexists. split; vm_compute; reflexivity.
Defined.

Lemma emits_w_dup :
  emits Ex.iso_dates "600001" "daily" "daily_hfq" "daily_qfq" "out" Ex.w_dup
        Ex.na Ex.hf_dup Ex.qf (Ex.emitted Ex.w_dup).
Proof.
  unfold emits. repeat split; try reflexivity.
  eexists. split; vm_compute; reflexivity.
Defined.

Lemma emits_w_big :
  emits Ex.iso_dates "600001" "daily" "daily_hfq" "daily_qfq" "out" Ex.w_big
        Ex.na_big Ex.hf1 Ex.qf1 (Ex.emitted Ex.w_big).
Proof.
  unfold emits. repeat split; try reflexivity.
  eexists. split; vm_compute; reflexivity.
Defined.

(** The emitted table of the first example: the factor of its first row is
    100 / 10, its volume 100 lots times 100, and the second row, without
    trade, has no average price. *)
Example emitted_w1_cells :
  nrows (Ex.emitted Ex.w1) = 2 /\
  cell (Ex.emitted Ex.w1) "factor" 0 = SFloat (F64.of_Z 10) /\
  cell (Ex.emitted Ex.w1) "volume" 0 = SInt 10000 /\
  cell (Ex.emitted Ex.w1) "close" 1 = SFloat (F64.of_Z 110) /\
  cell (Ex.emitted Ex.w1) "vwap" 1 = NaN.
Proof. vm_compute. repeat split; reflexivity. Qed.

(** What the batch prints for three instruments, one of them without its
    backward-adjusted file. *)
Example batch_output :
  stdout (snd (run Ex.iso_dates "daily" "daily_hfq" "daily_qfq" "out" Ex.w_batch))
  = [ "找到 3 只股票的数据";
      "处理股票 000001 时出错: daily_hfq/000001_daily_hfq.csv";
      "处理完成! 成功处理 2/3 只股票的数据";
      "已生成 out/instruments.txt，包含 2 只股票" ].
Proof. vm_compute. reflexivity. Qed.

(** ** Volume-weighted average price *)

(** The guard of lines 80 to 83, on the rows of an emitted table. *)
Lemma emitted_vwap
  (to_datetime_strftime : column -> string + list (option string))
  (stock_code no_adj_dir hfq_dir qfq_dir output_dir : string)
  (w : world) (na hf qf out : DataFrame) :
  emits to_datetime_strftime stock_code no_adj_dir hfq_dir qfq_dir output_dir w na hf qf out ->
  forall i, i < nrows out ->
    (is_positive (cell out "volume" i) = true ->
     cell out "vwap" i
     = SFloat (F64.div (as_float (cell out "amount" i)) (as_float (cell out "volume" i))))
    /\
    (py_is_zero (cell out "volume" i) = true ->
     cell out "vwap" i = NaN /\ F64.is_inf (as_float (cell out "vwap" i)) = false).
Proof.
  intros He i Hi. apply emitted_table in He.
  destruct He as (L & A & CN & HO & HC & HH & HL & H).
  destruct H as (_ & _ & _ & _ & _ & _ & _ & _ & _ & _ & _ & _ & _ & _ & _ & _ & _ & _ & _
                 & HG & _).
  destruct (HG i Hi) as [b [Pb Vb]]. apply gt_is_positive in Pb. split.
  - intros Hp. rewrite Hp in Pb. subst b. exact Vb.
  - intros Hz. apply is_zero_not_positive in Hz. rewrite Hz in Pb. subst b.
    rewrite Vb. split; reflexivity.
Qed.

(** C2, as amended.  On every row of an emitted table whose volume is
    strictly positive, [vwap] is the quotient of [amount] by [volume]; on
    every row whose volume is zero, [vwap] is the missing value (NaN,
    which is not an infinity).  No error arises, and the table is
    emitted, when the three tables are well formed (volume and amount of
    dtype [int64] or [float64] among the rest) and the output directory
    accepts writes. *)
Theorem vwap_is_amount_over_volume
  (to_datetime_strftime : column -> string + list (option string))
  (stock_code no_adj_dir hfq_dir qfq_dir output_dir : string)
  (w : world) (na hf qf : DataFrame) :
  file_at w (no_adj_dir, (stock_code ++ "_daily.csv")%string) = Some (Csv na) ->
  file_at w (hfq_dir, (stock_code ++ "_daily_hfq.csv")%string) = Some (Csv hf) ->
  file_at w (qfq_dir, (stock_code ++ "_daily_qfq.csv")%string) = Some (Csv qf) ->
  (forall out,
     emits to_datetime_strftime stock_code no_adj_dir hfq_dir qfq_dir output_dir w na hf qf out
     -> forall i, i < nrows out ->
       (is_positive (cell out "volume" i) = true ->
        cell out "vwap" i
        = SFloat (F64.div (as_float (cell out "amount" i)) (as_float (cell out "volume" i))))
       /\
       (py_is_zero (cell out "volume" i) = true ->
        cell out "vwap" i = NaN /\ F64.is_inf (as_float (cell out "vwap" i)) = false))
  /\
  (well_formed to_datetime_strftime na hf qf = true ->
   mem output_dir (readonly (fs w)) = false ->
   exists out,
     emits to_datetime_strftime stock_code no_adj_dir hfq_dir qfq_dir output_dir w na hf qf
       out).
Proof.
  intros H1 H2 H3. split.
  - intros out He i Hi.
    exact (@emitted_vwap to_datetime_strftime stock_code no_adj_dir hfq_dir qfq_dir
             output_dir w na hf qf out He i Hi).
  - intros HW HR.
    exact (@well_formed_emits to_datetime_strftime stock_code no_adj_dir hfq_dir qfq_dir
             output_dir w na hf qf H1 H2 H3 HW HR).
Qed.

(** At the witness the second row has volume 0 and amount 7: the quotient
    of line 77 is an infinity there, and the emitted [vwap] is missing. *)
Lemma vwap_is_amount_over_volume_witness :
  well_formed Ex.iso_dates Ex2.na_idle Ex.hf Ex.qf = true /\
  (exists out,
     emits Ex.iso_dates "600001" "daily" "daily_hfq" "daily_qfq" "out" Ex2.w_idle
           Ex2.na_idle Ex.hf Ex.qf out) /\
  emits Ex.iso_dates "600001" "daily" "daily_hfq" "daily_qfq" "out" Ex2.w_idle
        Ex2.na_idle Ex.hf Ex.qf (Ex.emitted Ex2.w_idle) /\
  is_positive (cell (Ex.emitted Ex2.w_idle) "volume" 0) = true /\
  cell (Ex.emitted Ex2.w_idle) "vwap" 0
  = SFloat (F64.div (as_float (cell (Ex.emitted Ex2.w_idle) "amount" 0))
                    (as_float (cell (Ex.emitted Ex2.w_idle) "volume" 0))) /\
  py_is_zero (cell (Ex.emitted Ex2.w_idle) "volume" 1) = true /\
  F64.is_inf (F64.div (as_float (cell (Ex.emitted Ex2.w_idle) "amount" 1))
                      (as_float (cell (Ex.emitted Ex2.w_idle) "volume" 1))) = true /\
  cell (Ex.emitted Ex2.w_idle) "vwap" 1 = NaN.
Proof.
  assert (well_formed Ex.iso_dates Ex2.na_idle Ex.hf Ex.qf = true) as HW
    by (vm_compute; reflexivity).
  assert (emits Ex.iso_dates "600001" "daily" "daily_hfq" "daily_qfq" "out" Ex2.w_idle
            Ex2.na_idle Ex.hf Ex.qf (Ex.emitted Ex2.w_idle)) as He.
  { unfold emits. repeat split; try reflexivity.
    eexists. split; vm_compute; reflexivity. }
  assert (0 < nrows (Ex.emitted Ex2.w_idle)) as H0 by (vm_compute; lia).
  assert (1 < nrows (Ex.emitted Ex2.w_idle)) as H1 by (vm_compute; lia).
  assert (is_positive (cell (Ex.emitted Ex2.w_idle) "volume" 0) = true) as P0
    by (vm_compute; reflexivity).
  assert (py_is_zero (cell (Ex.emitted Ex2.w_idle) "volume" 1) = true) as Z1
    by (vm_compute; reflexivity).
  pose proof (@vwap_is_amount_over_volume Ex.iso_dates "600001" "daily" "daily_hfq"
                "daily_qfq" "out" Ex2.w_idle Ex2.na_idle Ex.hf Ex.qf eq_refl eq_refl eq_refl)
    as [Hv Hw].
  refine (conj HW (conj (Hw HW eq_refl) (conj He (conj P0
            (conj (proj1 (Hv _ He 0 H0) P0) (conj Z1 (conj _ _))))))).
  - vm_compute. reflexivity.
  - exact (proj1 (proj2 (Hv _ He 1 H1) Z1)).
Defined.

(** C2 as stated fails: a volume column of dtype [object] (a CSV column
    with an integer too large for 64 bits) holds a zero on its second row;
    the division of line 77 raises [ZeroDivisionError] before the guard
    is reached, the normalizer returns [False], and no table, hence no
    [vwap], is emitted. *)
Lemma vwap_zero_division_counterexample :
  file_at Ex2.w_obj ("daily", "600001_daily.csv") = Some (Csv Ex2.na_obj) /\
  py_is_zero (cell Ex2.na_obj Col.lots_ 1) = true /\
  process_stock_data Ex.iso_dates "600001" "daily" "daily_hfq" "daily_qfq" "out" Ex2.w_obj
  = (inr false,
     say Ex2.w_obj (diagnostic "600001" (ZeroDivisionError "division by zero"))) /\
  file_at (say Ex2.w_obj (diagnostic "600001" (ZeroDivisionError "division by zero")))
          ("out", output_name "600001") = None /\
  ~ (exists out,
       emits Ex.iso_dates "600001" "daily" "daily_hfq" "daily_qfq" "out" Ex2.w_obj
             Ex2.na_obj Ex.hf Ex.qf out).
Proof.
  assert (process_stock_data Ex.iso_dates "600001" "daily" "daily_hfq" "daily_qfq" "out"
            Ex2.w_obj
          = (inr false,
             say Ex2.w_obj (diagnostic "600001" (ZeroDivisionError "division by zero"))))
    as Hrun by (vm_compute; reflexivity).
  refine (conj eq_refl (conj _ (conj Hrun (conj _ _)))).
  - vm_compute. reflexivity.
  - vm_compute. reflexivity.
  - intros [out (_ & _ & _ & w' & Hrun' & _)]. rewrite Hrun in Hrun'. discriminate.
Qed.

(** C10.  On every row of an emitted table whose volume is strictly
    negative, and more generally on every row whose volume is not strictly
    positive, [vwap] is the missing value. *)
Theorem vwap_null_unless_positive
  (to_datetime_strftime : column -> string + list (option string))
  (stock_code no_adj_dir hfq_dir qfq_dir output_dir : string)
  (w : world) (na hf qf out : DataFrame) :
  emits to_datetime_strftime stock_code no_adj_dir hfq_dir qfq_dir output_dir w na hf qf out ->
  forall i, i < nrows out ->
    (is_negative (cell out "volume" i) = true -> cell out "vwap" i = NaN) /\
    (is_positive (cell out "volume" i) = false -> cell out "vwap" i = NaN).
Proof.
  intros He i Hi. apply emitted_table in He.
  destruct He as (L & A & CN & HO & HC & HH & HL & H).
  destruct H as (_ & _ & _ & _ & _ & _ & _ & _ & _ & _ & _ & _ & _ & _ & _ & _ & _ & _ & _
                 & HG & _).
  destruct (HG i Hi) as [b [Pb Vb]]. apply gt_is_positive in Pb.
  assert (is_positive (cell out "volume" i) = false -> cell out "vwap" i = NaN) as K.
  { intros Hn. rewrite Hn in Pb. subst b. exact Vb. }
  split; [|exact K].
  intros Hn. apply K, is_negative_not_positive, Hn.
Qed.

Lemma vwap_null_unless_positive_witness :
  emits Ex.iso_dates "600001" "daily" "daily_hfq" "daily_qfq" "out" Ex.w_neg
        Ex.na_neg Ex.hf1 Ex.qf1 (Ex.emitted Ex.w_neg) /\
  0 < nrows (Ex.emitted Ex.w_neg) /\
  is_negative (cell (Ex.emitted Ex.w_neg) "volume" 0) = true /\
  cell (Ex.emitted Ex.w_neg) "vwap" 0 = NaN.
Proof.
  assert (emits Ex.iso_dates "600001" "daily" "daily_hfq" "daily_qfq" "out" Ex.w_neg
            Ex.na_neg Ex.hf1 Ex.qf1 (Ex.emitted Ex.w_neg)) as He.
  { unfold emits. repeat split; try reflexivity.
    eexists. split; vm_compute; reflexivity. }
  assert (0 < nrows (Ex.emitted Ex.w_neg)) as H0 by (vm_compute; lia).
  assert (is_negative (cell (Ex.emitted Ex.w_neg) "volume" 0) = true) as N0
    by (vm_compute; reflexivity).
  refine (conj He (conj H0 (conj N0 _))).
  exact (proj1 (vwap_null_unless_positive He H0) N0).
Defined.

(** ** Exchange prefix and output file name *)

(** C8.  The exchange prefix depends on the first character of the
    identifier only: [SH] when it is the digit 6, [SZ] otherwise (also for
    the empty identifier); the output file is named prefix, identifier,
    [.csv], and it is the file a successful run leaves in the output
    directory. *)
Theorem exchange_prefix_by_first_character
  (to_datetime_strftime : column -> string + list (option string))
  (stock_code no_adj_dir hfq_dir qfq_dir output_dir : string) :
  exchange_of stock_code
  = match stock_code with
    | String c _ => if Ascii.eqb c "6" then "SH" else "SZ"
    | EmptyString => "SZ"
    end /\
  output_name stock_code = (exchange_of stock_code ++ stock_code ++ ".csv")%string /\
  forall w w',
    process_stock_data to_datetime_strftime stock_code no_adj_dir hfq_dir qfq_dir output_dir w
    = (inr true, w') ->
    (exists df,
       file_at w' (output_dir, (exchange_of stock_code ++ stock_code ++ ".csv")%string)
       = Some (Csv df)) /\
    (forall p,
       p <> (output_dir, (exchange_of stock_code ++ stock_code ++ ".csv")%string) ->
       file_at w' p = file_at w p).
Proof.
  split; [|split].
  - unfold exchange_of. destruct stock_code as [|c rest]; simpl; [reflexivity|].
    rewrite andb_true_r, Ascii.eqb_sym. reflexivity.
  - reflexivity.
  - intros w w' H. apply normalizer_true, try_block_returns in H.
    destruct H as (_ & na & hf & qf & out & _ & _ & _ & _ & _ & _ & Hf). split.
    + exists out. unfold file_at. rewrite Hf. apply find_file_store_same.
    + intros p Hp. unfold file_at. rewrite Hf. apply find_file_store_other.
      intros E. apply Hp. symmetry. exact E.
Qed.

Lemma exchange_prefix_by_first_character_witness :
  exchange_of "600001" = "SH" /\ exchange_of "000001" = "SZ" /\
  process_stock_data Ex.iso_dates "600001" "daily" "daily_hfq" "daily_qfq" "out" Ex.w1
  = (inr true, snd (process_stock_data Ex.iso_dates "600001" "daily" "daily_hfq"
                      "daily_qfq" "out" Ex.w1)) /\
  exists df,
    file_at (snd (process_stock_data Ex.iso_dates "600001" "daily" "daily_hfq"
                    "daily_qfq" "out" Ex.w1)) ("out", "SH600001.csv") = Some (Csv df).
Proof.
  assert (process_stock_data Ex.iso_dates "600001" "daily" "daily_hfq" "daily_qfq" "out" Ex.w1
          = (inr true, snd (process_stock_data Ex.iso_dates "600001" "daily" "daily_hfq"
                              "daily_qfq" "out" Ex.w1))) as Hrun
    by (vm_compute; reflexivity).
  refine (conj _ (conj _ (conj Hrun _))).
  - exact (proj1 (exchange_prefix_by_first_character Ex.iso_dates "600001"
                    "daily" "daily_hfq" "daily_qfq" "out")).
  - exact (proj1 (exchange_prefix_by_first_character Ex.iso_dates "000001"
                    "daily" "daily_hfq" "daily_qfq" "out")).
  - exact (proj1 (proj2 (proj2 (exchange_prefix_by_first_character Ex.iso_dates "600001"
                                  "daily" "daily_hfq" "daily_qfq" "out")) _ _ Hrun)).
Defined.

(** ** Row count and adjustment factor *)

Section UniqueDates.

Variable to_datetime_strftime : column -> string + list (option string).

Local Abbreviation keys := (date_keys to_datetime_strftime).

Lemma join_indexer_length_single (lk rk : list scalar) :
  single_match lk rk = true -> length (join_indexer lk rk) = length lk.
Proof.
  intros H. rewrite <- (length_left_idx (join_indexer lk rk)), (left_idx_single _ _ H).
  rewrite length_map, length_seq. reflexivity.
Qed.

Lemma merged_keys_single (na hf : DataFrame) :
  single_match (keys na) (keys hf) = true ->
  merged_keys to_datetime_strftime na hf = Object (keys na).
Proof.
  intros H. unfold merged_keys, hfq_join. rewrite (left_idx_single _ _ H).
  apply (reindex_id (Object (keys na))). reflexivity.
Qed.

Lemma from_left_single (na hf qf : DataFrame) (c : column) :
  single_match (keys na) (keys hf) = true ->
  single_match (keys na) (keys qf) = true ->
  col_len c = length (keys na) ->
  from_left to_datetime_strftime na hf qf c = c.
Proof.
  intros H1 H2 Hc. unfold from_left, qfq_join. rewrite (merged_keys_single _ _ H1).
  simpl col_scalars. unfold hfq_join.
  rewrite (left_idx_single _ _ H1), (left_idx_single _ _ H2).
  change (reindex (length (keys na)) (reindex (length (keys na)) c) = c).
  rewrite reindex_idem. apply reindex_id. exact Hc.
Qed.

Lemma rows_single (na hf qf : DataFrame) :
  single_match (keys na) (keys hf) = true ->
  single_match (keys na) (keys qf) = true ->
  length (qfq_join to_datetime_strftime na hf qf) = length (keys na).
Proof.
  intros H1 H2. unfold qfq_join. rewrite (merged_keys_single _ _ H1).
  apply join_indexer_length_single. exact H2.
Qed.

Lemma rows_at_least (na hf qf : DataFrame) :
  length (keys na) <= length (qfq_join to_datetime_strftime na hf qf).
Proof.
  unfold qfq_join, join_indexer.
  eapply Nat.le_trans; [|apply join_from_length].
  rewrite col_len_scalars. unfold merged_keys. rewrite col_len_take, length_left_idx.
  apply join_from_length.
Qed.

End UniqueDates.

Lemma emitted_row_count
  (to_datetime_strftime : column -> string + list (option string))
  (stock_code no_adj_dir hfq_dir qfq_dir output_dir : string)
  (w : world) (na hf qf out : DataFrame) :
  emits to_datetime_strftime stock_code no_adj_dir hfq_dir qfq_dir output_dir w na hf qf out ->
  nrows na <= nrows out /\
  (single_match (date_keys to_datetime_strftime na) (date_keys to_datetime_strftime hf) = true ->
   single_match (date_keys to_datetime_strftime na) (date_keys to_datetime_strftime qf) = true ->
   nrows out = nrows na).
Proof.
  intros He. apply emitted_table in He.
  destruct He as (L & A & CN & HO & HC & HH & HL & H).
  destruct H as (_ & _ & _ & _ & _ & _ & _ & K1 & _ & _ & HN & _).
  rewrite HN, <- K1. split.
  - apply rows_at_least.
  - apply rows_single.
Qed.

(** C3, as amended.  For an instrument whose three files exist and are
    well formed, and an output directory that accepts writes, the output
    file is emitted; it has at least as many rows as the unadjusted table,
    and exactly as many when no date of the unadjusted table is found on
    more than one row of the backward-adjusted table or of the
    forward-adjusted table. *)
Theorem row_count_preserved_for_unique_dates
  (to_datetime_strftime : column -> string + list (option string))
  (stock_code no_adj_dir hfq_dir qfq_dir output_dir : string)
  (w : world) (na hf qf : DataFrame) :
  file_at w (no_adj_dir, (stock_code ++ "_daily.csv")%string) = Some (Csv na) ->
  file_at w (hfq_dir, (stock_code ++ "_daily_hfq.csv")%string) = Some (Csv hf) ->
  file_at w (qfq_dir, (stock_code ++ "_daily_qfq.csv")%string) = Some (Csv qf) ->
  well_formed to_datetime_strftime na hf qf = true ->
  mem output_dir (readonly (fs w)) = false ->
  (exists out,
     emits to_datetime_strftime stock_code no_adj_dir hfq_dir qfq_dir output_dir w
       na hf qf out) /\
  forall out,
    emits to_datetime_strftime stock_code no_adj_dir hfq_dir qfq_dir output_dir w
      na hf qf out ->
    nrows na <= nrows out /\
    (single_match (date_keys to_datetime_strftime na) (date_keys to_datetime_strftime hf)
     = true ->
     single_match (date_keys to_datetime_strftime na) (date_keys to_datetime_strftime qf)
     = true ->
     nrows out = nrows na).
Proof.
  intros H1 H2 H3 HW HR. split.
  - apply well_formed_emits; assumption.
  - intros out. apply emitted_row_count.
Qed.

Lemma row_count_preserved_for_unique_dates_witness :
  well_formed Ex.iso_dates Ex.na Ex.hf Ex.qf = true /\
  mem "out" (readonly (fs Ex.w1)) = false /\
  emits Ex.iso_dates "600001" "daily" "daily_hfq" "daily_qfq" "out" Ex.w1
        Ex.na Ex.hf Ex.qf (Ex.emitted Ex.w1) /\
  single_match (date_keys Ex.iso_dates Ex.na) (date_keys Ex.iso_dates Ex.hf) = true /\
  single_match (date_keys Ex.iso_dates Ex.na) (date_keys Ex.iso_dates Ex.qf) = true /\
  nrows (Ex.emitted Ex.w1) = nrows Ex.na.
Proof.
  assert (well_formed Ex.iso_dates Ex.na Ex.hf Ex.qf = true) as HW
    by (vm_compute; reflexivity).
  assert (mem "out" (readonly (fs Ex.w1)) = false) as HR by reflexivity.
  assert (single_match (date_keys Ex.iso_dates Ex.na) (date_keys Ex.iso_dates Ex.hf) = true)
    as S1 by (vm_compute; reflexivity).
  assert (single_match (date_keys Ex.iso_dates Ex.na) (date_keys Ex.iso_dates Ex.qf) = true)
    as S2 by (vm_compute; reflexivity).
  refine (conj HW (conj HR (conj emits_w1 (conj S1 (conj S2 _))))).
  exact (proj2 (proj2 (@row_count_preserved_for_unique_dates Ex.iso_dates "600001"
                         "daily" "daily_hfq" "daily_qfq" "out" Ex.w1 Ex.na Ex.hf Ex.qf
                         eq_refl eq_refl eq_refl HW HR) _ emits_w1) S1 S2).
Defined.

(** C3 as stated fails: with a date repeated in the backward-adjusted file,
    the three files are well formed, they are read and merged without
    error, and the output has three rows for two rows of the unadjusted
    file. *)
Lemma row_count_counterexample :
  well_formed Ex.iso_dates Ex.na Ex.hf_dup Ex.qf = true /\
  emits Ex.iso_dates "600001" "daily" "daily_hfq" "daily_qfq" "out" Ex.w_dup
        Ex.na Ex.hf_dup Ex.qf (Ex.emitted Ex.w_dup) /\
  nrows Ex.na = 2 /\ nrows (Ex.emitted Ex.w_dup) = 3 /\
  nrows (Ex.emitted Ex.w_dup) <> nrows Ex.na.
Proof.
  split; [vm_compute; reflexivity|].
  refine (conj emits_w_dup _). vm_compute. repeat split; try reflexivity. discriminate.
Qed.

(** What the comments of lines 85 to 89 describe holds when no date of the
    unadjusted table is found on more than one row of the
    backward-adjusted table or of the forward-adjusted table: row [i] of
    the output has then the date of row [i] of the unadjusted table, and
    its factor is its backward-adjusted close divided by the unadjusted
    close of that row. *)
Lemma factor_on_unique_dates
  (to_datetime_strftime : column -> string + list (option string))
  (stock_code no_adj_dir hfq_dir qfq_dir output_dir : string)
  (w : world) (na hf qf out : DataFrame) :
  emits to_datetime_strftime stock_code no_adj_dir hfq_dir qfq_dir output_dir w na hf qf out ->
  single_match (date_keys to_datetime_strftime na) (date_keys to_datetime_strftime hf) = true ->
  single_match (date_keys to_datetime_strftime na) (date_keys to_datetime_strftime qf) = true ->
  forall i, i < nrows out ->
    cell out "date" i = nth i (date_keys to_datetime_strftime na) NaN /\
    cell out "factor" i
    = SFloat (F64.div (as_float (cell out "close" i)) (as_float (cell na Col.close_ i))).
Proof.
  intros He S1 S2 i Hi. apply emitted_table in He.
  destruct He as (L & A & CN & HO & HC & HH & HL & H).
  destruct H as (_ & _ & ECN & _ & _ & _ & _ & K1 & _ & _ & HN & _ & HD & _ & _ & _ & _ & _ & _
                 & _ & HF).
  rewrite (rows_single _ _ _ _ S1 S2) in HN. split.
  - rewrite HD, (from_left_single _ _ _ _ _ S1 S2) by reflexivity. reflexivity.
  - rewrite (HF i Hi). unfold cell. rewrite ECN. rewrite reindex_id; [reflexivity|].
    rewrite (getitem_len _ _ ECN). congruence.
Qed.

(** C1.  The code breaks the claim where a date is repeated in the
    backward-adjusted file.  The unadjusted table has the rows 2024-01-02
    (close 10) and 2024-01-03 (close 20); the backward-adjusted table has
    the rows 2024-01-02 (100), 2024-01-02 (110) and 2024-01-03 (120).  The
    emitted table has three rows.  Row 1 is dated 2024-01-02 and carries
    through the join the amount and the volume of that date, but line 87
    gives it by position the unadjusted close of 2024-01-03: its factor
    is 110/20, not 110/10.  Row 2, dated 2024-01-03, is given no
    unadjusted close at all: its factor is missing, not 120/20. *)
Theorem factor_takes_the_close_of_another_date :
  emits Ex.iso_dates "600001" "daily" "daily_hfq" "daily_qfq" "out" Ex2.w_rep
        Ex.na Ex2.hf_rep Ex.qf (Ex.emitted Ex2.w_rep) /\
  date_keys Ex.iso_dates Ex.na = [SStr "2024-01-02"; SStr "2024-01-03"] /\
  cell Ex.na Col.close_ 0 = SFloat (F64.of_Z 10) /\
  cell Ex.na Col.close_ 1 = SFloat (F64.of_Z 20) /\
  nrows (Ex.emitted Ex2.w_rep) = 3 /\
  cell (Ex.emitted Ex2.w_rep) "date" 1 = SStr "2024-01-02" /\
  cell (Ex.emitted Ex2.w_rep) "amount" 1 = cell Ex.na Col.turnover_ 0 /\
  cell (Ex.emitted Ex2.w_rep) "volume" 1 = SInt 10000 /\
  cell (Ex.emitted Ex2.w_rep) "close" 1 = SFloat (F64.of_Z 110) /\
  cell (Ex.emitted Ex2.w_rep) "factor" 1 = SFloat (F64.div (F64.of_Z 110) (F64.of_Z 20)) /\
  cell (Ex.emitted Ex2.w_rep) "factor" 1 <> SFloat (F64.div (F64.of_Z 110) (F64.of_Z 10)) /\
  cell (Ex.emitted Ex2.w_rep) "date" 2 = SStr "2024-01-03" /\
  cell (Ex.emitted Ex2.w_rep) "close" 2 = SFloat (F64.of_Z 120) /\
  cell (Ex.emitted Ex2.w_rep) "factor" 2 = NaN /\
  cell (Ex.emitted Ex2.w_rep) "factor" 2 <> SFloat (F64.div (F64.of_Z 120) (F64.of_Z 20)).
Proof.
  split.
  { unfold emits. repeat split; try reflexivity.
    eexists. split; vm_compute; reflexivity. }
  vm_compute. repeat split; try reflexivity; discriminate.
Qed.

(** ** Where the rows of the output come from *)

Lemma nth_error_map_nth (A B : Type) (f : A -> B) (l : list A) (i : nat) (d : A) :
  i < length l -> nth_error (map f l) i = Some (f (nth i l d)).
Proof.
  intros H. rewrite nth_error_map, (nth_error_nth' l d H). reflexivity.
Qed.

Section RowOrigin.

Variable to_datetime_strftime : column -> string + list (option string).

Local Abbreviation keys := (date_keys to_datetime_strftime).
Local Abbreviation rows_of := (qfq_join to_datetime_strftime).
Local Abbreviation source := (source_row to_datetime_strftime).
Local Abbreviation joined := (hfq_row to_datetime_strftime).

Variables na hf qf : DataFrame.

Lemma merged_keys_length :
  length (col_scalars (merged_keys to_datetime_strftime na hf))
  = length (hfq_join to_datetime_strftime na hf).
Proof.
  rewrite col_len_scalars. unfold merged_keys. rewrite col_len_take. apply length_left_idx.
Qed.

(** Every output row stems from a row of the first join, which stems from
    a row of the unadjusted table and from at most one row of the
    backward-adjusted table, of the same date. *)
Lemma row_origin (i : nat) :
  i < length (rows_of na hf qf) ->
  merged_row to_datetime_strftime na hf qf i < length (hfq_join to_datetime_strftime na hf) /\
  source na hf qf i < length (keys na) /\
  nth_error (left_idx (rows_of na hf qf)) i
  = Some (Some (merged_row to_datetime_strftime na hf qf i)) /\
  nth_error (left_idx (hfq_join to_datetime_strftime na hf))
            (merged_row to_datetime_strftime na hf qf i)
  = Some (Some (source na hf qf i)) /\
  nth_error (right_idx (hfq_join to_datetime_strftime na hf))
            (merged_row to_datetime_strftime na hf qf i)
  = Some (joined na hf qf i) /\
  match joined na hf qf i with
  | Some k =>
      k < length (keys hf) /\
      key_eqb (nth (source na hf qf i) (keys na) NaN) (nth k (keys hf) NaN) = true
  | None =>
      forall k, k < length (keys hf) ->
        key_eqb (nth (source na hf qf i) (keys na) NaN) (nth k (keys hf) NaN) = false
  end.
Proof.
  intros Hi. unfold source_row, hfq_row, merged_row.
  set (p := nth i (rows_of na hf qf) (0, None)).
  assert (In p (rows_of na hf qf)) as Hp by (apply nth_In; exact Hi).
  apply join_indexer_ok in Hp. destruct Hp as [Hp _]. rewrite merged_keys_length in Hp.
  set (q := nth (fst p) (hfq_join to_datetime_strftime na hf) (0, None)).
  assert (In q (hfq_join to_datetime_strftime na hf)) as Hq by (apply nth_In; exact Hp).
  apply join_indexer_ok in Hq. destruct Hq as [Hq1 Hq2].
  repeat split; try assumption.
  - unfold left_idx. apply (nth_error_map_nth (fun p => Some (fst p)) _ (0, None) Hi).
  - unfold left_idx. apply (nth_error_map_nth (fun p => Some (fst p)) _ (0, None) Hp).
  - unfold right_idx. apply (nth_error_map_nth snd _ (0, None) Hp).
Qed.

(** A column of the unadjusted table reaches the output unchanged. *)
Lemma from_left_cell (c : column) (i : nat) :
  col_len c = length (keys na) -> i < length (rows_of na hf qf) ->
  col_get (from_left to_datetime_strftime na hf qf c) i = col_get c (source na hf qf i).
Proof.
  intros Hc Hi. destruct (row_origin Hi) as (_ & _ & N2 & N1 & _).
  unfold from_left.
  rewrite (col_get_take_exact _ _ _ (j := merged_row to_datetime_strftime na hf qf i)).
  - apply col_get_take_exact; [|exact N1].
    rewrite Hc. apply left_idx_in_bounds.
  - rewrite col_len_take, length_left_idx, <- merged_keys_length.
    apply left_idx_in_bounds.
  - exact N2.
Qed.

(** A column of the backward-adjusted table reaches the output through
    the row joined by date, if any. *)
Lemma from_hfq_cell (c : column) (i : nat) :
  col_len c = length (keys hf) -> i < length (rows_of na hf qf) ->
  match joined na hf qf i with
  | Some k => carries (col_get c k) (col_get (from_hfq to_datetime_strftime na hf qf c) i)
  | None => col_get (from_hfq to_datetime_strftime na hf qf c) i = NaN
  end.
Proof.
  intros Hc Hi. destruct (row_origin Hi) as (_ & _ & N2 & _ & NR & HK).
  unfold from_hfq.
  rewrite (col_get_take_exact _ _ _ (j := merged_row to_datetime_strftime na hf qf i));
    [ | rewrite col_len_take, length_right_idx, <- merged_keys_length;
        apply left_idx_in_bounds | exact N2 ].
  destruct (joined na hf qf i) as [k|].
  - apply col_get_take_some; [exact NR|]. rewrite Hc. tauto.
  - apply col_get_take_none. exact NR.
Qed.

End RowOrigin.

(** ** Volume and amount *)

Lemma wrap_in_range (z : Z) : I64.in_range z -> I64.wrap z = z.
Proof.
  unfold I64.in_range, I64.wrap, I64.min_int, I64.max_int. intros H.
  rewrite Z.mod_small; lia.
Qed.

Lemma col_get_mul_int (c : column) (k : Z) (i : nat) :
  i < col_len c ->
  match col_get c i with
  | SInt z => col_get (col_mul_int c k) i = SInt (I64.wrap (z * k)) \/
              col_get (col_mul_int c k) i = SInt (z * k)
  | SFloat f => col_get (col_mul_int c k) i = SFloat (F64.mul f (F64.of_Z k))
  | SStr s => col_get (col_mul_int c k) i = SStr (Str.repeat s (Z.to_nat k))
  end.
Proof.
  intros Hi. destruct c as [l|l|l]; simpl in *.
  - rewrite nth_error_map. destruct (nth_error l i) as [z|] eqn:E; simpl.
    + left. reflexivity.
    + apply nth_error_None in E. lia.
  - erewrite nth_indep by (rewrite length_map; exact Hi).
    rewrite (map_nth (fun f => F64.mul f (F64.of_Z k)) l F64.nan). reflexivity.
  - erewrite (nth_indep (map _ l)) by (rewrite length_map; exact Hi).
    rewrite (map_nth (fun x => py_mul_int x k) l NaN).
    destruct (nth i l NaN); simpl; auto.
Qed.

Lemma is_int64_take (idx : list (option nat)) (c : column) :
  forallb (in_bounds (col_len c)) idx = true -> is_int64 (col_take idx c) = is_int64 c.
Proof.
  destruct c as [l|l|l]; simpl; try reflexivity. intros H. rewrite H. reflexivity.
Qed.

(** The joins keep the dtype of an [int64] column of the unadjusted table:
    every output row takes its value from a row of that table. *)
Lemma is_int64_from_left
  (to_datetime_strftime : column -> string + list (option string))
  (na hf qf : DataFrame) (c : column) :
  col_len c = length (date_keys to_datetime_strftime na) ->
  is_int64 (from_left to_datetime_strftime na hf qf c) = is_int64 c.
Proof.
  intros Hc. unfold from_left. rewrite is_int64_take.
  - apply is_int64_take. rewrite Hc. apply left_idx_in_bounds.
  - rewrite col_len_take, length_left_idx.
    rewrite <- (merged_keys_length to_datetime_strftime na hf).
    apply left_idx_in_bounds.
Qed.

(** [int64] cells are multiplied modulo 2^64, the integers of an [object]
    column exactly. *)
Lemma col_get_mul_int64 (c : column) (k z : Z) (i : nat) :
  i < col_len c -> col_get c i = SInt z ->
  col_get (col_mul_int c k) i
  = if is_int64 c then SInt (I64.wrap (z * k)) else SInt (z * k).
Proof.
  intros Hi. destruct c as [l|l|l]; simpl in *.
  - rewrite nth_error_map. destruct (nth_error l i) as [x|]; simpl; [|discriminate].
    intros E. inversion E. reflexivity.
  - discriminate.
  - erewrite (nth_indep (map _ l)) by (rewrite length_map; exact Hi).
    rewrite (map_nth (fun x => py_mul_int x k) l NaN). intros ->. reflexivity.
Qed.

(** C9, as amended.  Every output row stems from a row of the unadjusted
    table with the same date; its amount is the raw amount unchanged; its
    volume is the raw volume in lots times 100 in the arithmetic of the
    column: the IEEE product for a float; for an integer of an [int64]
    column the product reduced modulo 2^64 into the signed 64-bit range,
    which is the exact product whenever that fits in 64 bits; the exact
    product for an integer of an [object] column. *)
Theorem volume_is_lots_times_100
  (to_datetime_strftime : column -> string + list (option string))
  (stock_code no_adj_dir hfq_dir qfq_dir output_dir : string)
  (w : world) (na hf qf out : DataFrame) :
  emits to_datetime_strftime stock_code no_adj_dir hfq_dir qfq_dir output_dir w na hf qf out ->
  forall i, i < nrows out ->
    let j := source_row to_datetime_strftime na hf qf i in
    j < nrows na /\
    cell out "date" i = nth j (date_keys to_datetime_strftime na) NaN /\
    cell out "amount" i = cell na Col.turnover_ j /\
    (forall z, cell na Col.lots_ j = SInt z -> I64.in_range (z * 100) ->
               cell out "volume" i = SInt (z * 100)) /\
    (forall z, cell na Col.lots_ j = SInt z -> has_int64 na Col.lots_ = true ->
               cell out "volume" i = SInt (I64.wrap (z * 100))) /\
    (forall z, cell na Col.lots_ j = SInt z -> has_int64 na Col.lots_ = false ->
               cell out "volume" i = SInt (z * 100)) /\
    (forall f, cell na Col.lots_ j = SFloat f ->
               cell out "volume" i = SFloat (F64.mul f (F64.of_Z 100))).
Proof.
  intros He i Hi j. apply emitted_table in He.
  destruct He as (L & A & CN & HO & HC & HH & HL & H).
  destruct H as (EL & EA & _ & _ & _ & _ & _ & K1 & _ & _ & HN & _ & HD & _ & _ & _ & _ & HV
                 & HA & _).
  rewrite HN in Hi.
  destruct (row_origin to_datetime_strftime na hf qf Hi) as (_ & Hj & _).
  fold j in Hj.
  pose proof (getitem_len _ _ EL) as LL. pose proof (getitem_len _ _ EA) as LA.
  rewrite <- K1 in LL, LA.
  assert (col_get (from_left to_datetime_strftime na hf qf L) i = col_get L j) as CL
    by (apply from_left_cell; assumption).
  assert (i < col_len (from_left to_datetime_strftime na hf qf L)) as Hi'
    by (unfold from_left; rewrite col_len_take, length_left_idx; exact Hi).
  pose proof (col_get_mul_int (from_left to_datetime_strftime na hf qf L) 100 Hi') as M.
  rewrite CL in M. rewrite <- HV in M.
  assert (forall z, col_get L j = SInt z ->
                    cell out "volume" i
                    = if is_int64 L then SInt (I64.wrap (z * 100)) else SInt (z * 100)) as W.
  { intros z Ez. rewrite HV.
    rewrite (@col_get_mul_int64 (from_left to_datetime_strftime na hf qf L) 100 z i Hi')
      by (rewrite CL; exact Ez).
    rewrite (is_int64_from_left to_datetime_strftime na hf qf L LL). reflexivity. }
  assert (forall k, cell na Col.lots_ k = col_get L k) as XL
    by (intros k; unfold cell; rewrite EL; reflexivity).
  assert (forall k, cell na Col.turnover_ k = col_get A k) as XA
    by (intros k; unfold cell; rewrite EA; reflexivity).
  assert (has_int64 na Col.lots_ = is_int64 L) as XI
    by (unfold has_int64; rewrite EL; reflexivity).
  rewrite XA, !XL, XI.
  repeat split.
  - rewrite <- K1. exact Hj.
  - rewrite HD. apply (from_left_cell to_datetime_strftime na hf qf (Object _)); auto.
  - rewrite HA. apply from_left_cell; assumption.
  - intros z Ez Hr. rewrite (W z Ez). destruct (is_int64 L); [|reflexivity].
    rewrite (wrap_in_range Hr). reflexivity.
  - intros z Ez HI. rewrite (W z Ez), HI. reflexivity.
  - intros z Ez HI. rewrite (W z Ez), HI. reflexivity.
  - intros f Ef. rewrite Ef in M. exact M.
Qed.

(** At the witness 100 lots are emitted as 10000 shares, and 2^62 lots of
    an [int64] column as the product reduced modulo 2^64, which is 0. *)
Lemma volume_is_lots_times_100_witness :
  emits Ex.iso_dates "600001" "daily" "daily_hfq" "daily_qfq" "out" Ex.w1
        Ex.na Ex.hf Ex.qf (Ex.emitted Ex.w1) /\
  cell Ex.na Col.lots_ (source_row Ex.iso_dates Ex.na Ex.hf Ex.qf 0) = SInt 100 /\
  I64.in_range (100 * 100) /\
  cell (Ex.emitted Ex.w1) "volume" 0 = SInt 10000 /\
  emits Ex.iso_dates "600001" "daily" "daily_hfq" "daily_qfq" "out" Ex.w_big
        Ex.na_big Ex.hf1 Ex.qf1 (Ex.emitted Ex.w_big) /\
  cell Ex.na_big Col.lots_ (source_row Ex.iso_dates Ex.na_big Ex.hf1 Ex.qf1 0)
  = SInt (2 ^ 62) /\
  has_int64 Ex.na_big Col.lots_ = true /\
  I64.wrap (2 ^ 62 * 100) = 0%Z /\
  cell (Ex.emitted Ex.w_big) "volume" 0 = SInt (I64.wrap (2 ^ 62 * 100)).
Proof.
  assert (0 < nrows (Ex.emitted Ex.w1)) as H0 by (vm_compute; lia).
  assert (cell Ex.na Col.lots_ (source_row Ex.iso_dates Ex.na Ex.hf Ex.qf 0) = SInt 100)
    as E by (vm_compute; reflexivity).
  assert (I64.in_range (100 * 100)) as R
    by (unfold I64.in_range, I64.min_int, I64.max_int; lia).
  assert (0 < nrows (Ex.emitted Ex.w_big)) as B0 by (vm_compute; lia).
  assert (cell Ex.na_big Col.lots_ (source_row Ex.iso_dates Ex.na_big Ex.hf1 Ex.qf1 0)
          = SInt (2 ^ 62)) as EB by (vm_compute; reflexivity).
  assert (has_int64 Ex.na_big Col.lots_ = true) as IB by (vm_compute; reflexivity).
  refine (conj emits_w1 (conj E (conj R (conj _ (conj emits_w_big (conj EB (conj IB
            (conj eq_refl _)))))))).
  - exact (proj1 (proj2 (proj2 (proj2 (volume_is_lots_times_100 emits_w1 H0)))) 100%Z E R).
  - exact (proj1 (proj2 (proj2 (proj2 (proj2 (volume_is_lots_times_100 emits_w_big B0)))))
             (2 ^ 62)%Z EB IB).
Defined.

(** C9 as stated fails: a raw volume of 2^62 lots in an integer column is
    emitted as 0, not as 2^62 times 100. *)
Lemma volume_overflow_counterexample :
  emits Ex.iso_dates "600001" "daily" "daily_hfq" "daily_qfq" "out" Ex.w_big
        Ex.na_big Ex.hf1 Ex.qf1 (Ex.emitted Ex.w_big) /\
  0 < nrows (Ex.emitted Ex.w_big) /\
  cell Ex.na_big Col.lots_ (source_row Ex.iso_dates Ex.na_big Ex.hf1 Ex.qf1 0)
  = SInt (2 ^ 62) /\
  cell (Ex.emitted Ex.w_big) "volume" 0 = SInt 0 /\
  cell (Ex.emitted Ex.w_big) "volume" 0 <> SInt (2 ^ 62 * 100).
Proof.
  refine (conj emits_w_big _).
  split; [vm_compute; lia|]. split; [vm_compute; reflexivity|].
  split; [vm_compute; reflexivity|]. vm_compute. discriminate.
Qed.

(** ** Prices and layout *)



(** ** Failures *)

Section Failures.

Variable to_datetime_strftime : column -> string + list (option string).

Local Abbreviation try_block := (process_stock_data_try to_datetime_strftime).
Local Abbreviation normalizer := (process_stock_data to_datetime_strftime).

Variables no_adj_dir hfq_dir qfq_dir output_dir : string.

Local Abbreviation results := (outcomes to_datetime_strftime no_adj_dir hfq_dir qfq_dir output_dir).
Local Abbreviation step := (count_step to_datetime_strftime no_adj_dir hfq_dir qfq_dir output_dir).

Lemma normalizer_total (stock_code : string) (w : world) :
  exists b w', normalizer stock_code no_adj_dir hfq_dir qfq_dir output_dir w = (inr b, w').
Proof.
  rewrite normalizer_run.
  destruct (try_block stock_code no_adj_dir hfq_dir qfq_dir output_dir w) as [[e|b] w'];
    eauto.
Qed.

(** The loop of [main] visits every code and counts the [True] results. *)
Lemma loop_counts (codes : list string) (acc : nat) (w : world) :
  length (results codes w) = length codes /\
  exists w', for_each codes step acc w = (inr (acc + successes (results codes w)), w').
Proof.
  revert acc w. induction codes as [|c codes IH]; intros acc w; simpl.
  - split; [reflexivity|]. exists w. unfold ret. rewrite Nat.add_0_r. reflexivity.
  - destruct (normalizer_total c w) as [b [w1 Hn]]. rewrite Hn. simpl.
    destruct (IH (if b then S acc else acc) w1) as [IH1 [w' IH2]].
    split; [rewrite IH1; reflexivity|].
    exists w'. unfold bind at 1, count_step, bind at 1, ret. rewrite Hn.
    transitivity (for_each codes step (if b then S acc else acc) w1); [reflexivity|].
    rewrite IH2. f_equal. f_equal.
    unfold successes. simpl. destruct b; simpl; [|reflexivity].
    unfold successes. lia.
Qed.

Lemma generate_stdout (d : string) (w : world) :
  exists l, stdout (snd (generate_instruments_file d w)) = stdout w ++ l.
Proof.
  unfold generate_instruments_file, bind, glob, write_file, print. simpl.
  destruct (mem d (readonly (fs w))); [exists []; simpl; rewrite app_nil_r; reflexivity|].
  destruct (negb (isdir (fs w) d)); [exists []; simpl; rewrite app_nil_r; reflexivity|].
  simpl. eexists. reflexivity.
Qed.

Lemma run_prints_summary (w : world) :
  In (summary (successes (results (discovered_codes no_adj_dir w)
                            {| fs := fs w;
                               stdout := stdout w
                                         ++ [found_line (length (discovered_codes no_adj_dir w))] |}))
              (length (discovered_codes no_adj_dir w)))
     (stdout (snd (run to_datetime_strftime no_adj_dir hfq_dir qfq_dir output_dir w))).
Proof.
  unfold run, bind at 1, glob. fold (discovered_codes no_adj_dir w).
  set (codes := discovered_codes no_adj_dir w).
  unfold bind at 1, print at 1. fold (found_line (length codes)).
  set (w0 := {| fs := fs w; stdout := stdout w ++ [found_line (length codes)] |}).
  destruct (loop_counts codes 0 w0) as [_ [w1 Hl]].
  unfold bind at 1. rewrite Hl. simpl "+".
  unfold bind, print.
  destruct (generate_stdout output_dir
              {| fs := fs w1;
                 stdout := stdout w1 ++ [summary (successes (results codes w0)) (length codes)] |})
    as [l Hg].
  rewrite Hg. simpl. apply in_or_app. left. apply in_or_app. right. left. reflexivity.
Qed.

End Failures.

(** C5.  The normalizer never raises: whatever exception its [try] block
    meets, it prints the diagnostic, made of the identifier and of the
    message of the exception, and returns [False]; other instruments are
    not affected, since the batch driver runs the normalizer on every
    discovered code, counts exactly the [True] results and prints that
    count in its summary. *)
Theorem normalizer_catches_and_batch_counts
  (to_datetime_strftime : column -> string + list (option string))
  (no_adj_dir hfq_dir qfq_dir output_dir : string) :
  (forall stock_code w,
     exists b w',
       process_stock_data to_datetime_strftime stock_code no_adj_dir hfq_dir qfq_dir
         output_dir w = (inr b, w')) /\
  (forall stock_code w e w1,
     process_stock_data_try to_datetime_strftime stock_code no_adj_dir hfq_dir qfq_dir
       output_dir w = (inl e, w1) ->
     process_stock_data to_datetime_strftime stock_code no_adj_dir hfq_dir qfq_dir
       output_dir w
     = (inr false, {| fs := fs w1; stdout := stdout w1 ++ [diagnostic stock_code e] |}) /\
     diagnostic stock_code e
     = ("处理股票 " ++ stock_code ++ " 时出错: " ++ str_exn e)%string /\
     files (fs w1) = files (fs w)) /\
  (forall codes w,
     length (outcomes to_datetime_strftime no_adj_dir hfq_dir qfq_dir output_dir codes w)
     = length codes /\
     exists w',
       for_each codes (count_step to_datetime_strftime no_adj_dir hfq_dir qfq_dir output_dir)
         0 w
       = (inr (successes
                 (outcomes to_datetime_strftime no_adj_dir hfq_dir qfq_dir output_dir codes w)),
          w')) /\
  (forall w,
     let codes := discovered_codes no_adj_dir w in
     let w0 := {| fs := fs w; stdout := stdout w ++ [found_line (length codes)] |} in
     In (summary
           (successes
              (outcomes to_datetime_strftime no_adj_dir hfq_dir qfq_dir output_dir codes w0))
           (length codes))
        (stdout (snd (run to_datetime_strftime no_adj_dir hfq_dir qfq_dir output_dir w)))).
Proof.
  split; [|split; [|split]].
  - intros stock_code w. apply normalizer_total.
  - intros stock_code w e w1 H. rewrite normalizer_run, H.
    split; [reflexivity|]. split; [reflexivity|].
    apply try_block_raises in H. tauto.
  - intros codes w. apply (loop_counts to_datetime_strftime _ _ _ _ codes 0 w).
  - intros w. apply run_prints_summary.
Qed.

(** The example of the specification: three instruments, the
    backward-adjusted file of one of them missing. *)
Lemma normalizer_catches_and_batch_counts_witness :
  process_stock_data_try Ex.iso_dates "000001" "daily" "daily_hfq" "daily_qfq" "out" Ex.w_batch
  = (inl (FileNotFoundError "daily_hfq/000001_daily_hfq.csv"), Ex.w_batch) /\
  process_stock_data Ex.iso_dates "000001" "daily" "daily_hfq" "daily_qfq" "out" Ex.w_batch
  = (inr false,
     {| fs := fs Ex.w_batch;
        stdout := stdout Ex.w_batch
                  ++ [diagnostic "000001"
                        (FileNotFoundError "daily_hfq/000001_daily_hfq.csv")] |}) /\
  discovered_codes "daily" Ex.w_batch = ["600001"; "000001"; "000002"] /\
  In "处理完成! 成功处理 2/3 只股票的数据"
     (stdout (snd (run Ex.iso_dates "daily" "daily_hfq" "daily_qfq" "out" Ex.w_batch))).
Proof.
  assert (process_stock_data_try Ex.iso_dates "000001" "daily" "daily_hfq" "daily_qfq" "out"
            Ex.w_batch
          = (inl (FileNotFoundError "daily_hfq/000001_daily_hfq.csv"), Ex.w_batch)) as T
    by (vm_compute; reflexivity).
  refine (conj T (conj _ (conj _ _))).
  - exact (proj1 (proj1 (proj2 (normalizer_catches_and_batch_counts Ex.iso_dates
                                  "daily" "daily_hfq" "daily_qfq" "out")) _ _ _ _ T)).
  - vm_compute. reflexivity.
  - exact (proj2 (proj2 (proj2 (normalizer_catches_and_batch_counts Ex.iso_dates
                                  "daily" "daily_hfq" "daily_qfq" "out"))) Ex.w_batch).
Defined.

(** C6, as amended.  A failure while writing the output file does not
    leave the normalizer: the write is inside the [try] block, so the
    normalizer prints the diagnostic for the instrument and returns
    [False]. *)
Theorem write_failure_is_caught
  (to_datetime_strftime : column -> string + list (option string))
  (stock_code no_adj_dir hfq_dir qfq_dir output_dir : string)
  (w : world) (na hf qf out : DataFrame) :
  file_at w (no_adj_dir, (stock_code ++ "_daily.csv")%string) = Some (Csv na) ->
  file_at w (hfq_dir, (stock_code ++ "_daily_hfq.csv")%string) = Some (Csv hf) ->
  file_at w (qfq_dir, (stock_code ++ "_daily_qfq.csv")%string) = Some (Csv qf) ->
  qlib_frame to_datetime_strftime (exchange_of stock_code) stock_code na hf qf = inr out ->
  mem output_dir (readonly (fs w)) = true ->
  process_stock_data_try to_datetime_strftime stock_code no_adj_dir hfq_dir qfq_dir
    output_dir w
  = (inl (PermissionError (path_str (output_dir, output_name stock_code))),
     after_makedirs output_dir w) /\
  process_stock_data to_datetime_strftime stock_code no_adj_dir hfq_dir qfq_dir output_dir w
  = (inr false,
     {| fs := fs (after_makedirs output_dir w);
        stdout := stdout w
                  ++ [diagnostic stock_code
                        (PermissionError (path_str (output_dir, output_name stock_code)))] |}).
Proof.
  intros H1 H2 H3 HF HR.
  pose proof (try_block_write_refused to_datetime_strftime _ _ _ _ _ _ H1 H2 H3 HF HR) as T.
  split; [exact T|].
  rewrite normalizer_run, T. f_equal. f_equal. f_equal.
  unfold after_makedirs, makedirs. destruct (isdir (fs w) output_dir); reflexivity.
Qed.

Lemma write_failure_is_caught_witness :
  mem "out" (readonly (fs Ex.w_ro)) = true /\
  process_stock_data Ex.iso_dates "600001" "daily" "daily_hfq" "daily_qfq" "out" Ex.w_ro
  = (inr false,
     {| fs := fs (after_makedirs "out" Ex.w_ro);
        stdout := stdout Ex.w_ro
                  ++ [diagnostic "600001" (PermissionError "out/SH600001.csv")] |}).
Proof.
  assert (mem "out" (readonly (fs Ex.w_ro)) = true) as HR by reflexivity.
  refine (conj HR _).
  refine (proj2 (@write_failure_is_caught Ex.iso_dates "600001" "daily" "daily_hfq"
                   "daily_qfq" "out" Ex.w_ro Ex.na Ex.hf Ex.qf (Ex.emitted Ex.w1)
                   eq_refl eq_refl eq_refl _ HR)).
  vm_compute. reflexivity.
Defined.

(** C6 as stated fails: with an output directory that refuses writes, the
    write raises inside the normalizer, and the normalizer returns [False]
    with a diagnostic instead of raising. *)
Lemma write_failure_counterexample :
  process_stock_data_try Ex.iso_dates "600001" "daily" "daily_hfq" "daily_qfq" "out" Ex.w_ro
  = (inl (PermissionError "out/SH600001.csv"), Ex.w_ro) /\
  process_stock_data Ex.iso_dates "600001" "daily" "daily_hfq" "daily_qfq" "out" Ex.w_ro
  = (inr false,
     {| fs := fs Ex.w_ro;
        stdout := ["处理股票 600001 时出错: out/SH600001.csv"] |}) /\
  forall e w',
    process_stock_data Ex.iso_dates "600001" "daily" "daily_hfq" "daily_qfq" "out" Ex.w_ro
    <> (inl e, w').
Proof.
  split; [vm_compute; reflexivity|]. split; [vm_compute; reflexivity|].
  intros e w'. vm_compute. discriminate.
Qed.

(** ** The manifest *)

Lemma substring_prefix (s t : string) : substring 0 (String.length s) (s ++ t) = s.
Proof.
  induction s as [|a s IH]; simpl.
  - destruct t; reflexivity.
  - rewrite IH. reflexivity.
Qed.

Lemma endswith_append (p s : string) :
  Str.endswith p s = true -> exists pre, s = (pre ++ p)%string.
Proof.
  induction s as [|a s IH]; simpl.
  - rewrite orb_false_r. intros H. apply String.eqb_eq in H. subst. exists EmptyString.
    reflexivity.
  - intros H. apply orb_prop in H. destruct H as [H|H].
    + apply String.eqb_eq in H. subst. exists EmptyString. reflexivity.
    + destruct (IH H) as [pre ->]. exists (String a pre). reflexivity.
Qed.

Lemma string_length_append (s t : string) :
  String.length (s ++ t) = String.length s + String.length t.
Proof. induction s as [|a s IH]; simpl; [reflexivity|]. rewrite IH. reflexivity. Qed.

Lemma strip_csv_append (pre : string) : strip_csv (pre ++ ".csv") = pre.
Proof.
  unfold strip_csv. rewrite string_length_append. simpl.
  replace (String.length pre + 4 - 4) with (String.length pre) by lia.
  apply substring_prefix.
Qed.

Lemma split_head_append (c : ascii) (pre rest : string) :
  Str.contains c pre = false -> Str.split_head c (pre ++ String c rest) = pre.
Proof.
  induction pre as [|a pre IH]; simpl.
  - rewrite Ascii.eqb_refl. reflexivity.
  - intros H. apply orb_false_elim in H. destruct H as [H1 H2].
    rewrite H1, (IH H2). reflexivity.
Qed.

(** C7, as amended.  In a directory that exists and accepts writes,
    manifest generation succeeds and leaves in [instruments.txt], whatever
    it held before, one line per file the [*.csv] glob returns (the names
    that end in [.csv] and do not start with a dot), in listing order;
    each line is the text of the name before its first dot, which is the
    name without its extension whenever the name has no other dot.  No
    other file is touched. *)
Theorem manifest_lists_csv_files (data_dir : string) (w : world) :
  mem data_dir (readonly (fs w)) = false ->
  isdir (fs w) data_dir = true ->
  exists w',
    generate_instruments_file data_dir w = (inr tt, w') /\
    file_at w' (data_dir, instruments_name)
    = Some (Text (map (Str.split_head ".") (visible_csv_names (fs w) data_dir))) /\
    (forall n, In n (visible_csv_names (fs w) data_dir) ->
               Str.contains "." (strip_csv n) = false ->
               Str.split_head "." n = strip_csv n) /\
    (forall p, p <> (data_dir, instruments_name) -> file_at w' p = file_at w p).
Proof.
  intros HR HD.
  unfold generate_instruments_file, bind, glob, write_file, print, os_path_join. simpl.
  rewrite HR, HD. simpl. eexists. split; [reflexivity|].
  unfold file_at. simpl. split; [|split].
  - rewrite find_file_store_same. f_equal. f_equal.
    unfold glob_star, visible_csv_names. rewrite map_map. reflexivity.
  - intros n Hn Hc. unfold visible_csv_names in Hn. apply filter_In in Hn.
    destruct Hn as [_ Hn]. apply andb_prop in Hn. destruct Hn as [_ Hn].
    apply endswith_append in Hn. destruct Hn as [pre ->].
    rewrite strip_csv_append in *. apply (split_head_append "." pre "csv" Hc).
  - intros p Hp. apply find_file_store_other. intros E. apply Hp. symmetry. exact E.
Qed.

(** The example of the specification: two produced files and an old
    manifest of three lines. *)
Lemma manifest_lists_csv_files_witness :
  mem "out" (readonly (fs Ex.w_out)) = false /\
  isdir (fs Ex.w_out) "out" = true /\
  file_at Ex.w_out ("out", instruments_name) = Some (Text ["OLD1"; "OLD2"; "OLD3"]) /\
  exists w',
    generate_instruments_file "out" Ex.w_out = (inr tt, w') /\
    file_at w' ("out", instruments_name) = Some (Text ["SH600001"; "SZ000001"]).
Proof.
  assert (mem "out" (readonly (fs Ex.w_out)) = false) as HR by reflexivity.
  assert (isdir (fs Ex.w_out) "out" = true) as HD by reflexivity.
  refine (conj HR (conj HD (conj eq_refl _))).
  destruct (manifest_lists_csv_files "out" Ex.w_out HR HD) as [w' [H1 [H2 _]]].
  exists w'. split; [exact H1|exact H2].
Defined.

(** C7 as stated fails: a file name with two dots is listed by the text
    before its first dot, not by its name without the extension. *)
Lemma manifest_counterexample :
  generate_instruments_file "out" Ex.w_dots
  = (inr tt, snd (generate_instruments_file "out" Ex.w_dots)) /\
  listdir (fs Ex.w_dots) "out" = ["SH600001.csv"; "SZ000001.bak.csv"] /\
  file_at (snd (generate_instruments_file "out" Ex.w_dots)) ("out", instruments_name)
  = Some (Text ["SH600001"; "SZ000001"]) /\
  map strip_csv (listdir (fs Ex.w_dots) "out") = ["SH600001"; "SZ000001.bak"] /\
  file_at (snd (generate_instruments_file "out" Ex.w_dots)) ("out", instruments_name)
  <> Some (Text (map strip_csv (listdir (fs Ex.w_dots) "out"))).
Proof.
  repeat split; try (vm_compute; reflexivity). vm_compute. discriminate.
Qed.

(** * Further properties of the script *)

(** ** Failed runs *)

Section FailedRuns.

Variable to_datetime_strftime : column -> string + list (option string).

Variables stock_code no_adj_dir hfq_dir qfq_dir output_dir : string.

Local Abbreviation try_block :=
  (process_stock_data_try to_datetime_strftime stock_code no_adj_dir hfq_dir qfq_dir output_dir).
Local Abbreviation normalizer :=
  (process_stock_data to_datetime_strftime stock_code no_adj_dir hfq_dir qfq_dir output_dir).
Local Abbreviation na_path := (no_adj_dir, (stock_code ++ "_daily.csv")%string).
Local Abbreviation hf_path := (hfq_dir, (stock_code ++ "_daily_hfq.csv")%string).
Local Abbreviation qf_path := (qfq_dir, (stock_code ++ "_daily_qfq.csv")%string).

(** Where the [try] block can stop: before [os.makedirs], with the world
    untouched, or at the write, refused, with at most the output directory
    created. *)
Lemma try_block_raises_world (w w' : world) (e : exn) :
  try_block w = (inl e, w') ->
  w' = w \/
  (mem output_dir (readonly (fs w)) = true /\ w' = after_makedirs output_dir w).
Proof.
  unfold process_stock_data_try, bind, read_csv, lift, to_csv, write_file, ret,
    os_path_join, after_makedirs.
  destruct (find_file na_path (files (fs w))) as [[na|]|];
    try solve [intros H; inversion H; subst; auto].
  destruct (find_file hf_path (files (fs w))) as [[hf|]|];
    try solve [intros H; inversion H; subst; auto].
  destruct (find_file qf_path (files (fs w))) as [[qf|]|];
    try solve [intros H; inversion H; subst; auto].
  destruct (qlib_frame to_datetime_strftime (exchange_of stock_code) stock_code na hf qf)
    as [e'|out]; [intros H; inversion H; subst; auto|].
  unfold makedirs. destruct (isdir (fs w) output_dir) eqn:D; simpl.
  - destruct (mem output_dir (readonly (fs w))) eqn:R.
    + intros H. inversion H; subst. auto.
    + rewrite D. simpl. discriminate.
  - destruct (mem output_dir (readonly (fs w))) eqn:R.
    + intros H. inversion H; subst. auto.
    + unfold isdir, mem. simpl. rewrite existsb_app. simpl.
      rewrite String.eqb_refl, orb_true_r. simpl. discriminate.
Qed.

End FailedRuns.

(** The [try] block is the reading and transforming of the tables
    followed by the writing of the result. *)
Lemma try_block_after_transform
  (to_datetime_strftime : column -> string + list (option string))
  (stock_code no_adj_dir hfq_dir qfq_dir output_dir : string) (w : world) :
  process_stock_data_try to_datetime_strftime stock_code no_adj_dir hfq_dir qfq_dir
    output_dir w
  = match load_and_transform to_datetime_strftime stock_code no_adj_dir hfq_dir qfq_dir w with
    | (inl e, w') => (inl e, w')
    | (inr qlib_df, w') =>
        bind (makedirs output_dir)
             (fun _ => bind (to_csv qlib_df (os_path_join output_dir
                                               (exchange_of stock_code ++ stock_code
                                                ++ ".csv")%string))
                            (fun _ => ret true)) w'
    end.
Proof.
  unfold process_stock_data_try, load_and_transform, bind, read_csv, lift.
  destruct (find_file _ (files (fs w))) as [[na|]|]; try reflexivity.
  destruct (find_file _ (files (fs w))) as [[hf|]|]; try reflexivity.
  destruct (find_file _ (files (fs w))) as [[qf|]|]; reflexivity.
Qed.

(** Reading and transforming change nothing in the world. *)
Lemma load_and_transform_world
  (to_datetime_strftime : column -> string + list (option string))
  (stock_code no_adj_dir hfq_dir qfq_dir : string) (w : world) :
  snd (load_and_transform to_datetime_strftime stock_code no_adj_dir hfq_dir qfq_dir w) = w.
Proof.
  unfold load_and_transform, bind, read_csv, lift.
  destruct (find_file _ (files (fs w))) as [[na|]|]; try reflexivity.
  destruct (find_file _ (files (fs w))) as [[hf|]|]; try reflexivity.
  destruct (find_file _ (files (fs w))) as [[qf|]|]; reflexivity.
Qed.

(** X1.  When something goes wrong before the write, that is, when the
    reading of the three files or the transformation of their tables
    (lines 26 to 98) raises, the exception is an [Exception], the
    normalizer returns [False] and prints the diagnostic of that
    exception, and nothing else has happened: no file is written and the
    output directory is not even created. *)
Theorem failure_before_the_write_leaves_no_trace
  (to_datetime_strftime : column -> string + list (option string))
  (stock_code no_adj_dir hfq_dir qfq_dir output_dir : string) (w : world) (e : exn) :
  fst (load_and_transform to_datetime_strftime stock_code no_adj_dir hfq_dir qfq_dir w)
  = inl e ->
  is_Exception e = true /\
  process_stock_data to_datetime_strftime stock_code no_adj_dir hfq_dir qfq_dir output_dir w
  = (inr false, say w (diagnostic stock_code e)).
Proof.
  intros H.
  pose proof (load_and_transform_world to_datetime_strftime stock_code no_adj_dir hfq_dir
                qfq_dir w) as HW.
  pose proof (try_block_after_transform to_datetime_strftime stock_code no_adj_dir hfq_dir
                qfq_dir output_dir w) as T.
  destruct (load_and_transform to_datetime_strftime stock_code no_adj_dir hfq_dir qfq_dir w)
    as [r w1].
  simpl in H, HW. subst r w1.
  destruct (try_block_raises _ _ _ _ _ _ _ T) as (E1 & _).
  split; [exact E1|]. rewrite normalizer_run, T. reflexivity.
Qed.

Lemma failure_before_the_write_leaves_no_trace_witness :
  fst (load_and_transform Ex.iso_dates "000001" "daily" "daily_hfq" "daily_qfq" Ex.w_batch)
  = inl (FileNotFoundError "daily_hfq/000001_daily_hfq.csv") /\
  process_stock_data Ex.iso_dates "000001" "daily" "daily_hfq" "daily_qfq" "out" Ex.w_batch
  = (inr false,
     say Ex.w_batch
       (diagnostic "000001" (FileNotFoundError "daily_hfq/000001_daily_hfq.csv"))).
Proof.
  assert (fst (load_and_transform Ex.iso_dates "000001" "daily" "daily_hfq" "daily_qfq"
                 Ex.w_batch)
          = inl (FileNotFoundError "daily_hfq/000001_daily_hfq.csv")) as H
    by (vm_compute; reflexivity).
  exact (conj H (proj2 (@failure_before_the_write_leaves_no_trace Ex.iso_dates "000001"
                          "daily" "daily_hfq" "daily_qfq" "out" Ex.w_batch _ H))).
Defined.

(** X2.  The first of the three input files that is missing (the
    unadjusted, then the backward-adjusted, then the forward-adjusted one)
    is reported by its path in the diagnostic; the normalizer returns
    [False] and the file system is untouched, the output directory not
    even created. *)
Theorem missing_file_is_reported
  (to_datetime_strftime : column -> string + list (option string))
  (stock_code no_adj_dir hfq_dir qfq_dir output_dir : string) (w : world) :
  let normalizer_result :=
    process_stock_data to_datetime_strftime stock_code no_adj_dir hfq_dir qfq_dir
      output_dir w in
  let na_path := (no_adj_dir, (stock_code ++ "_daily.csv")%string) in
  let hf_path := (hfq_dir, (stock_code ++ "_daily_hfq.csv")%string) in
  let qf_path := (qfq_dir, (stock_code ++ "_daily_qfq.csv")%string) in
  let missing p := (inr false, say w (diagnostic stock_code (FileNotFoundError (path_str p)))) in
  (file_at w na_path = None -> normalizer_result = missing na_path) /\
  (forall na, file_at w na_path = Some (Csv na) -> file_at w hf_path = None ->
              normalizer_result = missing hf_path) /\
  (forall na hf, file_at w na_path = Some (Csv na) -> file_at w hf_path = Some (Csv hf) ->
                 file_at w qf_path = None -> normalizer_result = missing qf_path).
Proof.
  cbv zeta. unfold file_at.
  repeat split; intros; rewrite normalizer_run;
    unfold process_stock_data_try, bind, read_csv, os_path_join;
    repeat match goal with H : find_file _ _ = _ |- _ => rewrite H; clear H end;
    reflexivity.
Qed.

Lemma missing_file_is_reported_witness :
  file_at Ex.w_batch ("daily", "000001_daily.csv") = Some (Csv Ex.na) /\
  file_at Ex.w_batch ("daily_hfq", "000001_daily_hfq.csv") = None /\
  process_stock_data Ex.iso_dates "000001" "daily" "daily_hfq" "daily_qfq" "out" Ex.w_batch
  = (inr false,
     say Ex.w_batch
       (diagnostic "000001" (FileNotFoundError "daily_hfq/000001_daily_hfq.csv"))).
Proof.
  refine (conj eq_refl (conj eq_refl _)).
  exact (proj1 (proj2 (missing_file_is_reported Ex.iso_dates "000001" "daily" "daily_hfq"
                         "daily_qfq" "out" Ex.w_batch)) Ex.na eq_refl eq_refl).
Defined.

(** ** Missing columns and malformed dates *)

Section TransformFailures.

Variable to_datetime_strftime : column -> string + list (option string).

Local Abbreviation normalize := (normalize_date to_datetime_strftime).

Lemma normalize_needs_dates (df df' : DataFrame) :
  normalize df = inr df' -> has_column df Col.date_ = true.
Proof.
  unfold normalize_date, has_column. destruct (getitem df Col.date_); [discriminate|].
  reflexivity.
Qed.

Lemma has_column_of (df : DataFrame) (n : string) (c : column) :
  getitem df n = inr c -> has_column df n = true.
Proof. unfold has_column. intros ->. reflexivity. Qed.

(** A table is built only from tables that have every column the script
    reads, the forward-adjusted prices included. *)
Lemma qlib_frame_requires (ex code : string) (na hf qf out : DataFrame) :
  qlib_frame to_datetime_strftime ex code na hf qf = inr out ->
  required_columns na hf qf = true.
Proof.
  intros H. pose proof (qlib_frame_inv _ _ _ _ _ _ H) as I.
  destruct I as (L & A & CN & HO & HC & HH & HL & Q & G & F &
                 E1 & E2 & E3 & E4 & E5 & E6 & E7 & _).
  unfold qlib_frame, rbind in H.
  destruct (normalize na) as [|na'] eqn:Ena; [discriminate|].
  destruct (normalize hf) as [|hf'] eqn:Ehf; [discriminate|].
  destruct (normalize qf) as [|qf'] eqn:Eqf; [discriminate|].
  pose proof (normalize_needs_dates _ Ena) as Dna.
  pose proof (normalize_needs_dates _ Ehf) as Dhf.
  pose proof (normalize_needs_dates _ Eqf) as Dqf.
  apply normalize_date_inv in Ena. destruct Ena as (_ & _ & _ & Ona).
  apply normalize_date_inv in Eqf. destruct Eqf as (_ & _ & _ & Oqf).
  destruct (select na' _) as [|m0] eqn:Em0; [discriminate|].
  apply select4_inv in Em0. destruct Em0 as (K0 & Cc & L' & A' & _ & G2 & _ & _ & ->).
  destruct (select hf' price_columns) as [|hsel]; [discriminate|].
  destruct (merge_left _ hsel _ _) as [|m1]; [discriminate|].
  destruct (select qf' price_columns) as [|qsel] eqn:Eq; [discriminate|].
  apply select5_inv in Eq.
  destruct Eq as (KQ & QO & QC & QH & QL & _ & J2 & J3 & J4 & J5 & _).
  rewrite Ona in G2 by discriminate. rewrite Oqf in J2, J3, J4, J5 by discriminate.
  unfold required_columns. simpl.
  rewrite Dna, Dhf, Dqf.
  rewrite (has_column_of _ _ G2), (has_column_of _ _ E1), (has_column_of _ _ E2),
    (has_column_of _ _ E3), (has_column_of _ _ E4), (has_column_of _ _ E5),
    (has_column_of _ _ E6), (has_column_of _ _ E7), (has_column_of _ _ J2),
    (has_column_of _ _ J3), (has_column_of _ _ J4), (has_column_of _ _ J5).
  reflexivity.
Qed.

Variables stock_code no_adj_dir hfq_dir qfq_dir output_dir : string.

(** A failure of the transformation is reported before anything is
    written. *)
Lemma transform_failure_run (w : world) (na hf qf : DataFrame) (e : exn) :
  file_at w (no_adj_dir, (stock_code ++ "_daily.csv")%string) = Some (Csv na) ->
  file_at w (hfq_dir, (stock_code ++ "_daily_hfq.csv")%string) = Some (Csv hf) ->
  file_at w (qfq_dir, (stock_code ++ "_daily_qfq.csv")%string) = Some (Csv qf) ->
  qlib_frame to_datetime_strftime (exchange_of stock_code) stock_code na hf qf = inl e ->
  process_stock_data to_datetime_strftime stock_code no_adj_dir hfq_dir qfq_dir output_dir w
  = (inr false, say w (diagnostic stock_code e)).
Proof.
  unfold file_at. intros H1 H2 H3 HF. rewrite normalizer_run.
  unfold process_stock_data_try, bind, read_csv, lift, os_path_join.
  rewrite H1, H2, H3, HF. reflexivity.
Qed.

End TransformFailures.

(** X3.  When one of the columns the script reads by name is absent from
    one of the three tables (date, code, volume, amount and close of the
    unadjusted table; date, open, close, high and low of both adjusted
    tables, although the forward-adjusted prices are never emitted), the
    normalizer returns [False] with one diagnostic and leaves the file
    system untouched. *)
Theorem missing_column_fails
  (to_datetime_strftime : column -> string + list (option string))
  (stock_code no_adj_dir hfq_dir qfq_dir output_dir : string)
  (w : world) (na hf qf : DataFrame) :
  file_at w (no_adj_dir, (stock_code ++ "_daily.csv")%string) = Some (Csv na) ->
  file_at w (hfq_dir, (stock_code ++ "_daily_hfq.csv")%string) = Some (Csv hf) ->
  file_at w (qfq_dir, (stock_code ++ "_daily_qfq.csv")%string) = Some (Csv qf) ->
  required_columns na hf qf = false ->
  exists e,
    is_Exception e = true /\
    process_stock_data to_datetime_strftime stock_code no_adj_dir hfq_dir qfq_dir output_dir w
    = (inr false, say w (diagnostic stock_code e)).
Proof.
  intros H1 H2 H3 HR.
  destruct (qlib_frame to_datetime_strftime (exchange_of stock_code) stock_code na hf qf)
    as [e|out] eqn:HF.
  - exists e. split; [exact (safe_qlib_frame _ _ _ _ _ _ HF)|].
    apply (transform_failure_run _ _ _ _ _ _ _ H1 H2 H3 HF).
  - apply qlib_frame_requires in HF. congruence.
Qed.

Lemma missing_column_fails_witness :
  required_columns Ex.na Ex.hf Ex2.qf_no_open = false /\
  exists e,
    is_Exception e = true /\
    process_stock_data Ex.iso_dates "600001" "daily" "daily_hfq" "daily_qfq" "out"
      Ex2.w_no_open
    = (inr false, say Ex2.w_no_open (diagnostic "600001" e)).
Proof.
  assert (required_columns Ex.na Ex.hf Ex2.qf_no_open = false) as HR
    by (vm_compute; reflexivity).
  exact (conj HR (@missing_column_fails Ex.iso_dates "600001" "daily" "daily_hfq"
                    "daily_qfq" "out" Ex2.w_no_open Ex.na Ex.hf Ex2.qf_no_open
                    eq_refl eq_refl eq_refl HR)).
Defined.

(** X4.  When the dates of the unadjusted table cannot be parsed, the
    normalizer returns [False], the line it prints ends with the message
    of the parser's exception, and nothing else changes. *)
Theorem malformed_date_is_reported
  (to_datetime_strftime : column -> string + list (option string))
  (stock_code no_adj_dir hfq_dir qfq_dir output_dir : string)
  (w : world) (na hf qf : DataFrame) (dates : column) (msg : string) :
  file_at w (no_adj_dir, (stock_code ++ "_daily.csv")%string) = Some (Csv na) ->
  file_at w (hfq_dir, (stock_code ++ "_daily_hfq.csv")%string) = Some (Csv hf) ->
  file_at w (qfq_dir, (stock_code ++ "_daily_qfq.csv")%string) = Some (Csv qf) ->
  getitem na Col.date_ = inr dates ->
  to_datetime_strftime dates = inl msg ->
  process_stock_data to_datetime_strftime stock_code no_adj_dir hfq_dir qfq_dir output_dir w
  = (inr false, say w ("处理股票 " ++ stock_code ++ " 时出错: " ++ msg)%string).
Proof.
  intros H1 H2 H3 HD HP.
  change ("处理股票 " ++ stock_code ++ " 时出错: " ++ msg)%string
    with (diagnostic stock_code (ValueError msg)).
  apply (transform_failure_run _ _ _ _ _ _ _ H1 H2 H3).
  unfold qlib_frame, rbind, normalize_date. rewrite HD, HP. reflexivity.
Qed.

(** At the witness the first date of the unadjusted table names a
    thirteenth month. *)
Lemma malformed_date_is_reported_witness :
  getitem Ex2.na_undated Col.date_ = inr (Ex.strs ["2024-13-45"; "2024-01-03"]) /\
  Ex.iso_dates (Ex.strs ["2024-13-45"; "2024-01-03"])
  = inl "time data does not match format" /\
  process_stock_data Ex.iso_dates "600001" "daily" "daily_hfq" "daily_qfq" "out"
    Ex2.w_undated
  = (inr false,
     say Ex2.w_undated "处理股票 600001 时出错: time data does not match format").
Proof.
  assert (getitem Ex2.na_undated Col.date_ = inr (Ex.strs ["2024-13-45"; "2024-01-03"]))
    as HD by (vm_compute; reflexivity).
  assert (Ex.iso_dates (Ex.strs ["2024-13-45"; "2024-01-03"])
          = inl "time data does not match format") as HP by (vm_compute; reflexivity).
  refine (conj HD (conj HP _)).
  exact (@malformed_date_is_reported Ex.iso_dates "600001" "daily" "daily_hfq" "daily_qfq"
           "out" Ex2.w_undated Ex2.na_undated Ex.hf Ex.qf _ _ eq_refl eq_refl eq_refl HD HP).
Defined.

(** ** Rows of the unadjusted table in the output *)

Lemma join_row_first (rk : list scalar) (i : nat) (k : scalar) :
  fst (nth 0 (join_row rk i k) (0, None)) = i.
Proof.
  unfold join_row. destruct (matches k rk) as [|j js]; reflexivity.
Qed.

(** Every left row has a row in the join. *)
Lemma join_from_cover (lk rk : list scalar) (s j : nat) :
  s <= j -> j < s + length lk ->
  exists p, p < length (join_from s lk rk) /\ fst (nth p (join_from s lk rk) (0, None)) = j.
Proof.
  revert s. induction lk as [|k lk IH]; intros s H1 H2; simpl in *; [lia|].
  pose proof (join_row_length rk s k) as HL.
  destruct (Nat.eq_dec j s) as [->|Hne].
  - exists 0. rewrite length_app. split; [lia|].
    rewrite app_nth1 by lia. apply join_row_first.
  - destruct (IH (S s)) as [p [Hp Hj]]; [lia|lia|].
    exists (length (join_row rk s k) + p). rewrite length_app. split; [lia|].
    rewrite app_nth2 by lia.
    replace (length (join_row rk s k) + p - length (join_row rk s k)) with p by lia.
    exact Hj.
Qed.

(** The rows of the join follow the order of the left table. *)
Lemma join_from_sorted (lk rk : list scalar) (s p1 p2 : nat) :
  p1 <= p2 -> p2 < length (join_from s lk rk) ->
  fst (nth p1 (join_from s lk rk) (0, None)) <= fst (nth p2 (join_from s lk rk) (0, None)).
Proof.
  revert s p1 p2. induction lk as [|k lk IH]; intros s p1 p2 H1 H2; simpl in *; [lia|].
  rewrite length_app in H2.
  assert (forall p, p < length (join_row rk s k) ->
                    fst (nth p (join_row rk s k) (0, None)) = s) as HR.
  { intros p Hp. apply (join_row_spec rk s k). apply nth_In. exact Hp. }
  assert (forall p, p < length (join_from (S s) lk rk) ->
                    S s <= fst (nth p (join_from (S s) lk rk) (0, None))) as HT.
  { intros p Hp. apply (join_from_ok lk rk (S s)). apply nth_In. exact Hp. }
  destruct (Nat.lt_ge_cases p2 (length (join_row rk s k))) as [L2|L2].
  - rewrite !app_nth1 by lia. rewrite !HR by lia. lia.
  - rewrite (app_nth2 _ _ _ L2).
    destruct (Nat.lt_ge_cases p1 (length (join_row rk s k))) as [L1|L1].
    + rewrite app_nth1 by lia. rewrite HR by lia.
      specialize (HT (p2 - length (join_row rk s k))). lia.
    + rewrite (app_nth2 _ _ _ L1). apply IH; lia.
Qed.

Lemma col_get_take_out (idx : list (option nat)) (c : column) (i j : nat) :
  nth_error idx i = Some (Some j) -> col_len c <= j ->
  col_get (col_take idx c) i = NaN.
Proof.
  intros Hi Hj. destruct c as [l|l|l]; simpl in *.
  - destruct (forallb (in_bounds (length l)) idx) eqn:E; simpl.
    + pose proof (forallb_nth_error _ _ _ E Hi) as F. simpl in F.
      apply Nat.ltb_lt in F. lia.
    + unfold NaN. f_equal.
      erewrite nth_indep by (rewrite length_map; apply nth_error_Some; congruence).
      rewrite (map_nth (fun o => match o with
                                 | Some j0 => match nth_error l j0 with
                                              | Some z => F64.of_Z z
                                              | None => F64.nan
                                              end
                                 | None => F64.nan
                                 end) idx None).
      rewrite (nth_error_nth idx _ _ Hi).
      rewrite (proj2 (nth_error_None l j) Hj). reflexivity.
  - unfold NaN. f_equal.
    erewrite nth_indep by (rewrite length_map; apply nth_error_Some; congruence).
    rewrite (map_nth (fun o => match o with Some j0 => nth j0 l F64.nan | None => F64.nan end)
               idx None).
    rewrite (nth_error_nth idx _ _ Hi). apply nth_overflow. exact Hj.
  - erewrite nth_indep by (rewrite length_map; apply nth_error_Some; congruence).
    rewrite (map_nth (fun o => match o with Some j0 => nth j0 l NaN | None => NaN end)
               idx None).
    rewrite (nth_error_nth idx _ _ Hi). apply nth_overflow. exact Hj.
Qed.

Lemma nth_error_seq_some (n i : nat) :
  i < n -> nth_error (map Some (seq 0 n)) i = Some (Some i).
Proof.
  intros H. rewrite nth_error_map, nth_error_seq.
  destruct (Nat.ltb_spec i n); [reflexivity|lia].
Qed.

(** Aligning a series on a longer or shorter index keeps the cells it has
    and gives missing values beyond. *)
Lemma reindex_cell (n : nat) (c : column) (i : nat) :
  i < n ->
  (i < col_len c -> carries (col_get c i) (col_get (reindex n c) i)) /\
  (col_len c <= i -> col_get (reindex n c) i = NaN).
Proof.
  intros Hi. unfold reindex. split; intros Hc.
  - apply col_get_take_some; [apply nth_error_seq_some; exact Hi|exact Hc].
  - eapply col_get_take_out; [apply nth_error_seq_some; exact Hi|exact Hc].
Qed.

Section RowsKept.

Variable to_datetime_strftime : column -> string + list (option string).

Local Abbreviation keys := (date_keys to_datetime_strftime).
Local Abbreviation rows_of := (qfq_join to_datetime_strftime).
Local Abbreviation source := (source_row to_datetime_strftime).

Variables na hf qf : DataFrame.

Lemma source_cover (j : nat) :
  j < length (keys na) ->
  exists i, i < length (rows_of na hf qf) /\ source na hf qf i = j.
Proof.
  intros Hj.
  destruct (@join_from_cover (keys na) (keys hf) 0 j) as [p [Hp Ep]]; [lia|simpl; exact Hj|].
  fold (join_indexer (keys na) (keys hf)) in Hp, Ep.
  fold (hfq_join to_datetime_strftime na hf) in Hp, Ep.
  destruct (@join_from_cover (col_scalars (merged_keys to_datetime_strftime na hf))
              (keys qf) 0 p) as [i [Hi Ei]];
    [lia|rewrite merged_keys_length; exact Hp|].
  exists i. split; [exact Hi|].
  unfold source_row, merged_row, qfq_join, join_indexer. rewrite Ei. exact Ep.
Qed.

Lemma source_sorted (i1 i2 : nat) :
  i1 <= i2 -> i2 < length (rows_of na hf qf) ->
  source na hf qf i1 <= source na hf qf i2.
Proof.
  intros H1 H2. unfold source_row.
  destruct (row_origin to_datetime_strftime na hf qf H2) as (Hp & _).
  apply join_from_sorted; [|exact Hp].
  unfold merged_row. apply join_from_sorted; assumption.
Qed.

End RowsKept.

(** X5.  The left joins never drop a row of the unadjusted table: every
    one of its rows gives at least one output row, with its date and its
    amount, and the output rows follow the order of the unadjusted
    table. *)
Theorem unadjusted_rows_kept_in_order
  (to_datetime_strftime : column -> string + list (option string))
  (stock_code no_adj_dir hfq_dir qfq_dir output_dir : string)
  (w : world) (na hf qf out : DataFrame) :
  emits to_datetime_strftime stock_code no_adj_dir hfq_dir qfq_dir output_dir w na hf qf out ->
  (forall j, j < nrows na ->
     exists i, i < nrows out /\
               cell out "date" i = nth j (date_keys to_datetime_strftime na) NaN /\
               cell out "amount" i = cell na Col.turnover_ j) /\
  (forall i1 i2, i1 <= i2 -> i2 < nrows out ->
     source_row to_datetime_strftime na hf qf i1
     <= source_row to_datetime_strftime na hf qf i2).
Proof.
  intros He. apply emitted_table in He.
  destruct He as (L & A & CN & HO & HC & HH & HL & H).
  destruct H as (_ & EA & _ & _ & _ & _ & _ & K1 & _ & _ & HN & _ & HD & _ & _ & _ & _ & _
                 & HA & _).
  pose proof (getitem_len _ _ EA) as LA. rewrite <- K1 in LA.
  rewrite HN. split.
  - intros j Hj. rewrite <- K1 in Hj.
    destruct (source_cover to_datetime_strftime na hf qf Hj) as [i [Hi Ei]].
    exists i. split; [exact Hi|]. split.
    + rewrite HD, (from_left_cell to_datetime_strftime na hf qf (Object _)) by auto.
      rewrite Ei. reflexivity.
    + rewrite HA, (from_left_cell to_datetime_strftime na hf qf A LA Hi), Ei.
      unfold cell. rewrite EA. reflexivity.
  - intros i1 i2. apply source_sorted.
Qed.

Lemma unadjusted_rows_kept_in_order_witness :
  emits Ex.iso_dates "600001" "daily" "daily_hfq" "daily_qfq" "out" Ex.w_dup
        Ex.na Ex.hf_dup Ex.qf (Ex.emitted Ex.w_dup) /\
  1 < nrows Ex.na /\
  exists i, i < nrows (Ex.emitted Ex.w_dup) /\
            cell (Ex.emitted Ex.w_dup) "date" i = nth 1 (date_keys Ex.iso_dates Ex.na) NaN /\
            cell (Ex.emitted Ex.w_dup) "amount" i = cell Ex.na Col.turnover_ 1.
Proof.
  assert (1 < nrows Ex.na) as H1 by (vm_compute; lia).
  refine (conj emits_w_dup (conj H1 _)).
  exact (proj1 (unadjusted_rows_kept_in_order emits_w_dup) 1 H1).
Defined.

(** X6.  No table is emitted from a textual volume: whenever the
    normalizer emits a table, no cell of the volume column of the
    unadjusted table is a string ([* 100] repeats the string, and the
    division or, at the latest, the guard [x['volume'] > 0] raises on
    it). *)
Theorem textual_volume_is_never_emitted
  (to_datetime_strftime : column -> string + list (option string))
  (stock_code no_adj_dir hfq_dir qfq_dir output_dir : string)
  (w : world) (na hf qf out : DataFrame) :
  emits to_datetime_strftime stock_code no_adj_dir hfq_dir qfq_dir output_dir w na hf qf out ->
  forall j, j < nrows na -> is_str (cell na Col.lots_ j) = false.
Proof.
  intros He j Hj. apply emitted_table in He.
  destruct He as (L & A & CN & HO & HC & HH & HL & H).
  destruct H as (EL & _ & _ & _ & _ & _ & _ & K1 & _ & _ & HN & _ & _ & _ & _ & _ & _ & HV
                 & _ & HG & _).
  pose proof (getitem_len _ _ EL) as LL. rewrite <- K1 in LL, Hj.
  destruct (source_cover to_datetime_strftime na hf qf Hj) as [i [Hi Ei]].
  assert (i < col_len (from_left to_datetime_strftime na hf qf L)) as Hi'
    by (unfold from_left; rewrite col_len_take, length_left_idx; exact Hi).
  pose proof (col_get_mul_int (from_left to_datetime_strftime na hf qf L) 100 Hi') as M.
  rewrite (from_left_cell to_datetime_strftime na hf qf L LL Hi), Ei, <- HV in M.
  rewrite <- HN in Hi. destruct (HG i Hi) as [b [Pb _]].
  unfold cell at 1. rewrite EL.
  destruct (col_get L j) as [z|f|s]; try reflexivity.
  rewrite M in Pb. discriminate.
Qed.

Lemma textual_volume_is_never_emitted_witness :
  emits Ex.iso_dates "600001" "daily" "daily_hfq" "daily_qfq" "out" Ex.w1
        Ex.na Ex.hf Ex.qf (Ex.emitted Ex.w1) /\
  0 < nrows Ex.na /\ is_str (cell Ex.na Col.lots_ 0) = false.
Proof.
  assert (0 < nrows Ex.na) as H0 by (vm_compute; lia).
  exact (conj emits_w1 (conj H0 (textual_volume_is_never_emitted emits_w1 H0))).
Defined.

(** X7.  On an output row whose date is on no row of the
    backward-adjusted table, close is missing and so is the factor. *)
Theorem unmatched_date_has_no_factor
  (to_datetime_strftime : column -> string + list (option string))
  (stock_code no_adj_dir hfq_dir qfq_dir output_dir : string)
  (w : world) (na hf qf out : DataFrame) :
  emits to_datetime_strftime stock_code no_adj_dir hfq_dir qfq_dir output_dir w na hf qf out ->
  forall i, i < nrows out ->
    (forall k, k < nrows hf ->
       key_eqb (cell out "date" i) (nth k (date_keys to_datetime_strftime hf) NaN) = false) ->
    cell out "close" i = NaN /\ cell out "factor" i = NaN.
Proof.
  intros He i Hi Hno. apply emitted_table in He.
  destruct He as (L & A & CN & HO & HC & HH & HL & H).
  destruct H as (_ & _ & _ & _ & EC & _ & _ & K1 & K2 & _ & HN & _ & HD & _ & _ & _ & CC & _
                 & _ & _ & HF).
  pose proof (HF i Hi) as Fi. rewrite HN in Hi.
  apply getitem_len in EC. rewrite <- K2 in EC.
  pose proof (from_hfq_cell to_datetime_strftime na hf qf HC EC Hi) as PC.
  destruct (row_origin to_datetime_strftime na hf qf Hi) as (_ & _ & _ & _ & _ & HK).
  assert (cell out "date" i
          = nth (source_row to_datetime_strftime na hf qf i)
                (date_keys to_datetime_strftime na) NaN) as ED
    by (rewrite HD; apply (from_left_cell to_datetime_strftime na hf qf (Object _)); auto).
  destruct (hfq_row to_datetime_strftime na hf qf i) as [k|].
  - destruct HK as [Hk Ek]. rewrite <- ED in Ek. rewrite K2 in Hk.
    rewrite (Hno k Hk) in Ek. discriminate.
  - assert (cell out "close" i = NaN) as EN by (rewrite CC; exact PC).
    split; [exact EN|]. rewrite Fi, EN. reflexivity.
Qed.

Lemma emitted_factor_by_position
  (to_datetime_strftime : column -> string + list (option string))
  (stock_code no_adj_dir hfq_dir qfq_dir output_dir : string)
  (w : world) (na hf qf out : DataFrame) :
  emits to_datetime_strftime stock_code no_adj_dir hfq_dir qfq_dir output_dir w na hf qf out ->
  forall i, i < nrows out ->
    (i < nrows na ->
     cell out "factor" i
     = SFloat (F64.div (as_float (cell out "close" i)) (as_float (cell na Col.close_ i)))) /\
    (nrows na <= i -> cell out "factor" i = NaN).
Proof.
  intros He i Hi. apply emitted_table in He.
  destruct He as (L & A & CN & HO & HC & HH & HL & H).
  destruct H as (_ & _ & ECN & _ & _ & _ & _ & _ & _ & _ & _ & _ & _ & _ & _ & _ & _ & _
                 & _ & _ & HF).
  rewrite (HF i Hi). pose proof (getitem_len _ _ ECN) as LC.
  destruct (reindex_cell CN Hi) as [R1 R2]. rewrite LC in R1, R2.
  assert (cell na Col.close_ i = col_get CN i) as XC
    by (unfold cell; rewrite ECN; reflexivity).
  rewrite XC. split; intros Hn.
  - rewrite (carries_as_float (R1 Hn)). reflexivity.
  - rewrite (R2 Hn). simpl. rewrite div_nan_r. reflexivity.
Qed.

(** X8.  What line 87 does: the factor of output row [i] is its close
    divided by the close of row [i] of the unadjusted table, by position,
    whatever the dates; past the last row of the unadjusted table the
    factor is missing. *)
Theorem factor_divides_by_position
  (to_datetime_strftime : column -> string + list (option string))
  (stock_code no_adj_dir hfq_dir qfq_dir output_dir : string)
  (w : world) (na hf qf out : DataFrame) :
  emits to_datetime_strftime stock_code no_adj_dir hfq_dir qfq_dir output_dir w na hf qf out ->
  forall i, i < nrows out ->
    (i < nrows na ->
     cell out "factor" i
     = SFloat (F64.div (as_float (cell out "close" i)) (as_float (cell na Col.close_ i)))) /\
    (nrows na <= i -> cell out "factor" i = NaN).
Proof.
  exact (@emitted_factor_by_position to_datetime_strftime stock_code no_adj_dir hfq_dir
           qfq_dir output_dir w na hf qf out).
Qed.

Lemma factor_divides_by_position_witness :
  emits Ex.iso_dates "600001" "daily" "daily_hfq" "daily_qfq" "out" Ex.w_dup
        Ex.na Ex.hf_dup Ex.qf (Ex.emitted Ex.w_dup) /\
  2 < nrows (Ex.emitted Ex.w_dup) /\ nrows Ex.na <= 2 /\
  cell (Ex.emitted Ex.w_dup) "factor" 2 = NaN /\
  1 < nrows Ex.na /\
  cell (Ex.emitted Ex.w_dup) "factor" 1
  = SFloat (F64.div (as_float (cell (Ex.emitted Ex.w_dup) "close" 1))
                    (as_float (cell Ex.na Col.close_ 1))).
Proof.
  assert (2 < nrows (Ex.emitted Ex.w_dup)) as H2 by (vm_compute; lia).
  assert (1 < nrows (Ex.emitted Ex.w_dup)) as H1 by (vm_compute; lia).
  assert (nrows Ex.na <= 2) as G2 by (vm_compute; lia).
  assert (1 < nrows Ex.na) as G1 by (vm_compute; lia).
  refine (conj emits_w_dup (conj H2 (conj G2 (conj _ (conj G1 _))))).
  - exact (proj2 (factor_divides_by_position emits_w_dup H2) G2).
  - exact (proj1 (factor_divides_by_position emits_w_dup H1) G1).
Defined.

Lemma div_by_zero_is_infinite (x y : F64.t) :
  is_finite_nonzero x = true -> F64.is_zero y = true -> F64.is_inf (F64.div x y) = true.
Proof. destruct x, y; simpl; try discriminate. reflexivity. Qed.

(** X9.  The factor has no guard against a zero divisor: on a row of an
    emitted table where the unadjusted close is zero and the
    backward-adjusted close a finite number other than zero, the factor is
    an infinity (where [vwap] would be missing). *)
Theorem zero_close_gives_infinite_factor
  (to_datetime_strftime : column -> string + list (option string))
  (stock_code no_adj_dir hfq_dir qfq_dir output_dir : string)
  (w : world) (na hf qf out : DataFrame) :
  emits to_datetime_strftime stock_code no_adj_dir hfq_dir qfq_dir output_dir w na hf qf out ->
  forall i, i < nrows out -> i < nrows na ->
    F64.is_zero (as_float (cell na Col.close_ i)) = true ->
    is_finite_nonzero (as_float (cell out "close" i)) = true ->
    F64.is_inf (as_float (cell out "factor" i)) = true.
Proof.
  intros He i Hi Hn Hz Hf.
  rewrite (proj1 (emitted_factor_by_position He Hi) Hn). simpl.
  apply div_by_zero_is_infinite; assumption.
Qed.

Lemma emits_w_zero :
  emits Ex.iso_dates "600001" "daily" "daily_hfq" "daily_qfq" "out" Ex2.w_zero
        Ex2.na_zero Ex.hf Ex.qf (Ex.emitted Ex2.w_zero).
Proof.
  unfold emits. repeat split; try reflexivity.
  eexists. split; vm_compute; reflexivity.
Defined.

Lemma zero_close_gives_infinite_factor_witness :
  emits Ex.iso_dates "600001" "daily" "daily_hfq" "daily_qfq" "out" Ex2.w_zero
        Ex2.na_zero Ex.hf Ex.qf (Ex.emitted Ex2.w_zero) /\
  0 < nrows (Ex.emitted Ex2.w_zero) /\ 0 < nrows Ex2.na_zero /\
  F64.is_zero (as_float (cell Ex2.na_zero Col.close_ 0)) = true /\
  is_finite_nonzero (as_float (cell (Ex.emitted Ex2.w_zero) "close" 0)) = true /\
  F64.is_inf (as_float (cell (Ex.emitted Ex2.w_zero) "factor" 0)) = true.
Proof.
  assert (0 < nrows (Ex.emitted Ex2.w_zero)) as H0 by (vm_compute; lia).
  assert (0 < nrows Ex2.na_zero) as G0 by (vm_compute; lia).
  assert (F64.is_zero (as_float (cell Ex2.na_zero Col.close_ 0)) = true) as Z
    by (vm_compute; reflexivity).
  assert (is_finite_nonzero (as_float (cell (Ex.emitted Ex2.w_zero) "close" 0)) = true) as F
    by (vm_compute; reflexivity).
  refine (conj emits_w_zero (conj H0 (conj G0 (conj Z (conj F _))))).
  exact (zero_close_gives_infinite_factor emits_w_zero H0 G0 Z F).
Defined.

Lemma emits_w_gap :
  emits Ex.iso_dates "600001" "daily" "daily_hfq" "daily_qfq" "out" Ex2.w_gap
        Ex.na Ex2.hf_gap Ex.qf (Ex.emitted Ex2.w_gap).
Proof.
  unfold emits. repeat split; try reflexivity.
  eexists. split; vm_compute; reflexivity.
Defined.

Lemma unmatched_date_has_no_factor_witness :
  emits Ex.iso_dates "600001" "daily" "daily_hfq" "daily_qfq" "out" Ex2.w_gap
        Ex.na Ex2.hf_gap Ex.qf (Ex.emitted Ex2.w_gap) /\
  1 < nrows (Ex.emitted Ex2.w_gap) /\
  (forall k, k < nrows Ex2.hf_gap ->
     key_eqb (cell (Ex.emitted Ex2.w_gap) "date" 1)
             (nth k (date_keys Ex.iso_dates Ex2.hf_gap) NaN) = false) /\
  cell (Ex.emitted Ex2.w_gap) "close" 1 = NaN /\
  cell (Ex.emitted Ex2.w_gap) "factor" 1 = NaN.
Proof.
  assert (1 < nrows (Ex.emitted Ex2.w_gap)) as H1 by (vm_compute; lia).
  assert (forall k, k < nrows Ex2.hf_gap ->
            key_eqb (cell (Ex.emitted Ex2.w_gap) "date" 1)
                    (nth k (date_keys Ex.iso_dates Ex2.hf_gap) NaN) = false) as HN.
  { intros k Hk. destruct k as [|k]; [vm_compute; reflexivity|].
    exfalso. simpl in Hk. lia. }
  exact (conj emits_w_gap (conj H1 (conj HN
           (unmatched_date_has_no_factor emits_w_gap H1 HN)))).
Defined.

(** ** The file store, continued *)

Lemma store_idem (p : path) (f : file) (l : list (path * file)) :
  store p f (store p f l) = store p f l.
Proof.
  induction l as [|[q g] l IH]; simpl.
  - rewrite path_eqb_refl. reflexivity.
  - destruct (path_eqb q p) eqn:E; simpl; rewrite E; [reflexivity|]. rewrite IH. reflexivity.
Qed.

Lemma store_keys (p : path) (f : file) (l : list (path * file)) :
  map fst (store p f l)
  = match find_file p l with
    | Some _ => map fst l
    | None => map fst l ++ [p]
    end.
Proof.
  induction l as [|[q g] l IH]; simpl; [reflexivity|].
  destruct (path_eqb q p) eqn:E; simpl; [reflexivity|].
  rewrite IH. destruct (find_file p l); reflexivity.
Qed.

Lemma listdir_keys (fl : filesystem) (d : string) :
  listdir fl d = map snd (filter (fun q => String.eqb (fst q) d) (map fst (files fl))).
Proof.
  unfold listdir. induction (files fl) as [|[q g] l IH]; simpl; [reflexivity|].
  destruct (String.eqb (fst q) d); simpl; rewrite IH; reflexivity.
Qed.

Lemma find_file_listed (fl : filesystem) (d n : string) (f : file) :
  find_file (d, n) (files fl) = Some f -> In n (listdir fl d).
Proof.
  unfold listdir. induction (files fl) as [|[q g] l IH]; simpl; [discriminate|].
  destruct (path_eqb q (d, n)) eqn:E.
  - intros _. apply path_eqb_eq in E. subst q. simpl. rewrite String.eqb_refl. left. reflexivity.
  - intros H. destruct (String.eqb (fst q) d); [right|]; apply IH; exact H.
Qed.

Lemma find_file_isdir (fl : filesystem) (d n : string) (f : file) :
  find_file (d, n) (files fl) = Some f -> isdir fl d = true.
Proof.
  intros H. unfold isdir. apply orb_true_iff. right. apply existsb_exists.
  induction (files fl) as [|[q g] l IH]; simpl in *; [discriminate|].
  destruct (path_eqb q (d, n)) eqn:E.
  - apply path_eqb_eq in E. subst q. exists ((d, n), g). split; [left; reflexivity|].
    simpl. apply String.eqb_refl.
  - destruct (IH H) as [x [Hx Ex]]. exists x. split; [right; exact Hx|exact Ex].
Qed.

(** ** Strings, continued *)

Lemma endswith_app (p s : string) : Str.endswith p (s ++ p) = true.
Proof.
  induction s as [|a s IH].
  - change (Str.endswith p p = true).
    destruct p; cbn [Str.endswith]; rewrite String.eqb_refl; reflexivity.
  - change (String.eqb p (String a (s ++ p)) || Str.endswith p (s ++ p) = true).
    rewrite IH. apply orb_true_r.
Qed.

Lemma contains_app (c : ascii) (s t : string) :
  Str.contains c (s ++ t) = Str.contains c s || Str.contains c t.
Proof.
  induction s as [|a s IH]; simpl; [reflexivity|]. rewrite IH. apply orb_assoc.
Qed.

Lemma string_app_assoc (s t u : string) : ((s ++ t) ++ u = s ++ (t ++ u))%string.
Proof. induction s as [|a s IH]; simpl; [reflexivity|]. rewrite IH. reflexivity. Qed.

Lemma split_head_no_sep (c : ascii) (s : string) : Str.contains c (Str.split_head c s) = false.
Proof.
  induction s as [|a s IH]; simpl; [reflexivity|].
  destruct (Ascii.eqb a c) eqn:E; simpl; [reflexivity|]. rewrite E, IH. reflexivity.
Qed.

Lemma exchange_of_cases (code : string) : exchange_of code = "SH" \/ exchange_of code = "SZ".
Proof. unfold exchange_of. destruct (Str.startswith "6" code); auto. Qed.

Lemma output_name_length (code : string) :
  String.length (output_name code) = String.length code + 6.
Proof.
  unfold output_name. rewrite !string_length_append.
  destruct (exchange_of_cases code) as [-> | ->]; simpl; lia.
Qed.

Lemma output_name_visible (code : string) : ishidden (output_name code) = false.
Proof.
  unfold output_name. destruct (exchange_of_cases code) as [-> | ->]; reflexivity.
Qed.

Lemma output_name_is_not_input (code suffix : string) :
  6 < String.length suffix -> output_name code <> (code ++ suffix)%string.
Proof.
  intros H E. apply (f_equal String.length) in E.
  rewrite output_name_length, string_length_append in E. lia.
Qed.

(** ** Successful runs *)

Section SuccessfulRuns.

Variable to_datetime_strftime : column -> string + list (option string).

Variables stock_code no_adj_dir hfq_dir qfq_dir output_dir : string.

Local Abbreviation normalizer :=
  (process_stock_data to_datetime_strftime stock_code no_adj_dir hfq_dir qfq_dir output_dir).
Local Abbreviation out_path := (output_dir, output_name stock_code).

(** The world after a successful run. *)
Lemma successful_run_world (w w' : world) :
  normalizer w = (inr true, w') ->
  exists na hf qf out,
    file_at w (no_adj_dir, (stock_code ++ "_daily.csv")%string) = Some (Csv na) /\
    file_at w (hfq_dir, (stock_code ++ "_daily_hfq.csv")%string) = Some (Csv hf) /\
    file_at w (qfq_dir, (stock_code ++ "_daily_qfq.csv")%string) = Some (Csv qf) /\
    qlib_frame to_datetime_strftime (exchange_of stock_code) stock_code na hf qf = inr out /\
    mem output_dir (readonly (fs w)) = false /\
    w' = {| fs := {| dirs := dirs (fs (after_makedirs output_dir w));
                     files := store out_path (Csv out) (files (fs w));
                     readonly := readonly (fs w) |};
            stdout := stdout w |}.
Proof.
  intros H. apply normalizer_true in H. revert H.
  unfold process_stock_data_try, bind, read_csv, lift, to_csv, write_file, ret,
    os_path_join, file_at, after_makedirs.
  destruct (find_file _ (files (fs w))) as [[na|]|]; try discriminate.
  destruct (find_file _ (files (fs w))) as [[hf|]|]; try discriminate.
  destruct (find_file _ (files (fs w))) as [[qf|]|]; try discriminate.
  destruct (qlib_frame to_datetime_strftime (exchange_of stock_code) stock_code na hf qf)
    as [|out] eqn:F; try discriminate.
  unfold makedirs.
  destruct (isdir (fs w) output_dir) eqn:D; simpl.
  - destruct (mem output_dir (readonly (fs w))) eqn:R; [discriminate|].
    rewrite D. simpl. intros H. inversion H; subst.
    exists na, hf, qf, out. repeat split; solve [reflexivity | assumption].
  - destruct (mem output_dir (readonly (fs w))) eqn:R; [discriminate|].
    unfold isdir, mem. simpl. rewrite existsb_app. simpl.
    rewrite String.eqb_refl, orb_true_r. simpl.
    intros H. inversion H; subst.
    exists na, hf, qf, out. repeat split; solve [reflexivity | assumption].
Qed.

Lemma successful_run_isdir (w w' : world) :
  normalizer w = (inr true, w') ->
  isdir (fs w') output_dir = true /\ readonly (fs w') = readonly (fs w) /\
  mem output_dir (readonly (fs w)) = false.
Proof.
  intros H. apply successful_run_world in H.
  destruct H as (na & hf & qf & out & _ & _ & _ & _ & HR & ->). simpl.
  split; [|split; [reflexivity|exact HR]].
  apply (find_file_isdir _ output_dir (output_name stock_code) (f := Csv out)). simpl.
  apply find_file_store_same.
Qed.

End SuccessfulRuns.

(** X10.  Running the normalizer again on an instrument it has just
    processed changes nothing: the same three files are read (the output
    file can not be one of them), the same table is written over the
    output file, and nothing is printed. *)
Theorem rerun_changes_nothing
  (to_datetime_strftime : column -> string + list (option string))
  (stock_code no_adj_dir hfq_dir qfq_dir output_dir : string) (w w1 : world) :
  process_stock_data to_datetime_strftime stock_code no_adj_dir hfq_dir qfq_dir output_dir w
  = (inr true, w1) ->
  process_stock_data to_datetime_strftime stock_code no_adj_dir hfq_dir qfq_dir output_dir w1
  = (inr true, w1).
Proof.
  intros H. pose proof (successful_run_isdir _ _ _ _ _ _ _ H) as (D1 & R1 & HR).
  apply successful_run_world in H.
  destruct H as (na & hf & qf & out & H1 & H2 & H3 & HF & _ & ->).
  assert (forall d suffix, 6 < String.length suffix ->
            find_file (d, (stock_code ++ suffix)%string)
              (store (output_dir, output_name stock_code) (Csv out) (files (fs w)))
            = find_file (d, (stock_code ++ suffix)%string) (files (fs w))) as Other.
  { intros d suffix Hs. apply find_file_store_other. intros E. inversion E as [[E1 E2]].
    exact (output_name_is_not_input stock_code suffix Hs E2). }
  unfold file_at in H1, H2, H3.
  remember {| fs := {| dirs := dirs (fs (after_makedirs output_dir w));
                       files := store (output_dir, output_name stock_code) (Csv out)
                                  (files (fs w));
                       readonly := readonly (fs w) |};
              stdout := stdout w |} as w1 eqn:Ew1.
  assert (files (fs w1)
          = store (output_dir, output_name stock_code) (Csv out) (files (fs w))) as Fw
    by (subst w1; reflexivity).
  assert (find_file (no_adj_dir, (stock_code ++ "_daily.csv")%string) (files (fs w1))
          = Some (Csv na)) as F1 by (rewrite Fw, Other; [exact H1|simpl; lia]).
  assert (find_file (hfq_dir, (stock_code ++ "_daily_hfq.csv")%string) (files (fs w1))
          = Some (Csv hf)) as F2 by (rewrite Fw, Other; [exact H2|simpl; lia]).
  assert (find_file (qfq_dir, (stock_code ++ "_daily_qfq.csv")%string) (files (fs w1))
          = Some (Csv qf)) as F3 by (rewrite Fw, Other; [exact H3|simpl; lia]).
  rewrite normalizer_run.
  unfold process_stock_data_try, bind, read_csv, lift, to_csv, write_file, ret, os_path_join.
  rewrite F1, F2, F3, HF. unfold makedirs. rewrite D1. simpl.
  rewrite R1, HR, D1. simpl. f_equal.
  rewrite Fw, store_idem, Ew1. reflexivity.
Qed.

Lemma rerun_changes_nothing_witness :
  process_stock_data Ex.iso_dates "600001" "daily" "daily_hfq" "daily_qfq" "out" Ex.w1
  = (inr true, snd (process_stock_data Ex.iso_dates "600001" "daily" "daily_hfq"
                      "daily_qfq" "out" Ex.w1)) /\
  process_stock_data Ex.iso_dates "600001" "daily" "daily_hfq" "daily_qfq" "out"
    (snd (process_stock_data Ex.iso_dates "600001" "daily" "daily_hfq" "daily_qfq" "out" Ex.w1))
  = (inr true, snd (process_stock_data Ex.iso_dates "600001" "daily" "daily_hfq"
                      "daily_qfq" "out" Ex.w1)).
Proof.
  assert (process_stock_data Ex.iso_dates "600001" "daily" "daily_hfq" "daily_qfq" "out" Ex.w1
          = (inr true, snd (process_stock_data Ex.iso_dates "600001" "daily" "daily_hfq"
                              "daily_qfq" "out" Ex.w1))) as H by (vm_compute; reflexivity).
  exact (conj H (rerun_changes_nothing _ _ _ _ _ _ _ H)).
Defined.

(** ** What a run of the normalizer leaves on disk *)

Section RunFootprint.

Variable to_datetime_strftime : column -> string + list (option string).

Variables stock_code no_adj_dir hfq_dir qfq_dir output_dir : string.

Local Abbreviation normalizer :=
  (process_stock_data to_datetime_strftime stock_code no_adj_dir hfq_dir qfq_dir output_dir).
Local Abbreviation out_path := (output_dir, output_name stock_code).

Lemma isdir_after_makedirs (d e : string) (w : world) :
  isdir (fs w) e = true -> isdir (fs (after_makedirs d w)) e = true.
Proof.
  unfold after_makedirs, makedirs. destruct (isdir (fs w) d); simpl; [auto|].
  unfold isdir, mem. simpl. rewrite existsb_app. intros H.
  apply orb_true_iff in H. destruct H as [H|H]; rewrite H; simpl; auto using orb_true_r.
Qed.

Lemma files_after_makedirs (d : string) (w : world) :
  files (fs (after_makedirs d w)) = files (fs w).
Proof. unfold after_makedirs, makedirs. destruct (isdir (fs w) d); reflexivity. Qed.

Lemma readonly_after_makedirs (d : string) (w : world) :
  readonly (fs (after_makedirs d w)) = readonly (fs w).
Proof. unfold after_makedirs, makedirs. destruct (isdir (fs w) d); reflexivity. Qed.

Lemma isdir_store (fl : filesystem) (ds : list string) (p : path) (f : file) (e : string) :
  isdir {| dirs := ds; files := files fl; readonly := readonly fl |} e = true ->
  isdir {| dirs := ds; files := store p f (files fl); readonly := readonly fl |} e = true.
Proof.
  unfold isdir. simpl. intros H. apply orb_true_iff in H. apply orb_true_iff.
  destruct H as [H|H]; [left; exact H|right].
  apply existsb_exists in H. destruct H as [x [Hx Ex]]. apply existsb_exists.
  induction (files fl) as [|[q g] l IH]; simpl in *; [contradiction|].
  destruct Hx as [Hx|Hx].
  - subst x. simpl in Ex. destruct (path_eqb q p).
    + exists (q, f). split; [left; reflexivity|exact Ex].
    + exists (q, g). split; [left; reflexivity|exact Ex].
  - destruct (IH Hx) as [y [Hy Ey]]. destruct (path_eqb q p).
    + exists x. split; [right; exact Hx|exact Ex].
    + exists y. split; [right; exact Hy|exact Ey].
Qed.

(** A failed run, seen from the file system. *)
Lemma failed_run_world (w w' : world) :
  normalizer w = (inr false, w') ->
  files (fs w') = files (fs w) /\
  readonly (fs w') = readonly (fs w) /\
  (fs w' = fs w \/
   (mem output_dir (readonly (fs w)) = true /\ fs w' = fs (after_makedirs output_dir w))).
Proof.
  rewrite normalizer_run.
  destruct (process_stock_data_try to_datetime_strftime stock_code no_adj_dir hfq_dir
              qfq_dir output_dir w) as [[e|b] w1] eqn:T.
  - intros H. inversion H; subst w'; clear H. simpl.
    pose proof (try_block_raises_world _ _ _ _ _ _ _ T) as [->|[HR ->]].
    + auto.
    + split; [apply files_after_makedirs|]. split; [apply readonly_after_makedirs|].
      right. auto.
  - intros H. inversion H; subst b w1.
    apply try_block_returns in T. destruct T as [T _]. discriminate.
Qed.

(** Directories are never removed, and the read-only ones stay so. *)
Lemma run_keeps_directories (w w' : world) (b : bool) :
  normalizer w = (inr b, w') ->
  readonly (fs w') = readonly (fs w) /\
  (forall e, isdir (fs w) e = true -> isdir (fs w') e = true).
Proof.
  destruct b; intros H.
  - apply successful_run_world in H.
    destruct H as (na & hf & qf & out & _ & _ & _ & _ & _ & ->). simpl.
    split; [reflexivity|]. intros e He.
    apply (isdir_after_makedirs output_dir) in He.
    pose proof (files_after_makedirs output_dir w) as Ef.
    pose proof (readonly_after_makedirs output_dir w) as Er.
    destruct (fs (after_makedirs output_dir w)) as [ds fl ro]. simpl in *. subst fl ro.
    apply (isdir_store (fs w) ds out_path (Csv out) e).
    destruct (fs w); exact He.
  - apply failed_run_world in H. destruct H as (Ef & Er & [E|[_ E]]).
    + rewrite E. auto.
    + split; [exact Er|]. intros e He. rewrite E. apply isdir_after_makedirs. exact He.
Qed.

(** Every path but the output path holds after a run what it held
    before. *)
Lemma run_other_files (w w' : world) (b : bool) (p : path) :
  normalizer w = (inr b, w') -> p <> out_path -> file_at w' p = file_at w p.
Proof.
  intros Hn Hp. unfold file_at. destruct b.
  - apply successful_run_world in Hn.
    destruct Hn as (na & hf & qf & out & _ & _ & _ & _ & _ & ->). simpl.
    apply find_file_store_other. congruence.
  - apply failed_run_world in Hn. destruct Hn as [-> _]. reflexivity.
Qed.

End RunFootprint.

(** X11.  Whatever its outcome, a run of the normalizer touches no file
    but its output file: every other path holds afterwards what it held
    before, the three input files among them. *)
Theorem only_the_output_file_is_written
  (to_datetime_strftime : column -> string + list (option string))
  (stock_code no_adj_dir hfq_dir qfq_dir output_dir : string) (w w' : world)
  (r : result bool) (p : path) :
  process_stock_data to_datetime_strftime stock_code no_adj_dir hfq_dir qfq_dir output_dir w
  = (r, w') ->
  p <> (output_dir, output_name stock_code) ->
  file_at w' p = file_at w p.
Proof.
  intros H Hp.
  destruct (normalizer_total to_datetime_strftime no_adj_dir hfq_dir qfq_dir output_dir
              stock_code w) as [b [w1 Hn]].
  rewrite Hn in H. inversion H; subst r w1; clear H.
  eapply run_other_files; [exact Hn|exact Hp].
Qed.

Lemma only_the_output_file_is_written_witness :
  ("daily", "600001_daily.csv") <> ("out", output_name "600001") /\
  file_at (snd (process_stock_data Ex.iso_dates "600001" "daily" "daily_hfq" "daily_qfq"
                  "out" Ex.w1)) ("daily", "600001_daily.csv")
  = file_at Ex.w1 ("daily", "600001_daily.csv").
Proof.
  assert (("daily", "600001_daily.csv") <> ("out", output_name "600001")) as Hp
    by (vm_compute; discriminate).
  refine (conj Hp _).
  exact (@only_the_output_file_is_written Ex.iso_dates "600001" "daily" "daily_hfq"
           "daily_qfq" "out" Ex.w1 _ _ _ (surjective_pairing _) Hp).
Defined.

(** ** The manifest generator *)

(** The three ways [generate_instruments_file] can end. *)
Lemma generate_cases (d : string) (w : world) :
  let lines := map (fun f => Str.split_head "." (basename f)) (glob_star (fs w) d ".csv") in
  generate_instruments_file d w
  = if mem d (readonly (fs w)) then (inl (PermissionError (path_str (manifest_path d))), w)
    else if isdir (fs w) d
    then (inr tt,
          say {| fs := {| dirs := dirs (fs w);
                          files := store (manifest_path d) (Text lines) (files (fs w));
                          readonly := readonly (fs w) |};
                 stdout := stdout w |}
              ("已生成 " ++ path_str (manifest_path d) ++ "，包含 "
               ++ Str.of_nat (length lines) ++ " 只股票")%string)
    else (inl (FileNotFoundError (path_str (manifest_path d))), w).
Proof.
  cbv zeta.
  unfold generate_instruments_file, bind, glob, write_file, print, os_path_join,
    manifest_path, say.
  cbn [fst snd].
  destruct (mem d (readonly (fs w))); [reflexivity|].
  destruct (isdir (fs w) d); reflexivity.
Qed.

Lemma filter_dir_store (d : string) (p : path) (f : file) (l : list (path * file)) :
  map snd (filter (fun q => String.eqb (fst q) d) (map fst (store p f l)))
  = match find_file p l with
    | Some _ => map snd (filter (fun q => String.eqb (fst q) d) (map fst l))
    | None => map snd (filter (fun q => String.eqb (fst q) d) (map fst l))
              ++ (if String.eqb (fst p) d then [snd p] else [])
    end.
Proof.
  rewrite store_keys. destruct (find_file p l); [reflexivity|].
  rewrite filter_app, map_app. simpl. destruct (String.eqb (fst p) d); reflexivity.
Qed.

(** Writing a file whose name the pattern does not match leaves the result
    of the glob as it was. *)
Lemma glob_star_store (ds ro : list string) (l : list (path * file))
  (d e n suffix : string) (f : file) :
  Str.endswith suffix n = false ->
  glob_star {| dirs := ds; files := store (e, n) f l; readonly := ro |} d suffix
  = glob_star {| dirs := ds; files := l; readonly := ro |} d suffix.
Proof.
  intros Hn. unfold glob_star. f_equal. rewrite !listdir_keys. simpl files.
  rewrite filter_dir_store. destruct (find_file (e, n) l); [reflexivity|].
  rewrite filter_app. simpl fst. simpl snd.
  destruct (String.eqb e d); simpl; [|rewrite app_nil_r; reflexivity].
  rewrite Hn, andb_false_r. rewrite app_nil_r. reflexivity.
Qed.

(** X12.  The manifest never lists itself, so generating it a second time
    changes nothing on disk: the second run finds the same files, writes
    the same lines and prints the same message. *)
Theorem manifest_generation_is_idempotent (d : string) (w w1 : world) :
  generate_instruments_file d w = (inr tt, w1) ->
  exists line,
    stdout w1 = stdout w ++ [line] /\
    generate_instruments_file d w1 = (inr tt, say w1 line).
Proof.
  rewrite generate_cases. cbv zeta.
  destruct (mem d (readonly (fs w))) eqn:R; [discriminate|].
  destruct (isdir (fs w) d) eqn:D; [|discriminate].
  intros H. inversion H as [E]; clear H.
  eexists. split; [reflexivity|].
  rewrite generate_cases. cbv zeta. unfold say. cbn [fs stdout files readonly dirs].
  rewrite R.
  assert (isdir {| dirs := dirs (fs w);
                   files := store (manifest_path d)
                              (Text (map (fun f => Str.split_head "." (basename f))
                                       (glob_star (fs w) d ".csv"))) (files (fs w));
                   readonly := readonly (fs w) |} d = true) as D1.
  { apply (find_file_isdir _ d instruments_name
             (f := Text (map (fun f => Str.split_head "." (basename f))
                       (glob_star (fs w) d ".csv")))).
    simpl. apply find_file_store_same. }
  rewrite D1.
  assert (glob_star {| dirs := dirs (fs w);
                       files := store (manifest_path d)
                                  (Text (map (fun f => Str.split_head "." (basename f))
                                           (glob_star (fs w) d ".csv"))) (files (fs w));
                       readonly := readonly (fs w) |} d ".csv"
          = glob_star (fs w) d ".csv") as G.
  { unfold manifest_path. rewrite glob_star_store by reflexivity.
    destruct (fs w); reflexivity. }
  rewrite G, store_idem. reflexivity.
Qed.

Lemma manifest_generation_is_idempotent_witness :
  generate_instruments_file "out" Ex.w_out
  = (inr tt, snd (generate_instruments_file "out" Ex.w_out)) /\
  exists line,
    stdout (snd (generate_instruments_file "out" Ex.w_out)) = stdout Ex.w_out ++ [line] /\
    generate_instruments_file "out" (snd (generate_instruments_file "out" Ex.w_out))
    = (inr tt, say (snd (generate_instruments_file "out" Ex.w_out)) line).
Proof.
  assert (generate_instruments_file "out" Ex.w_out
          = (inr tt, snd (generate_instruments_file "out" Ex.w_out))) as H
    by (vm_compute; reflexivity).
  exact (conj H (manifest_generation_is_idempotent "out" Ex.w_out H)).
Defined.

(** A file [<exchange><code>.csv] of a writable directory is listed by
    the manifest generator, which can not fail then; the line is the
    prefixed code when the code holds no dot. *)
Lemma listed_when_present (d code : string) (f : file) (w : world) :
  file_at w (d, output_name code) = Some f ->
  mem d (readonly (fs w)) = false ->
  exists w2 lines,
    generate_instruments_file d w = (inr tt, w2) /\
    files (fs w2) = store (manifest_path d) (Text lines) (files (fs w)) /\
    (Str.contains "." code = false -> In (exchange_of code ++ code)%string lines).
Proof.
  intros Hf HR. unfold file_at in Hf.
  rewrite generate_cases. cbv zeta. rewrite HR, (find_file_isdir _ _ _ Hf).
  eexists. eexists. split; [reflexivity|]. split; [reflexivity|].
  intros Hdot. apply in_map_iff. exists (d, output_name code). split.
  - unfold basename, output_name. simpl snd.
    rewrite <- string_app_assoc. apply split_head_append.
    rewrite contains_app, Hdot.
    destruct (exchange_of_cases code) as [-> | ->]; reflexivity.
  - unfold glob_star. apply (in_map (os_path_join d)). apply filter_In. split.
    + exact (find_file_listed _ _ _ Hf).
    + rewrite output_name_visible. simpl. unfold output_name.
      rewrite <- string_app_assoc. apply endswith_app.
Qed.

(** X13.  An instrument the normalizer has just processed is listed by
    the manifest generator, under its exchange prefix, provided its code
    holds no dot; the generator can not fail then, the output directory
    being there and writable. *)
Theorem processed_instrument_is_listed
  (to_datetime_strftime : column -> string + list (option string))
  (stock_code no_adj_dir hfq_dir qfq_dir output_dir : string) (w w1 : world) :
  process_stock_data to_datetime_strftime stock_code no_adj_dir hfq_dir qfq_dir output_dir w
  = (inr true, w1) ->
  Str.contains "." stock_code = false ->
  exists w2 lines,
    generate_instruments_file output_dir w1 = (inr tt, w2) /\
    file_at w2 (manifest_path output_dir) = Some (Text lines) /\
    In (exchange_of stock_code ++ stock_code)%string lines.
Proof.
  intros H Hdot.
  pose proof (successful_run_isdir _ _ _ _ _ _ _ H) as (_ & R1 & HR).
  assert (exists out, file_at w1 (output_dir, output_name stock_code) = Some (Csv out))
    as [out Hout].
  { apply successful_run_world in H.
    destruct H as (na & hf & qf & out & _ & _ & _ & _ & _ & ->).
    exists out. unfold file_at. simpl. apply find_file_store_same. }
  rewrite <- R1 in HR.
  destruct (listed_when_present _ _ _ Hout HR) as (w2 & lines & G & F & L).
  exists w2, lines. split; [exact G|]. split; [|exact (L Hdot)].
  unfold file_at. rewrite F. apply find_file_store_same.
Qed.

Lemma processed_instrument_is_listed_witness :
  process_stock_data Ex.iso_dates "600001" "daily" "daily_hfq" "daily_qfq" "out" Ex.w1
  = (inr true, snd (process_stock_data Ex.iso_dates "600001" "daily" "daily_hfq"
                      "daily_qfq" "out" Ex.w1)) /\
  Str.contains "." "600001" = false /\
  exists w2 lines,
    generate_instruments_file "out"
      (snd (process_stock_data Ex.iso_dates "600001" "daily" "daily_hfq" "daily_qfq" "out"
              Ex.w1)) = (inr tt, w2) /\
    file_at w2 (manifest_path "out") = Some (Text lines) /\
    In (exchange_of "600001" ++ "600001")%string lines.
Proof.
  assert (process_stock_data Ex.iso_dates "600001" "daily" "daily_hfq" "daily_qfq" "out" Ex.w1
          = (inr true, snd (process_stock_data Ex.iso_dates "600001" "daily" "daily_hfq"
                              "daily_qfq" "out" Ex.w1))) as H by (vm_compute; reflexivity).
  exact (conj H (conj eq_refl (processed_instrument_is_listed _ _ _ _ _ _ _ H eq_refl))).
Defined.

(** ** Discovery of the instruments *)

Lemma visible_app (code suffix : string) :
  Str.startswith "." code = false -> Str.startswith "." suffix = false ->
  ishidden (code ++ suffix) = false.
Proof.
  unfold ishidden. destruct code as [|a code]; [intros _ H; exact H|].
  intros H _.
  change (Ascii.eqb "." a && true = false) in H.
  change (Ascii.eqb "." a && true = false). exact H.
Qed.

Lemma file_is_discovered (no_adj_dir code : string) (f : file) (w : world) :
  file_at w (no_adj_dir, (code ++ "_daily.csv")%string) = Some f ->
  Str.contains "_" code = false ->
  Str.startswith "." code = false ->
  In code (discovered_codes no_adj_dir w).
Proof.
  intros Hf Hu Hd.
  unfold discovered_codes. apply in_map_iff.
  exists (no_adj_dir, (code ++ "_daily.csv")%string). split.
  - unfold basename. simpl snd. apply (split_head_append "_" code "daily.csv" Hu).
  - unfold glob_star. apply (in_map (os_path_join no_adj_dir)). apply filter_In. split.
    + exact (find_file_listed _ _ _ Hf).
    + rewrite (visible_app code "_daily.csv" Hd eq_refl). simpl. apply endswith_app.
Qed.

Lemma discovered_no_underscore (no_adj_dir : string) (w : world) (c : string) :
  In c (discovered_codes no_adj_dir w) -> Str.contains "_" c = false.
Proof.
  intros Hc. unfold discovered_codes in Hc. apply in_map_iff in Hc.
  destruct Hc as [x [<- _]]. apply split_head_no_sep.
Qed.

(** X14.  [main] discovers an instrument from its unadjusted file alone:
    a file [<code>_daily.csv] in the unadjusted directory puts [code]
    among the codes to process, provided [code] holds no underscore and
    does not start with a dot.  No discovered code ever holds an
    underscore: a file [a_b_daily.csv] is processed as instrument [a]. *)
Theorem unadjusted_file_is_discovered (no_adj_dir code : string) (f : file) (w : world) :
  file_at w (no_adj_dir, (code ++ "_daily.csv")%string) = Some f ->
  Str.contains "_" code = false ->
  Str.startswith "." code = false ->
  In code (discovered_codes no_adj_dir w) /\
  forall c, In c (discovered_codes no_adj_dir w) -> Str.contains "_" c = false.
Proof.
  intros Hf Hu Hd. split.
  - exact (file_is_discovered _ _ _ Hf Hu Hd).
  - apply discovered_no_underscore.
Qed.

Lemma unadjusted_file_is_discovered_witness :
  file_at Ex.w_batch ("daily", ("000001" ++ "_daily.csv")%string) = Some (Csv Ex.na) /\
  In "000001" (discovered_codes "daily" Ex.w_batch).
Proof.
  refine (conj eq_refl _).
  exact (proj1 (@unadjusted_file_is_discovered "daily" "000001" (Csv Ex.na) Ex.w_batch
                  eq_refl eq_refl eq_refl)).
Defined.

(** ** The batch driver *)

Section Batch.

Variable to_datetime_strftime : column -> string + list (option string).

Variables no_adj_dir hfq_dir qfq_dir output_dir : string.

Local Abbreviation normalizer := (process_stock_data to_datetime_strftime).
Local Abbreviation results := (outcomes to_datetime_strftime no_adj_dir hfq_dir qfq_dir output_dir).
Local Abbreviation step := (count_step to_datetime_strftime no_adj_dir hfq_dir qfq_dir output_dir).

(** What a run of the normalizer prints. *)
Lemma run_stdout (c : string) (w w' : world) (b : bool) :
  normalizer c no_adj_dir hfq_dir qfq_dir output_dir w = (inr b, w') ->
  exists l, stdout w' = stdout w ++ l.
Proof.
  rewrite normalizer_run.
  destruct (process_stock_data_try to_datetime_strftime c no_adj_dir hfq_dir qfq_dir
              output_dir w) as [[e|b'] w1] eqn:T; intros H; inversion H; subst; clear H.
  - destruct (try_block_raises _ _ _ _ _ _ _ T) as (_ & E2 & _).
    exists [diagnostic c e]. simpl. rewrite E2. reflexivity.
  - apply try_block_returns in T.
    destruct T as (_ & na & hf & qf & out & _ & _ & _ & _ & _ & T & _).
    exists []. rewrite app_nil_r. exact T.
Qed.

(** The loop of [main], seen from the file system: it keeps the
    directories and their permissions; it leaves the output directory in
    place as soon as one instrument succeeds; it leaves a writable world
    untouched when none does; and none does when the output directory
    refuses writes. *)
Lemma loop_footprint (codes : list string) (acc : nat) (w : world) :
  exists w',
    for_each codes step acc w = (inr (acc + successes (results codes w)), w') /\
    readonly (fs w') = readonly (fs w) /\
    (forall e, isdir (fs w) e = true -> isdir (fs w') e = true) /\
    (0 < successes (results codes w) -> isdir (fs w') output_dir = true) /\
    (successes (results codes w) = 0 -> mem output_dir (readonly (fs w)) = false ->
     fs w' = fs w) /\
    (mem output_dir (readonly (fs w)) = true ->
     successes (results codes w) = 0 /\ files (fs w') = files (fs w)) /\
    (exists l, stdout w' = stdout w ++ l).
Proof.
  revert acc w. induction codes as [|c codes IH]; intros acc w.
  - exists w. simpl. unfold ret. rewrite Nat.add_0_r.
    split; [reflexivity|]. split; [reflexivity|]. split; [auto|].
    split; [unfold successes; simpl; lia|]. split; [auto|]. split; [auto|].
    exists []. rewrite app_nil_r. reflexivity.
  - destruct (normalizer_total to_datetime_strftime no_adj_dir hfq_dir qfq_dir output_dir c w)
      as [b [w1 Hn]].
    destruct (IH (if b then S acc else acc) w1)
      as (w' & IH1 & IH2 & IH3 & IH4 & IH5 & IH6 & [l2 IH7]).
    destruct (run_keeps_directories _ _ _ _ _ _ _ Hn) as [K1 K2].
    destruct (run_stdout _ _ Hn) as [l1 K3].
    assert (results (c :: codes) w = b :: results codes w1) as ER
      by (simpl; rewrite Hn; reflexivity).
    rewrite ER.
    assert (successes (b :: results codes w1)
            = (if b then 1 else 0) + successes (results codes w1)) as ES
      by (unfold successes; destruct b; simpl; reflexivity).
    exists w'. split.
    { simpl for_each. unfold bind at 1, count_step, bind at 1, ret. rewrite Hn.
      transitivity (for_each codes step (if b then S acc else acc) w1); [reflexivity|].
      rewrite IH1, ES. f_equal. f_equal. destruct b; lia. }
    split; [rewrite IH2; exact K1|].
    split; [intros e He; apply IH3, K2, He|].
    split.
    { intros Hpos. destruct b.
      - apply IH3. exact (proj1 (successful_run_isdir _ _ _ _ _ _ _ Hn)).
      - apply IH4. rewrite ES in Hpos. simpl in Hpos. exact Hpos. }
    split.
    { intros Hz HR. rewrite ES in Hz. destruct b; [simpl in Hz; lia|]. simpl in Hz.
      destruct (failed_run_world _ _ _ _ _ _ _ Hn) as (_ & _ & [E|[HR' _]]);
        [|rewrite HR in HR'; discriminate].
      rewrite <- E. apply IH5; [exact Hz|]. rewrite K1. exact HR. }
    split.
    { intros HR. destruct b.
      - destruct (successful_run_isdir _ _ _ _ _ _ _ Hn) as (_ & _ & HR').
        rewrite HR in HR'. discriminate.
      - rewrite ES. simpl. rewrite <- K1 in HR. destruct (IH6 HR) as [Z F].
        split; [exact Z|]. rewrite F.
        exact (proj1 (failed_run_world _ _ _ _ _ _ _ Hn)). }
    exists (l1 ++ l2). rewrite IH7, K3, app_assoc. reflexivity.
Qed.

(** [main] is its loop followed by the manifest generator. *)
Lemma run_is_loop_then_manifest (w : world) :
  let codes := discovered_codes no_adj_dir w in
  forall n w',
    for_each codes step 0 (say w (found_line (length codes))) = (inr n, w') ->
    run to_datetime_strftime no_adj_dir hfq_dir qfq_dir output_dir w
    = generate_instruments_file output_dir (say w' (summary n (length codes))).
Proof.
  cbv zeta. intros n w' Hl.
  unfold run, bind at 1, glob. fold (discovered_codes no_adj_dir w).
  unfold bind at 1, print at 1. fold (found_line (length (discovered_codes no_adj_dir w))).
  fold (say w (found_line (length (discovered_codes no_adj_dir w)))).
  unfold bind at 1. rewrite Hl. unfold bind, print. reflexivity.
Qed.

End Batch.

Lemma fs_say (w : world) (line : string) : fs (say w line) = fs w.
Proof. reflexivity. Qed.

Lemma stdout_say (w : world) (line : string) : stdout (say w line) = stdout w ++ [line].
Proof. reflexivity. Qed.

(** X15.  [main] returns normally, with the manifest written, whenever the
    output directory accepts writes and either exists beforehand or is
    created by an instrument that succeeds. *)
Theorem batch_completes
  (to_datetime_strftime : column -> string + list (option string))
  (no_adj_dir hfq_dir qfq_dir output_dir : string) (w : world) :
  mem output_dir (readonly (fs w)) = false ->
  isdir (fs w) output_dir = true \/
  0 < successes (batch_outcomes to_datetime_strftime no_adj_dir hfq_dir qfq_dir output_dir w) ->
  exists w' lines,
    run to_datetime_strftime no_adj_dir hfq_dir qfq_dir output_dir w = (inr tt, w') /\
    file_at w' (manifest_path output_dir) = Some (Text lines).
Proof.
  intros HR HD. unfold batch_outcomes in HD.
  set (codes := discovered_codes no_adj_dir w) in *.
  destruct (loop_footprint to_datetime_strftime no_adj_dir hfq_dir qfq_dir output_dir codes 0
              (say w (found_line (length codes))))
    as (w1 & L1 & L2 & L3 & L4 & _).
  rewrite (run_is_loop_then_manifest _ _ _ _ _ _ L1).
  rewrite fs_say in L2, L3.
  rewrite generate_cases. cbv zeta. rewrite !fs_say, L2, HR.
  assert (isdir (fs w1) output_dir = true) as D.
  { destruct HD as [HD|HD]; [apply L3; exact HD|apply L4; exact HD]. }
  rewrite D. eexists. eexists. split; [reflexivity|].
  unfold file_at. rewrite fs_say. simpl. apply find_file_store_same.
Qed.

Lemma batch_completes_witness :
  mem "out" (readonly (fs Ex2.w_fresh)) = false /\
  0 < successes (batch_outcomes Ex.iso_dates "daily" "daily_hfq" "daily_qfq" "out" Ex2.w_fresh) /\
  exists w' lines,
    run Ex.iso_dates "daily" "daily_hfq" "daily_qfq" "out" Ex2.w_fresh = (inr tt, w') /\
    file_at w' (manifest_path "out") = Some (Text lines).
Proof.
  assert (0 < successes (batch_outcomes Ex.iso_dates "daily" "daily_hfq" "daily_qfq" "out"
                           Ex2.w_fresh)) as H by (vm_compute; lia).
  refine (conj eq_refl (conj H _)).
  exact (batch_completes Ex.iso_dates "daily" "daily_hfq" "daily_qfq" "out" Ex2.w_fresh
           eq_refl (or_intror H)).
Defined.

(** X16.  When the output directory does not exist and no instrument
    succeeds (so that nothing creates it), [main] does not return: after
    the summary line it raises the [FileNotFoundError] of the manifest,
    which nothing catches, and leaves the file system as it found it. *)
Theorem batch_without_output_directory_raises
  (to_datetime_strftime : column -> string + list (option string))
  (no_adj_dir hfq_dir qfq_dir output_dir : string) (w : world) :
  isdir (fs w) output_dir = false ->
  mem output_dir (readonly (fs w)) = false ->
  successes (batch_outcomes to_datetime_strftime no_adj_dir hfq_dir qfq_dir output_dir w) = 0 ->
  exists w' l,
    run to_datetime_strftime no_adj_dir hfq_dir qfq_dir output_dir w
    = (inl (FileNotFoundError (path_str (manifest_path output_dir))), w') /\
    fs w' = fs w /\
    stdout w'
    = stdout w ++ found_line (length (discovered_codes no_adj_dir w))
               :: l ++ [summary 0 (length (discovered_codes no_adj_dir w))].
Proof.
  intros HD HR HS. unfold batch_outcomes in HS.
  set (codes := discovered_codes no_adj_dir w) in *.
  destruct (loop_footprint to_datetime_strftime no_adj_dir hfq_dir qfq_dir output_dir codes 0
              (say w (found_line (length codes))))
    as (w1 & L1 & L2 & _ & _ & L5 & _ & [l L7]).
  rewrite (run_is_loop_then_manifest _ _ _ _ _ _ L1).
  rewrite fs_say in L5. specialize (L5 HS HR).
  rewrite generate_cases. cbv zeta. rewrite !fs_say, L5, HR, HD, HS.
  eexists. exists l. split; [reflexivity|].
  split; [rewrite fs_say; exact L5|].
  rewrite stdout_say, L7, stdout_say, <- !app_assoc. reflexivity.
Qed.

Lemma batch_without_output_directory_raises_witness :
  isdir (fs Ex2.w_bare) "out" = false /\
  successes (batch_outcomes Ex.iso_dates "daily" "daily_hfq" "daily_qfq" "out" Ex2.w_bare) = 0 /\
  exists w' l,
    run Ex.iso_dates "daily" "daily_hfq" "daily_qfq" "out" Ex2.w_bare
    = (inl (FileNotFoundError (path_str (manifest_path "out"))), w') /\
    fs w' = fs Ex2.w_bare /\
    stdout w'
    = stdout Ex2.w_bare ++ found_line (length (discovered_codes "daily" Ex2.w_bare))
                        :: l ++ [summary 0 (length (discovered_codes "daily" Ex2.w_bare))].
Proof.
  assert (successes (batch_outcomes Ex.iso_dates "daily" "daily_hfq" "daily_qfq" "out"
                       Ex2.w_bare) = 0) as H by (vm_compute; reflexivity).
  refine (conj eq_refl (conj H _)).
  exact (batch_without_output_directory_raises Ex.iso_dates "daily" "daily_hfq" "daily_qfq"
           "out" Ex2.w_bare eq_refl eq_refl H).
Defined.

(** X17.  When the output directory refuses writes, no instrument
    succeeds, whatever its input: [main] prints a summary of zero
    successes and then raises the [PermissionError] of the manifest; no
    file has been written. *)
Theorem batch_on_read_only_output_raises
  (to_datetime_strftime : column -> string + list (option string))
  (no_adj_dir hfq_dir qfq_dir output_dir : string) (w : world) :
  mem output_dir (readonly (fs w)) = true ->
  exists w' l,
    run to_datetime_strftime no_adj_dir hfq_dir qfq_dir output_dir w
    = (inl (PermissionError (path_str (manifest_path output_dir))), w') /\
    files (fs w') = files (fs w) /\
    stdout w'
    = stdout w ++ found_line (length (discovered_codes no_adj_dir w))
               :: l ++ [summary 0 (length (discovered_codes no_adj_dir w))].
Proof.
  intros HR.
  set (codes := discovered_codes no_adj_dir w) in *.
  destruct (loop_footprint to_datetime_strftime no_adj_dir hfq_dir qfq_dir output_dir codes 0
              (say w (found_line (length codes))))
    as (w1 & L1 & L2 & _ & _ & _ & L6 & [l L7]).
  rewrite (run_is_loop_then_manifest _ _ _ _ _ _ L1).
  rewrite fs_say in L2, L6. destruct (L6 HR) as [HS HF].
  rewrite generate_cases. cbv zeta. rewrite !fs_say, L2, HR, HS.
  eexists. exists l. split; [reflexivity|].
  split; [rewrite fs_say; exact HF|].
  rewrite stdout_say, L7, stdout_say, <- !app_assoc. reflexivity.
Qed.

Lemma batch_on_read_only_output_raises_witness :
  mem "out" (readonly (fs Ex.w_ro)) = true /\
  exists w' l,
    run Ex.iso_dates "daily" "daily_hfq" "daily_qfq" "out" Ex.w_ro
    = (inl (PermissionError (path_str (manifest_path "out"))), w') /\
    files (fs w') = files (fs Ex.w_ro) /\
    stdout w'
    = stdout Ex.w_ro ++ found_line (length (discovered_codes "daily" Ex.w_ro))
                     :: l ++ [summary 0 (length (discovered_codes "daily" Ex.w_ro))].
Proof.
  refine (conj eq_refl _).
  exact (batch_on_read_only_output_raises Ex.iso_dates "daily" "daily_hfq" "daily_qfq" "out"
           Ex.w_ro eq_refl).
Defined.

(** ** The number of emitted rows *)

Lemma join_row_fanout (rk : list scalar) (i : nat) (k : scalar) :
  length (join_row rk i k) = fanout k rk.
Proof.
  unfold join_row, fanout. destruct (matches k rk) as [|j js]; [reflexivity|].
  rewrite length_map. simpl length. lia.
Qed.

Lemma join_from_fanout (lk rk : list scalar) (s : nat) :
  length (join_from s lk rk) = list_sum (map (fun k => fanout k rk) lk).
Proof.
  revert s. induction lk as [|k lk IH]; intros s; simpl; [reflexivity|].
  rewrite length_app, join_row_fanout, IH. reflexivity.
Qed.

Lemma left_idx_join_row (rk : list scalar) (i : nat) (k : scalar) :
  left_idx (join_row rk i k) = repeat (Some i) (fanout k rk).
Proof.
  unfold left_idx, join_row, fanout.
  destruct (matches k rk) as [|j js]; [reflexivity|].
  replace (Nat.max 1 (length (j :: js))) with (length (j :: js)) by (simpl; lia).
  generalize (j :: js). intros l.
  induction l as [|a l IH]; simpl; [reflexivity|]. rewrite IH. reflexivity.
Qed.

(** The keys of the first join: each left key, once per row it gives. *)
Lemma left_keys_join (rk pre lk : list scalar) :
  map (fun o => match o with Some j => nth j (pre ++ lk) NaN | None => NaN end)
      (left_idx (join_from (length pre) lk rk))
  = flat_map (fun k => repeat k (fanout k rk)) lk.
Proof.
  revert pre. induction lk as [|k lk IH]; intros pre; [reflexivity|].
  simpl join_from. simpl flat_map. unfold left_idx in *. rewrite map_app, map_app.
  f_equal.
  - fold (left_idx (join_row rk (length pre) k)). rewrite left_idx_join_row, map_repeat.
    rewrite app_nth2 by lia. rewrite Nat.sub_diag. reflexivity.
  - specialize (IH (pre ++ [k])). rewrite length_app, <- app_assoc in IH. simpl in IH.
    rewrite Nat.add_1_r in IH. exact IH.
Qed.

Lemma list_sum_repeated (f g : scalar -> nat) (l : list scalar) :
  list_sum (map g (flat_map (fun k => repeat k (f k)) l))
  = list_sum (map (fun k => f k * g k) l).
Proof.
  induction l as [|k l IH]; simpl; [reflexivity|].
  rewrite map_app, list_sum_app, IH. f_equal.
  induction (f k) as [|n IHn]; simpl; [reflexivity|]. rewrite IHn. reflexivity.
Qed.

Lemma qfq_join_length
  (to_datetime_strftime : column -> string + list (option string)) (na hf qf : DataFrame) :
  length (qfq_join to_datetime_strftime na hf qf)
  = list_sum (map (fun k => fanout k (date_keys to_datetime_strftime hf)
                            * fanout k (date_keys to_datetime_strftime qf))
                  (date_keys to_datetime_strftime na)).
Proof.
  unfold qfq_join, merged_keys, hfq_join, join_indexer.
  change (col_scalars (col_take ?idx (Object ?l)))
    with (map (fun o => match o with Some j => nth j l NaN | None => NaN end) idx).
  pose proof (left_keys_join (date_keys to_datetime_strftime hf) []
                (date_keys to_datetime_strftime na)) as E.
  simpl in E. rewrite E, join_from_fanout. apply list_sum_repeated.
Qed.

(** X18.  The number of rows of an emitted table: every row of the
    unadjusted table gives as many rows as its date has rows in the
    backward-adjusted table (one when it has none) times as many as it
    has in the forward-adjusted table (one when it has none). *)
Theorem emitted_rows_multiply_by_matches
  (to_datetime_strftime : column -> string + list (option string))
  (stock_code no_adj_dir hfq_dir qfq_dir output_dir : string)
  (w : world) (na hf qf out : DataFrame) :
  emits to_datetime_strftime stock_code no_adj_dir hfq_dir qfq_dir output_dir w na hf qf out ->
  nrows out
  = list_sum (map (fun k => fanout k (date_keys to_datetime_strftime hf)
                            * fanout k (date_keys to_datetime_strftime qf))
                  (date_keys to_datetime_strftime na)).
Proof.
  intros He. apply emitted_table in He.
  destruct He as (L & A & CN & HO & HC & HH & HL & H).
  destruct H as (_ & _ & _ & _ & _ & _ & _ & _ & _ & _ & HN & _).
  rewrite HN. apply qfq_join_length.
Qed.

Lemma emitted_rows_multiply_by_matches_witness :
  emits Ex.iso_dates "600001" "daily" "daily_hfq" "daily_qfq" "out" Ex.w_dup
        Ex.na Ex.hf_dup Ex.qf (Ex.emitted Ex.w_dup) /\
  nrows (Ex.emitted Ex.w_dup)
  = list_sum (map (fun k => fanout k (date_keys Ex.iso_dates Ex.hf_dup)
                            * fanout k (date_keys Ex.iso_dates Ex.qf))
                  (date_keys Ex.iso_dates Ex.na)).
Proof.
  exact (conj emits_w_dup (emitted_rows_multiply_by_matches emits_w_dup)).
Defined.

(** ** The forward-adjusted table *)

Lemma cell_ext (n : nat) (cols cols' : list (string * column)) :
  Forall2 (fun a b => fst a = fst b /\
                      forall i, col_get (reindex n (snd a)) i = col_get (reindex n (snd b)) i)
          cols cols' ->
  forall name i,
    cell {| nrows := n; columns := cols |} name i
    = cell {| nrows := n; columns := cols' |} name i.
Proof.
  intros H name i. unfold cell, getitem. simpl.
  induction H as [|[a ca] [b cb] l l' [Hn Hc] _ IH]; simpl; [reflexivity|].
  simpl in Hn. subst b. destruct (String.eqb a name); [apply Hc|exact IH].
Qed.

(** X19.  The forward-adjusted table counts for its dates only: two
    forward-adjusted tables with the same dates, whatever their prices,
    give tables of the same rows, headers and cells. *)
Theorem forward_adjusted_prices_are_ignored
  (to_datetime_strftime : column -> string + list (option string))
  (ex code : string) (na hf qf qf' out out' : DataFrame) :
  qlib_frame to_datetime_strftime ex code na hf qf = inr out ->
  qlib_frame to_datetime_strftime ex code na hf qf' = inr out' ->
  date_keys to_datetime_strftime qf' = date_keys to_datetime_strftime qf ->
  nrows out' = nrows out /\
  header out' = header out /\
  forall name i, cell out' name i = cell out name i.
Proof.
  intros H H' HK.
  apply qlib_frame_inv in H.
  destruct H as (L & A & CN & HO & HC & HH & HL & Q & G & F &
                 E1 & E2 & E3 & E4 & E5 & E6 & E7 & _ & _ & _ & EQ & LG & CG & EF & ->).
  apply qlib_frame_inv in H'.
  destruct H' as (L' & A' & CN' & HO' & HC' & HH' & HL' & Q' & G' & F' &
                  E1' & E2' & E3' & E4' & E5' & E6' & E7' & _ & _ & _ &
                  EQ' & LG' & CG' & EF' & ->).
  rewrite E1 in E1'. rewrite E2 in E2'. rewrite E3 in E3'. rewrite E4 in E4'.
  rewrite E5 in E5'. rewrite E6 in E6'. rewrite E7 in E7'.
  inversion E1'; inversion E2'; inversion E3'; inversion E4'; inversion E5';
    inversion E6'; inversion E7'; subst L' A' CN' HO' HC' HH' HL'.
  clear E1' E2' E3' E4' E5' E6' E7'.
  assert (qfq_join to_datetime_strftime na hf qf' = qfq_join to_datetime_strftime na hf qf)
    as EJ by (unfold qfq_join; rewrite HK; reflexivity).
  assert (forall c, from_left to_datetime_strftime na hf qf' c
                    = from_left to_datetime_strftime na hf qf c) as EL
    by (intros c; unfold from_left; rewrite EJ; reflexivity).
  assert (forall c, from_hfq to_datetime_strftime na hf qf' c
                    = from_hfq to_datetime_strftime na hf qf c) as EH
    by (intros c; unfold from_hfq; rewrite EJ; reflexivity).
  rewrite !EL, !EH, EJ in *.
  rewrite EQ in EQ'. inversion EQ'; subst Q'. rewrite EF in EF'. inversion EF'; subst F'.
  split; [reflexivity|]. split; [reflexivity|].
  apply cell_ext.
  repeat (apply Forall2_cons; [split; [reflexivity|]|]); try (intros i; reflexivity);
    [|apply Forall2_nil].
  intros i. simpl snd. rewrite (reindex_id G' LG'), (reindex_id G LG).
  destruct (Nat.lt_ge_cases i (length (qfq_join to_datetime_strftime na hf qf))) as [Hi|Hi].
  - destruct (CG i Hi) as [b [Pb ->]]. destruct (CG' i Hi) as [b' [Pb' ->]].
    rewrite Pb in Pb'. inversion Pb'. reflexivity.
  - rewrite !col_get_past by lia. reflexivity.
Qed.

Lemma forward_adjusted_prices_are_ignored_witness :
  qlib_frame Ex.iso_dates "SH" "600001" Ex.na Ex.hf Ex.qf = inr (Ex2.frame_with Ex.qf) /\
  qlib_frame Ex.iso_dates "SH" "600001" Ex.na Ex.hf Ex2.qf_other
  = inr (Ex2.frame_with Ex2.qf_other) /\
  date_keys Ex.iso_dates Ex2.qf_other = date_keys Ex.iso_dates Ex.qf /\
  forall name i,
    cell (Ex2.frame_with Ex2.qf_other) name i = cell (Ex2.frame_with Ex.qf) name i.
Proof.
  assert (qlib_frame Ex.iso_dates "SH" "600001" Ex.na Ex.hf Ex.qf
          = inr (Ex2.frame_with Ex.qf)) as H1 by (vm_compute; reflexivity).
  assert (qlib_frame Ex.iso_dates "SH" "600001" Ex.na Ex.hf Ex2.qf_other
          = inr (Ex2.frame_with Ex2.qf_other)) as H2 by (vm_compute; reflexivity).
  assert (date_keys Ex.iso_dates Ex2.qf_other = date_keys Ex.iso_dates Ex.qf) as H3
    by (vm_compute; reflexivity).
  exact (conj H1 (conj H2 (conj H3
           (proj2 (proj2 (@forward_adjusted_prices_are_ignored _ _ _ _ _ _ _ _ _ H1 H2 H3)))))).
Defined.

(** ** The batch, end to end *)

Lemma output_name_no_underscore (code : string) :
  Str.contains "_" code = false -> Str.contains "_" (output_name code) = false.
Proof.
  intros H. unfold output_name. rewrite !contains_app, H.
  destruct (exchange_of_cases code) as [-> | ->]; reflexivity.
Qed.

Lemma output_name_inj (c c' : string) : output_name c = output_name c' -> c = c'.
Proof.
  unfold output_name. intros H.
  assert ((c ++ ".csv")%string = (c' ++ ".csv")%string) as E.
  { destruct (exchange_of_cases c) as [E1|E1], (exchange_of_cases c') as [E2|E2];
      rewrite E1, E2 in H; inversion H; reflexivity. }
  apply (f_equal strip_csv) in E. rewrite !strip_csv_append in E. exact E.
Qed.

Lemma input_name_underscored (code suffix : string) :
  Str.contains "_" (code ++ String "_" suffix) = true.
Proof. rewrite contains_app. simpl. apply orb_true_r. Qed.

Section BatchFiles.

Variable to_datetime_strftime : column -> string + list (option string).

Variables no_adj_dir hfq_dir qfq_dir output_dir : string.

Local Abbreviation normalizer := (process_stock_data to_datetime_strftime).
Local Abbreviation step := (count_step to_datetime_strftime no_adj_dir hfq_dir qfq_dir output_dir).
Local Abbreviation frame := (qlib_frame to_datetime_strftime).

(** One turn of the loop of [main]. *)
Lemma loop_step (c : string) (codes : list string) (acc : nat) (w w1 : world) (b : bool) :
  normalizer c no_adj_dir hfq_dir qfq_dir output_dir w = (inr b, w1) ->
  for_each (c :: codes) step acc w = for_each codes step (if b then S acc else acc) w1.
Proof.
  intros Hn. simpl for_each. unfold bind at 1, count_step, bind at 1, ret. rewrite Hn.
  reflexivity.
Qed.

(** A run for a code without underscore leaves the files with an
    underscore in their name as they are. *)
Lemma step_keeps_underscored (c : string) (w w' : world) (b : bool) (p : path) :
  Str.contains "_" c = false ->
  normalizer c no_adj_dir hfq_dir qfq_dir output_dir w = (inr b, w') ->
  Str.contains "_" (snd p) = true ->
  file_at w' p = file_at w p.
Proof.
  intros Hc Hn Hp. eapply run_other_files; [exact Hn|].
  intros ->. simpl in Hp. rewrite (output_name_no_underscore _ Hc) in Hp. discriminate.
Qed.

Lemma loop_keeps_underscored (codes : list string) :
  (forall c, In c codes -> Str.contains "_" c = false) ->
  forall acc w n w',
    for_each codes step acc w = (inr n, w') ->
    forall p, Str.contains "_" (snd p) = true -> file_at w' p = file_at w p.
Proof.
  induction codes as [|c codes IH]; intros HC acc w n w' Hl p Hp.
  - simpl in Hl. unfold ret in Hl. inversion Hl. reflexivity.
  - destruct (normalizer_total to_datetime_strftime no_adj_dir hfq_dir qfq_dir output_dir c w)
      as [b [w1 Hn]].
    rewrite (@loop_step _ codes acc _ _ _ Hn) in Hl.
    rewrite (IH (fun c' H => HC c' (or_intror H)) _ _ _ _ Hl p Hp).
    exact (@step_keeps_underscored _ _ _ _ p (HC c (or_introl eq_refl)) Hn Hp).
Qed.

Section OneInstrument.

Variables (c : string) (na hf qf out : DataFrame).

Local Abbreviation na_path := (no_adj_dir, (c ++ "_daily.csv")%string).
Local Abbreviation hf_path := (hfq_dir, (c ++ "_daily_hfq.csv")%string).
Local Abbreviation qf_path := (qfq_dir, (c ++ "_daily_qfq.csv")%string).
Local Abbreviation out_path := (output_dir, output_name c).

(** Once the table of an instrument is in its output file, the rest of
    the loop keeps it there: another instrument writes another file, and
    a second run for the same instrument writes the same table. *)
Lemma loop_preserves_output (codes : list string) :
  (forall c', In c' codes -> Str.contains "_" c' = false) ->
  frame (exchange_of c) c na hf qf = inr out ->
  forall acc w n w',
    file_at w na_path = Some (Csv na) ->
    file_at w hf_path = Some (Csv hf) ->
    file_at w qf_path = Some (Csv qf) ->
    file_at w out_path = Some (Csv out) ->
    for_each codes step acc w = (inr n, w') ->
    file_at w' out_path = Some (Csv out).
Proof.
  intros HC HF. induction codes as [|a codes IH]; intros acc w n w' H1 H2 H3 HO Hl.
  - simpl in Hl. unfold ret in Hl. inversion Hl; subst. exact HO.
  - destruct (normalizer_total to_datetime_strftime no_adj_dir hfq_dir qfq_dir output_dir a w)
      as [b [w1 Hn]].
    rewrite (@loop_step _ codes acc _ _ _ Hn) in Hl.
    pose proof (HC a (or_introl eq_refl)) as Ha.
    apply (IH (fun c' H => HC c' (or_intror H)) (if b then S acc else acc) w1 n w');
      try exact Hl.
    + rewrite (@step_keeps_underscored _ _ _ _ na_path Ha Hn (input_name_underscored c _)).
      exact H1.
    + rewrite (@step_keeps_underscored _ _ _ _ hf_path Ha Hn (input_name_underscored c _)).
      exact H2.
    + rewrite (@step_keeps_underscored _ _ _ _ qf_path Ha Hn (input_name_underscored c _)).
      exact H3.
    + destruct (string_dec a c) as [->|Hne].
      * destruct b.
        -- apply successful_run_world in Hn.
           destruct Hn as (na' & hf' & qf' & out' & E1 & E2 & E3 & F & _ & ->).
           rewrite H1 in E1. rewrite H2 in E2. rewrite H3 in E3.
           inversion E1; inversion E2; inversion E3; subst na' hf' qf'.
           rewrite HF in F. inversion F; subst out'.
           unfold file_at. simpl. apply find_file_store_same.
        -- apply failed_run_world in Hn. destruct Hn as [E _].
           unfold file_at in *. rewrite E. exact HO.
      * rewrite <- HO. eapply run_other_files; [exact Hn|].
        intros E. inversion E as [E']. apply output_name_inj in E'. congruence.
Qed.

(** The loop of [main] leaves the table of every well-formed instrument
    among its codes in the output file of that instrument. *)
Lemma loop_emits (codes : list string) :
  (forall c', In c' codes -> Str.contains "_" c' = false) ->
  In c codes ->
  well_formed to_datetime_strftime na hf qf = true ->
  frame (exchange_of c) c na hf qf = inr out ->
  forall acc w,
    file_at w na_path = Some (Csv na) ->
    file_at w hf_path = Some (Csv hf) ->
    file_at w qf_path = Some (Csv qf) ->
    mem output_dir (readonly (fs w)) = false ->
    exists n w',
      for_each codes step acc w = (inr n, w') /\
      file_at w' out_path = Some (Csv out) /\
      readonly (fs w') = readonly (fs w).
Proof.
  intros HC Hin HW HF.
  induction codes as [|a codes IH]; intros acc w H1 H2 H3 HR; [contradiction|].
  pose proof (HC a (or_introl eq_refl)) as Ha.
  destruct (normalizer_total to_datetime_strftime no_adj_dir hfq_dir qfq_dir output_dir a w)
    as [b [w1 Hn]].
  rewrite (@loop_step _ codes acc _ _ _ Hn).
  destruct (run_keeps_directories _ _ _ _ _ _ _ Hn) as [K1 _].
  pose proof (@step_keeps_underscored _ _ _ _ na_path Ha Hn (input_name_underscored c _)) as I1.
  pose proof (@step_keeps_underscored _ _ _ _ hf_path Ha Hn (input_name_underscored c _)) as I2.
  pose proof (@step_keeps_underscored _ _ _ _ qf_path Ha Hn (input_name_underscored c _)) as I3.
  rewrite H1 in I1. rewrite H2 in I2. rewrite H3 in I3.
  destruct (string_dec a c) as [->|Hne].
  - destruct (@well_formed_emits to_datetime_strftime c no_adj_dir hfq_dir qfq_dir output_dir
                w na hf qf H1 H2 H3 HW HR) as [out' He].
    pose proof He as F'. apply emits_frame in F'. rewrite HF in F'. inversion F'; subst out'.
    destruct He as (_ & _ & _ & w1' & Hrun & Hout).
    rewrite Hn in Hrun. inversion Hrun; subst b w1'.
    destruct (loop_footprint to_datetime_strftime no_adj_dir hfq_dir qfq_dir output_dir
                codes (S acc) w1) as (w' & L1 & L2 & _).
    eexists. exists w'. split; [exact L1|]. split; [|rewrite L2; exact K1].
    exact (@loop_preserves_output codes (fun c' H => HC c' (or_intror H)) HF _ _ _ _
             I1 I2 I3 Hout L1).
  - destruct Hin as [E|Hin]; [contradiction|].
    rewrite <- K1 in HR.
    destruct (IH (fun c' H => HC c' (or_intror H)) Hin (if b then S acc else acc) w1
                I1 I2 I3 HR) as (n & w' & L1 & L2 & L3).
    exists n, w'. split; [exact L1|]. split; [exact L2|]. rewrite L3. exact K1.
Qed.

End OneInstrument.

End BatchFiles.

(** X20.  Whatever its outcome, [main] leaves every file whose name
    holds an underscore as it was: the names it writes, the output files
    of the discovered codes and the manifest, hold none.  In particular
    it never overwrites one of its input files, even when the output
    directory is one of the input directories. *)
Theorem batch_never_touches_input_files
  (to_datetime_strftime : column -> string + list (option string))
  (no_adj_dir hfq_dir qfq_dir output_dir : string) (w w' : world) (r : result unit)
  (p : path) :
  run to_datetime_strftime no_adj_dir hfq_dir qfq_dir output_dir w = (r, w') ->
  Str.contains "_" (snd p) = true ->
  file_at w' p = file_at w p.
Proof.
  intros H Hp.
  destruct (loop_footprint to_datetime_strftime no_adj_dir hfq_dir qfq_dir output_dir
              (discovered_codes no_adj_dir w) 0
              (say w (found_line (length (discovered_codes no_adj_dir w)))))
    as (w1 & L1 & _).
  rewrite (run_is_loop_then_manifest _ _ _ _ _ _ L1) in H.
  pose proof (@loop_keeps_underscored to_datetime_strftime no_adj_dir hfq_dir qfq_dir
                output_dir (discovered_codes no_adj_dir w)
                (discovered_no_underscore no_adj_dir w) _ _ _ _ L1 p Hp) as K.
  change (file_at (say w (found_line (length (discovered_codes no_adj_dir w)))) p)
    with (file_at w p) in K.
  rewrite <- K. rewrite generate_cases in H. cbv zeta in H. rewrite !fs_say in H.
  destruct (mem output_dir (readonly (fs w1)));
    [inversion H; reflexivity|].
  destruct (isdir (fs w1) output_dir); inversion H; [|reflexivity].
  unfold file_at. rewrite fs_say. simpl. apply find_file_store_other.
  intros E. rewrite <- E in Hp. discriminate.
Qed.

Lemma batch_never_touches_input_files_witness :
  Str.contains "_" (snd ("daily", "600001_daily.csv")) = true /\
  file_at (snd (run Ex.iso_dates "daily" "daily_hfq" "daily_qfq" "daily" Ex.w_batch))
          ("daily", "600001_daily.csv")
  = file_at Ex.w_batch ("daily", "600001_daily.csv").
Proof.
  refine (conj eq_refl _).
  exact (@batch_never_touches_input_files Ex.iso_dates "daily" "daily_hfq" "daily_qfq" "daily"
           Ex.w_batch _ _ ("daily", "600001_daily.csv") (surjective_pairing _) eq_refl).
Defined.

(** X21.  [main], end to end: in a world whose output directory accepts
    writes, an instrument with its three files in place and well formed,
    whose code holds no underscore and does not start with a dot, is
    discovered and processed; [main] returns normally; the table computed
    from the three files is in the output file of the instrument when it
    returns, whatever the other instruments did; and the manifest lists
    the instrument under its exchange prefix if the code holds no dot. *)
Theorem batch_emits_and_lists_well_formed_instrument
  (to_datetime_strftime : column -> string + list (option string))
  (no_adj_dir hfq_dir qfq_dir output_dir code : string) (w : world)
  (na hf qf : DataFrame) :
  file_at w (no_adj_dir, (code ++ "_daily.csv")%string) = Some (Csv na) ->
  file_at w (hfq_dir, (code ++ "_daily_hfq.csv")%string) = Some (Csv hf) ->
  file_at w (qfq_dir, (code ++ "_daily_qfq.csv")%string) = Some (Csv qf) ->
  well_formed to_datetime_strftime na hf qf = true ->
  Str.contains "_" code = false ->
  Str.startswith "." code = false ->
  mem output_dir (readonly (fs w)) = false ->
  exists w' out lines,
    run to_datetime_strftime no_adj_dir hfq_dir qfq_dir output_dir w = (inr tt, w') /\
    qlib_frame to_datetime_strftime (exchange_of code) code na hf qf = inr out /\
    file_at w' (output_dir, output_name code) = Some (Csv out) /\
    file_at w' (manifest_path output_dir) = Some (Text lines) /\
    (Str.contains "." code = false -> In (exchange_of code ++ code)%string lines).
Proof.
  intros H1 H2 H3 HW Hu Hd HR.
  destruct (qlib_frame_succeeds to_datetime_strftime (exchange_of code) code _ _ _ HW)
    as [out HF].
  pose proof (@file_is_discovered _ _ _ _ H1 Hu Hd) as Hin.
  destruct (@loop_emits to_datetime_strftime no_adj_dir hfq_dir qfq_dir output_dir
              code na hf qf out (discovered_codes no_adj_dir w)
              (discovered_no_underscore no_adj_dir w) Hin HW HF 0
              (say w (found_line (length (discovered_codes no_adj_dir w))))
              H1 H2 H3 HR) as (n & w1 & L1 & L2 & L3).
  rewrite (run_is_loop_then_manifest _ _ _ _ _ _ L1).
  rewrite fs_say in L3.
  assert (file_at (say w1 (summary n (length (discovered_codes no_adj_dir w))))
            (output_dir, output_name code) = Some (Csv out)) as Hout by exact L2.
  assert (mem output_dir
            (readonly (fs (say w1 (summary n (length (discovered_codes no_adj_dir w))))))
          = false) as HR1 by (rewrite fs_say, L3; exact HR).
  destruct (@listed_when_present _ _ _ _ Hout HR1) as (w2 & lines & G & F & L).
  exists w2, out, lines. split; [exact G|]. split; [exact HF|].
  unfold file_at. rewrite F, fs_say. split; [|split; [apply find_file_store_same|exact L]].
  rewrite find_file_store_other; [exact L2|].
  unfold manifest_path, instruments_name, output_name. intros E. inversion E as [E'].
  destruct (exchange_of_cases code) as [X|X]; rewrite X in E'; discriminate.
Qed.

Lemma batch_emits_and_lists_well_formed_instrument_witness :
  well_formed Ex.iso_dates Ex.na Ex.hf Ex.qf = true /\
  exists w' out lines,
    run Ex.iso_dates "daily" "daily_hfq" "daily_qfq" "out" Ex2.w_fresh = (inr tt, w') /\
    qlib_frame Ex.iso_dates (exchange_of "600001") "600001" Ex.na Ex.hf Ex.qf = inr out /\
    file_at w' ("out", output_name "600001") = Some (Csv out) /\
    file_at w' (manifest_path "out") = Some (Text lines) /\
    (Str.contains "." "600001" = false -> In (exchange_of "600001" ++ "600001")%string lines).
Proof.
  assert (well_formed Ex.iso_dates Ex.na Ex.hf Ex.qf = true) as HW by (vm_compute; reflexivity).
  refine (conj HW _).
  exact (@batch_emits_and_lists_well_formed_instrument Ex.iso_dates "daily" "daily_hfq"
           "daily_qfq" "out" "600001" Ex2.w_fresh Ex.na Ex.hf Ex.qf
           eq_refl eq_refl eq_refl HW eq_refl eq_refl eq_refl).
Defined.
